(** * Rodin3D skill scripts: a shallow embedding and its properties

    The development follows the three Python scripts of the skill:

    - [image_utils.py]        ([Module ImageUtils]):  [validate_image];
    - [api_client.py]         ([Module ApiClient]):   [submit_generation_task],
      [check_task_status], [download_results], [generate_3d_model];
    - [generate_3d_model.py]  ([Module Generate]):    [download_model] and the
      download loop of [main].

    Python values coming back from the service are JSON values ([pyval]);
    dictionaries are finite maps.  Effects (HTTP exchanges, [time.sleep],
    [print], file writes) are threaded through a state-and-exception monad
    that records every effect in a chronological log. *)

From Stdlib Require Import ZArith Ascii DecimalString.
From stdpp Require Import gmap strings list fin_maps.

Set Warnings "-register-all".
Open Scope Z_scope.

(** ** Python values, exceptions and strings *)

Module Py.

(** JSON values as [response.json()] yields them.  Floating point numbers are
    left out: no branch of the scripts inspects one. *)
Inductive pyval : Type :=
| PNone
| PBool (b : bool)
| PInt (z : Z)
| PStr (s : string)
| PList (l : list pyval)
| PDict (d : gmap string pyval).

(** An f-string is kept as its pieces: literal text and interpolated values
    (each interpolation stands for [str(v)]). *)
Inductive piece : Type :=
| Lit (s : string)
| Str (v : pyval).

Definition message : Type := list piece.

Inductive pyexc : Type :=
| Exception_ (m : message)
| ValueError (m : message)
| RequestException (m : message)
| OSError (m : message)
| AttributeError
| TypeError
| NameError.

(** [str(e)] for a caught exception; the built-in errors raised by the
    interpreter itself carry a text that no script inspects. *)
Definition exc_message (e : pyexc) : message :=
  match e with
  | Exception_ m | ValueError m | RequestException m | OSError m => m
  | AttributeError => [Lit "AttributeError"]
  | TypeError => [Lit "TypeError"]
  | NameError => [Lit "NameError"]
  end.

Inductive result (A : Type) : Type :=
| Ok (a : A)
| Raise (e : pyexc).
Arguments Ok {A} a.
Arguments Raise {A} e.

Definition rbind {A B} (r : result A) (k : A -> result B) : result B :=
  match r with
  | Ok a => k a
  | Raise e => Raise e
  end.

(** [bool(v)]: the truth value Python gives to [v] in [if v:] / [if not v:]. *)
Definition truthy (v : pyval) : bool :=
  match v with
  | PNone => false
  | PBool b => b
  | PInt z => negb (z =? 0)
  | PStr s => negb (String.eqb s EmptyString)
  | PList l => match l with [] => false | _ => true end
  | PDict d => negb (bool_decide (d = ∅))
  end.

(** [v == "lit"] for a string literal on the right. *)
Definition eq_str (v : pyval) (lit : string) : bool :=
  match v with
  | PStr s => String.eqb s lit
  | _ => false
  end.

(** [d.get(k, default)] on a dictionary. *)
Definition dict_get (d : gmap string pyval) (k : string) (default : pyval) : pyval :=
  match d !! k with
  | Some v => v
  | None => default
  end.

(** [v.get(k, default)] on an arbitrary value: only dictionaries have
    [.get]; [None], lists, strings and numbers raise [AttributeError]. *)
Definition py_get (v : pyval) (k : string) (default : pyval) : result pyval :=
  match v with
  | PDict d => Ok (dict_get d k default)
  | _ => Raise AttributeError
  end.

(** The items a [for] loop or [enumerate] draws from a value: the elements
    of a list, the characters of a string, the keys of a dictionary; other
    values are not iterable. *)
Fixpoint chars (s : string) : list pyval :=
  match s with
  | EmptyString => []
  | String c s' => PStr (String c EmptyString) :: chars s'
  end.

Definition items (v : pyval) : result (list pyval) :=
  match v with
  | PList l => Ok l
  | PStr s => Ok (chars s)
  | PDict d => Ok (PStr <$> (map_to_list d).*1)
  | _ => Raise TypeError
  end.

(** [len(v)] *)
Definition py_len (v : pyval) : result Z :=
  match v with
  | PList l => Ok (Z.of_nat (length l))
  | PStr s => Ok (Z.of_nat (String.length s))
  | PDict d => Ok (Z.of_nat (size d))
  | _ => Raise TypeError
  end.

(** [k in d] *)
Definition dict_in (k : string) (d : gmap string pyval) : bool :=
  bool_decide (is_Some (d !! k)).

(** [str(z)] for an [int]. *)
Definition str_of_Z (z : Z) : string := NilZero.string_of_int (Z.to_int z).

(** [str(b)] and [str(b).lower()] for a [bool]. *)
Definition str_of_bool (b : bool) : string := if b then "True" else "False".

(** [str(v)] for the scalar values; the [repr] of containers is not modelled. *)
Definition py_str (v : pyval) : option string :=
  match v with
  | PNone => Some "None"
  | PBool b => Some (str_of_bool b)
  | PInt z => Some (str_of_Z z)
  | PStr s => Some s
  | PList _ | PDict _ => None
  end.

Fixpoint render (m : message) : option string :=
  match m with
  | [] => Some EmptyString
  | Lit s :: m' => (fun r => s +:+ r) <$> render m'
  | Str v :: m' =>
      match py_str v, render m' with
      | Some s, Some r => Some (s +:+ r)
      | _, _ => None
      end
  end.

(** *** String primitives ([str] methods and [os.path] for POSIX) *)

Definition lower_ascii (c : ascii) : ascii :=
  let n := nat_of_ascii c in
  if (Nat.leb 65 n && Nat.leb n 90)%bool then ascii_of_nat (n + 32) else c.

(** [s.lower()] (on the ASCII letters). *)
Fixpoint lower (s : string) : string :=
  match s with
  | EmptyString => EmptyString
  | String c s' => String (lower_ascii c) (lower s')
  end.

Fixpoint rfind_from (c : ascii) (s : string) (i last : Z) : Z :=
  match s with
  | EmptyString => last
  | String a s' => rfind_from c s' (i + 1) (if Ascii.eqb a c then i else last)
  end.

(** [s.rfind(c)]: index of the last occurrence, [-1] when there is none. *)
Definition rfind (c : ascii) (s : string) : Z := rfind_from c s 0 (-1).

(** [s[i:]] and [s[:i]] for [0 <= i]. *)
Fixpoint drop_str (n : nat) (s : string) : string :=
  match n, s with
  | O, _ => s
  | S n', String _ s' => drop_str n' s'
  | S _, EmptyString => EmptyString
  end.

Fixpoint take_str (n : nat) (s : string) : string :=
  match n, s with
  | S n', String c s' => String c (take_str n' s')
  | _, _ => EmptyString
  end.

(** [s[i:i+1]] *)
Definition char_at (s : string) (i : Z) : string :=
  take_str 1 (drop_str (Z.to_nat i) s).

(** The [while] loop of [genericpath._splitext]: is there a character other
    than the dot in [p[filenameIndex:dotIndex]]? *)
Fixpoint has_non_dot (p : string) (filenameIndex : Z) (fuel : nat) : bool :=
  match fuel with
  | O => false
  | S fuel' =>
      if negb (String.eqb (char_at p filenameIndex) ".") then true
      else has_non_dot p (filenameIndex + 1) fuel'
  end.

(** [os.path.splitext(p)] *)
Definition splitext (p : string) : string * string :=
  let sepIndex := rfind "/" p in
  let dotIndex := rfind "." p in
  if (sepIndex <? dotIndex) &&
     has_non_dot p (sepIndex + 1) (Z.to_nat (dotIndex - (sepIndex + 1)))
  then (take_str (Z.to_nat dotIndex) p, drop_str (Z.to_nat dotIndex) p)
  else (p, EmptyString).

(** [os.path.basename(p)] *)
Definition basename (p : string) : string :=
  drop_str (Z.to_nat (rfind "/" p + 1)) p.

(** [s.split(c)[0]]: the text before the first [c]. *)
Fixpoint before_first (c : ascii) (s : string) : string :=
  match s with
  | EmptyString => EmptyString
  | String a s' => if Ascii.eqb a c then EmptyString else String a (before_first c s')
  end.

Definition startswith (s pre : string) : bool := String.prefix pre s.

Definition endswith (s suf : string) : bool :=
  String.eqb (drop_str (String.length s - String.length suf) s) suf
  && Nat.leb (String.length suf) (String.length s).

(** [os.path.join(a, b)] *)
Definition path_join (a b : string) : string :=
  if startswith b "/" then b
  else if String.eqb a EmptyString || endswith a "/" then a +:+ b
  else a +:+ "/" +:+ b.

(** [sep.join(l)] *)
Fixpoint join (sep : string) (l : list string) : string :=
  match l with
  | [] => EmptyString
  | [x] => x
  | x :: l' => x +:+ sep +:+ join sep l'
  end.

End Py.
Import Py.

(** ** image_utils.py *)

Module ImageUtils.

(** What the script observes of the file system and of PIL. *)
Record files : Type := {
  path_exists : string -> bool;            (* os.path.exists *)
  getsize : string -> Z;                   (* os.path.getsize *)
  image_size : string -> string + (Z * Z)  (* Image.open(p).size, or str(e) of the exception *)
}.

Definition SUPPORTED_FORMATS : list (string * list string) :=
  [("JPEG", [".jpg"; ".jpeg"]); ("PNG", [".png"]); ("WEBP", [".webp"])].

Definition MAX_FILE_SIZE : Z := 16 * 1024 * 1024.
Definition MIN_RESOLUTION : Z * Z := (512, 512).
Definition MAX_RESOLUTION : Z * Z := (4096, 4096).

(** [valid_extensions]: the lists of [SUPPORTED_FORMATS.values()] in order. *)
Definition valid_extensions : list string :=
  foldl (fun acc formats => acc ++ formats) [] (snd <$> SUPPORTED_FORMATS).

Definition too_low : message :=
  [Lit "Image resolution is too low. Minimum resolution is ";
   Str (PInt (fst MIN_RESOLUTION)); Lit "x"; Str (PInt (snd MIN_RESOLUTION))].

Definition too_high : message :=
  [Lit "Image resolution is too high. Maximum resolution is ";
   Str (PInt (fst MAX_RESOLUTION)); Lit "x"; Str (PInt (snd MAX_RESOLUTION))].

(** The body of the [try]: the message of the exception raised inside, if any. *)
Definition check_resolution (fs : files) (image_path : string) : option message :=
  match image_size fs image_path with
  | inl e => Some [Lit e]
  | inr (width, height) =>
      if (width <? fst MIN_RESOLUTION) || (height <? snd MIN_RESOLUTION) then Some too_low
      else if (fst MAX_RESOLUTION <? width) || (snd MAX_RESOLUTION <? height) then Some too_high
      else None
  end.

(** Line 43: [os.path.splitext(image_path)[1].lower()] *)
Definition extension (image_path : string) : string :=
  lower (snd (splitext image_path)).

Definition validate_image (fs : files) (image_path : string) : result bool :=
  if negb (path_exists fs image_path) then
    Raise (Exception_ [Lit "Image file does not exist"])
  else
    let file_size := getsize fs image_path in
    if MAX_FILE_SIZE <? file_size then
      Raise (Exception_ [Lit "Image file size exceeds ";
                         Str (PInt (MAX_FILE_SIZE / (1024 * 1024))); Lit "MB limit"])
    else
      let ext := extension image_path in
      if negb (bool_decide (ext ∈ valid_extensions)) then
        Raise (Exception_ [Lit "Unsupported image format. Please use one of: ";
                           Lit (join ", " valid_extensions)])
      else
        match check_resolution fs image_path with
        | Some e => Raise (Exception_ (Lit "Failed to validate image: " :: e))
        | None => Ok true
        end.

End ImageUtils.
Import ImageUtils.

(** ** Effects: the log of observable actions and the monad that threads it *)

Module Effects.

(** One part of the multipart upload: [(os.path.basename(path), bytes)] for an
    image given by path, the file object itself otherwise. *)
Inductive file_part : Type :=
| NamedBytes (name content : string)
| FileObject (f : string).

Inductive event : Type :=
| Print (m : message)
| PostRodin (files : list (string * file_part)) (data : gmap string string)
| PostStatus (subscription_key : pyval)
| PostDownload (task_uuid : pyval)
| Sleep (secs : Z)
| Makedirs (dir : string)
| Get (url : pyval)
| OpenWb (path : string)
| Write (path chunk : string).

Record state : Type := {
  log : list event;               (* everything done so far, oldest first *)
  status_calls : nat;             (* requests sent to the status endpoint *)
  disk : gmap string string       (* files written by the download step *)
}.

Definition initial : state := {| log := []; status_calls := 0; disk := ∅ |}.

Definition M (A : Type) : Type := state -> result A * state.

Definition ret {A} (a : A) : M A := fun s => (Ok a, s).

Definition raise {A} (e : pyexc) : M A := fun s => (Raise e, s).

Definition bind {A B} (c : M A) (k : A -> M B) : M B := fun s =>
  match c s with
  | (Ok a, s') => k a s'
  | (Raise e, s') => (Raise e, s')
  end.

Definition lift {A} (r : result A) : M A := fun s => (r, s).

Definition emit (e : event) : M unit := fun s =>
  (Ok tt, {| log := log s ++ [e]; status_calls := status_calls s; disk := disk s |}).

(** [try: body  except C as e: handler(e)], where [catches] tells the
    exceptions of class [C]. *)
Definition try_except {A} (body : M A) (catches : pyexc -> bool)
    (handler : pyexc -> M A) : M A := fun s =>
  match body s with
  | (Ok a, s') => (Ok a, s')
  | (Raise e, s') => if catches e then handler e s' else (Raise e, s')
  end.

Definition print (m : message) : M unit := emit (Print m).

(** [time.sleep(secs)]: a negative length is refused. *)
Definition sleep (secs : Z) : M unit :=
  if secs <? 0 then raise (ValueError [Lit "sleep length must be non-negative"])
  else emit (Sleep secs).

End Effects.
Import Effects.

Declare Scope py_scope.
Delimit Scope py_scope with py.
Notation "x <- c ;; k" := (bind c (fun x => k))
  (at level 100, c at next level, right associativity) : py_scope.
Notation "c ;; k" := (bind c (fun _ => k))
  (at level 100, right associativity) : py_scope.
Open Scope py_scope.

(** A [for] loop whose body may [return]: [Some v] leaves the function with
    [v], [None] goes on with the next element. *)
Fixpoint for_returning {A R} (body : A -> M (option R)) (l : list A) : M (option R) :=
  match l with
  | [] => ret None
  | a :: l' =>
      r <- body a ;;
      match r with
      | Some v => ret (Some v)
      | None => for_returning body l'
      end
  end.

Fixpoint for_each {A} (body : A -> M unit) (l : list A) : M unit :=
  match l with
  | [] => ret tt
  | a :: l' => body a ;; for_each body l'
  end.

(** ** api_client.py *)

Module ApiClient.

(** What an HTTP exchange yields: the decoded JSON object of the response, or
    the text of the [requests.exceptions.RequestException] raised by the call,
    by [raise_for_status] or by [response.json()]. *)
Inductive reply : Type :=
| Response (body : gmap string pyval)
| Failure (e : string).

(** The remote service and the local files, as the client observes them. *)
Record service : Type := {
  read_file : string -> option string;     (* open(path, 'rb').read(); None: the open fails *)
  post_rodin : list (string * file_part) -> gmap string string -> reply;
  post_status : nat -> pyval -> reply;     (* the n-th status request, for a subscription key *)
  post_download : pyval -> reply
}.

(** [Hyper3DAPIClient]: the only field the methods branch on is [api_key]. *)
Record client : Type := { api_key : option string }.

(** [__init__]: [self.api_key = api_key or os.environ.get("HYPER3D_API_KEY")] *)
Definition init (api_key environ_key : option string) : client :=
  {| api_key := match api_key with
                | Some k => if String.eqb k EmptyString then environ_key else Some k
                | None => environ_key
                end |}.

Inductive image : Type :=
| ImagePath (path : string)     (* isinstance(image, str) *)
| ImageFile (f : string).       (* a file object *)

(** The keyword arguments shared by [submit_generation_task] and
    [generate_3d_model]. *)
Record gen_args : Type := {
  images : option (list image);
  prompt : option string;
  tier : string;
  geometry_file_format : string;
  material : string;
  quality : string;
  use_original_alpha : bool;
  seed : option Z;
  quality_override : option Z;
  TAPose : bool;
  bbox_condition : option (list Z);
  mesh_mode : option string;
  addons : option (list string);
  preview_render : bool
}.

(** The signature's defaults. *)
Definition defaults : gen_args := {|
  images := None; prompt := None; tier := "Gen-2"; geometry_file_format := "glb";
  material := "PBR"; quality := "medium"; use_original_alpha := false;
  seed := None; quality_override := None; TAPose := false;
  bbox_condition := None; mesh_mode := Some "Quad"; addons := None;
  preview_render := false |}.

Definition requests_post (r : reply) : M (gmap string pyval) :=
  match r with
  | Response body => ret body
  | Failure e => raise (RequestException [Lit e])
  end.

Definition is_RequestException (e : pyexc) : bool :=
  match e with RequestException _ => true | _ => false end.

(** Lines 48-58: the [files] list. *)
Fixpoint read_images (svc : service) (l : list image) : result (list (string * file_part)) :=
  match l with
  | [] => Ok []
  | ImagePath p :: l' =>
      match read_file svc p with
      | Some content =>
          rbind (read_images svc l') (fun files =>
          Ok (("images", NamedBytes (basename p) content) :: files))
      | None => Raise (OSError [Lit p])
      end
  | ImageFile f :: l' =>
      rbind (read_images svc l') (fun files => Ok (("images", FileObject f) :: files))
  end.

(** Lines 60-87: the [data] dictionary of form fields. *)
Definition form_data (a : gen_args) : gmap string string :=
  let data : gmap string string :=
    <["tier" := tier a]> (
    <["geometry_file_format" := geometry_file_format a]> (
    <["material" := material a]> (
    <["quality" := quality a]> (
    <["use_original_alpha" := lower (str_of_bool (use_original_alpha a))]> (
    <["TAPose" := lower (str_of_bool (TAPose a))]> (
    <["preview_render" := lower (str_of_bool (preview_render a))]> ∅)))))) in
  let data :=                                         (* if prompt: *)
    match prompt a with
    | Some p => if negb (String.eqb p EmptyString) then <["prompt" := p]> data else data
    | None => data
    end in
  let data :=                                         (* if seed is not None: *)
    match seed a with
    | Some z => <["seed" := str_of_Z z]> data
    | None => data
    end in
  let data :=                                         (* if quality_override is not None: *)
    match quality_override a with
    | Some z => <["quality_override" := str_of_Z z]> data
    | None => data
    end in
  let data :=                                         (* if bbox_condition: *)
    match bbox_condition a with
    | Some (x :: l) => <["bbox_condition" := join "," (str_of_Z <$> (x :: l))]> data
    | Some [] | None => data
    end in
  let data :=                                         (* if mesh_mode: *)
    match mesh_mode a with
    | Some m => if negb (String.eqb m EmptyString) then <["mesh_mode" := m]> data else data
    | None => data
    end in
  let data :=                                         (* if addons: *)
    match addons a with
    | Some (x :: l) => <["addons" := join "," (x :: l)]> data
    | Some [] | None => data
    end in
  data.

(** The seven fields that are always sent (lines 60-68). *)
Definition base_fields (a : gen_args) : gmap string string :=
  <["tier" := tier a]> (
  <["geometry_file_format" := geometry_file_format a]> (
  <["material" := material a]> (
  <["quality" := quality a]> (
  <["use_original_alpha" := lower (str_of_bool (use_original_alpha a))]> (
  <["TAPose" := lower (str_of_bool (TAPose a))]> (
  <["preview_render" := lower (str_of_bool (preview_render a))]> ∅)))))).

(** The value each guarded assignment of lines 70-87 stores, [None] when its
    guard fails. *)
Definition nonempty_str (o : option string) : option string :=
  match o with
  | Some s => if String.eqb s EmptyString then None else Some s
  | None => None
  end.

Definition nonempty_joined {A} (f : A -> string) (o : option (list A)) : option string :=
  match o with
  | Some (x :: l) => Some (join "," (f <$> x :: l))
  | Some [] | None => None
  end.

(** [if guard: data[k] = v] *)
Definition set_when (k : string) (o : option string) (data : gmap string string)
    : gmap string string :=
  match o with
  | Some v => <[k := v]> data
  | None => data
  end.

Definition request_files (svc : service) (a : gen_args)
    : result (list (string * file_part)) :=
  match images a with                                 (* if images: *)
  | Some l => read_images svc l
  | None => Ok []
  end.

Definition has_key (self : client) : bool :=
  match api_key self with
  | Some k => negb (String.eqb k EmptyString)
  | None => false
  end.

Definition submit_generation_task (svc : service) (self : client) (a : gen_args)
    : M (gmap string pyval) :=
  if negb (has_key self) then
    raise (ValueError [Lit "API key is required. Please set HYPER3D_API_KEY environment variable or pass it to the constructor."])
  else
    files <- lift (request_files svc a) ;;
    let data := form_data a in
    try_except
      (emit (PostRodin files data) ;;
       requests_post (post_rodin svc files data))
      is_RequestException
      (fun e => raise (Exception_ (Lit "API request failed: " :: exc_message e))).

Definition check_task_status (svc : service) (subscription_key : pyval)
    : M (gmap string pyval) :=
  try_except
    (fun s =>
       let n := status_calls s in
       requests_post (post_status svc n subscription_key)
         {| log := log s ++ [PostStatus subscription_key];
            status_calls := S n; disk := disk s |})
    is_RequestException
    (fun e => raise (Exception_ (Lit "Status check failed: " :: exc_message e))).

Definition download_results (svc : service) (task_uuid : pyval) : M (gmap string pyval) :=
  try_except
    (emit (PostDownload task_uuid) ;;
     requests_post (post_download svc task_uuid))
    is_RequestException
    (fun e => raise (Exception_ (Lit "Download request failed: " :: exc_message e))).

(** Lines 230-237: the loop over [jobs].  It returns [status], [done_count]
    and the loop variable [job], which stays bound to the last item. *)
Fixpoint scan_jobs (l : list pyval) (status : list pyval) (done_count : Z)
    (job : option pyval) : result (list pyval * Z * option pyval) :=
  match l with
  | [] => Ok (status, done_count, job)
  | j :: l' =>
      rbind (py_get j "status" PNone) (fun s =>
      rbind (py_get j "status" PNone) (fun s' =>
      scan_jobs l' (status ++ [s])
        (if eq_str s' "Done" then done_count + 1 else done_count) (Some j)))
  end.

(** The arm of the [if]/[elif] chain of lines 241-250 that a status list
    selects; [Unknown] is the fall-through past the last [elif]. *)
Inductive aggregate_status : Type := Done | Failed | Waiting | Generating | Unknown.

Definition aggregate (status : list pyval) : aggregate_status :=
  if forallb (fun s => eq_str s "Done") status then Done
  else if existsb (fun s => eq_str s "Failed") status then Failed
  else if existsb (fun s => eq_str s "Waiting") status then Waiting
  else if existsb (fun s => eq_str s "Generating") status then Generating
  else Unknown.

(** Lines 241-253: what the selected arm does.  [Some v] is [return v]; [None]
    goes on to the next attempt. *)
Definition dispatch (svc : service) (task_uuid : pyval) (poll_interval : Z)
    (selected : aggregate_status) (job : option pyval)
    : M (option (pyval * gmap string pyval)) :=
  match selected with
  | Done =>
      print [Lit "Task completed successfully!"] ;;
      download_result <- download_results svc task_uuid ;;
      ret (Some (task_uuid, download_result))
  | Failed =>
      detail <- lift (match job with
                      | Some j => py_get j "error" (PStr "Unknown error")
                      | None => Raise NameError
                      end) ;;
      raise (Exception_ [Lit "Task failed: "; Str detail])
  | Waiting =>
      print [Lit "Task is waiting in queue..."] ;;
      sleep poll_interval ;;
      ret None
  | Generating =>
      print [Lit "Task is being processed..."] ;;
      sleep poll_interval ;;
      ret None
  | Unknown =>
      sleep poll_interval ;;
      ret None
  end.

(** Lines 219-253: one turn of the polling loop. *)
Definition poll_once (svc : service) (task_uuid subscription_key : pyval)
    (poll_interval max_retries : Z) (attempt : Z)
    : M (option (pyval * gmap string pyval)) :=
  print [Lit "Checking task status... (Attempt "; Str (PInt (attempt + 1));
         Lit "/"; Str (PInt max_retries); Lit ")"] ;;
  status_result <- check_task_status svc subscription_key ;;
  if dict_in "error" status_result then
    raise (Exception_ [Lit "Status check failed: "; Str (dict_get status_result "error" PNone)])
  else
    let jobs := dict_get status_result "jobs" (PList []) in
    if negb (truthy jobs) then
      raise (Exception_ [Lit "No jobs found in status response"])
    else
      total_count <- lift (py_len jobs) ;;
      scanned <- lift (rbind (items jobs) (fun l => scan_jobs l [] 0 None)) ;;
      let '(status, done_count, job) := scanned in
      print [Lit "Current status: ("; Str (PInt done_count); Lit "/";
             Str (PInt total_count); Lit " done)"] ;;
      dispatch svc task_uuid poll_interval (aggregate status) job.

Definition generate_3d_model (svc : service) (self : client) (a : gen_args)
    (poll_interval max_retries : Z) : M (pyval * gmap string pyval) :=
  print [Lit "Submitting generation task..."] ;;
  submit_result <- submit_generation_task svc self a ;;
  if dict_in "error" submit_result then
    raise (Exception_ [Lit "Task submission failed: ";
                       Str (dict_get submit_result "error" PNone)])
  else
    let task_uuid := dict_get submit_result "uuid" PNone in
    subscription_key <-
      lift (py_get (dict_get submit_result "jobs" PNone) "subscription_key" PNone) ;;
    returned <- for_returning
                  (poll_once svc task_uuid subscription_key poll_interval max_retries)
                  (seqZ 0 max_retries) ;;
    match returned with
    | Some v => ret v
    | None => raise (Exception_ [Lit "Task processing timed out"])
    end.

End ApiClient.
Import ApiClient.

(** ** generate_3d_model.py: the download step *)

Module Generate.

(** What [requests.get(url, stream=True)] followed by [raise_for_status]
    yields: the text of the exception, or the chunks [iter_content] delivers,
    possibly cut short by an exception raised while streaming. *)
Inductive fetched : Type :=
| Unreachable (e : string)
| Body (chunks : list string) (broken : option string).

(** The asset store: the remote files and the local file system. *)
Record store : Type := {
  makedirs : string -> option string;   (* os.makedirs(dir, exist_ok=True); Some e: it raises OSError(e) *)
  get : pyval -> fetched;
  open_wb : string -> option string     (* open(path, "wb"); Some e: it raises OSError(e) *)
}.

Definition create_file (path : string) : M unit := fun s =>
  (Ok tt, {| log := log s ++ [OpenWb path]; status_calls := status_calls s;
             disk := <[path := EmptyString]> (disk s) |}).

Definition write_chunk (path chunk : string) : M unit := fun s =>
  (Ok tt, {| log := log s ++ [Write path chunk]; status_calls := status_calls s;
             disk := <[path := default EmptyString (disk s !! path) +:+ chunk]> (disk s) |}).

(** Lines 205-213: the body of the [try]. *)
Definition fetch_and_write (st : store) (model_url : pyval) (output_path : string)
    : M unit :=
  emit (Get model_url) ;;
  match get st model_url with
  | Unreachable e => raise (RequestException [Lit e])
  | Body chunks broken =>
      match open_wb st output_path with
      | Some e => raise (OSError [Lit e])
      | None =>
          create_file output_path ;;
          for_each (fun chunk =>
                      if negb (String.eqb chunk EmptyString) then write_chunk output_path chunk
                      else ret tt) chunks ;;
          match broken with
          | Some e => raise (RequestException [Lit e])
          | None => print [Lit "Downloaded: "; Lit output_path]
          end
      end
  end.

Definition download_model (st : store) (model_url : pyval) (output_dir : string)
    (filename : pyval) : M unit :=
  emit (Makedirs output_dir) ;;
  match makedirs st output_dir with
  | Some e => raise (OSError [Lit e])
  | None =>
      filename <-
        (if negb (truthy filename) then
           match model_url with
           | PStr u => ret (PStr (basename (before_first "?" u)))
           | _ => raise AttributeError            (* model_url.split *)
           end
         else ret filename) ;;
      output_path <-
        match filename with
        | PStr f => ret (path_join output_dir f)
        | _ => raise TypeError                    (* os.path.join *)
        end ;;
      try_except
        (fetch_and_write st model_url output_path)
        (fun _ => true)
        (fun e => print (Lit "Failed to download " :: Str filename :: Lit ": "
                           :: exc_message e))
  end.

(** Lines 175-176 of [main]: the loop over the download list. *)
Definition download_files (st : store) (task_output_dir : string)
    (file_list : list pyval) : M unit :=
  for_each (fun file_info =>
              url <- lift (py_get file_info "url" PNone) ;;
              name <- lift (py_get file_info "name" PNone) ;;
              download_model st url task_output_dir name) file_list.

End Generate.
Import Generate.

(** ** Reading a run: error classes, job statuses, counts of requests *)

Module Observations.

(** The scripts raise plain [Exception]s; the kinds of failure are told apart
    by the literal text each raise site puts first in its message. *)
Inductive error_class : Type :=
| SubmissionError      (* lines 108 and 211 *)
| StatusError          (* lines 134, 224 and 228 *)
| TaskFailedError      (* line 246 *)
| PollTimeoutError     (* line 255 *)
| ManifestError.       (* line 160 *)

Definition classify (e : pyexc) : option error_class :=
  match e with
  | Exception_ (Lit s :: _) =>
      if String.eqb s "API request failed: " || String.eqb s "Task submission failed: "
      then Some SubmissionError
      else if String.eqb s "Status check failed: "
              || String.eqb s "No jobs found in status response"
      then Some StatusError
      else if String.eqb s "Task failed: " then Some TaskFailedError
      else if String.eqb s "Task processing timed out" then Some PollTimeoutError
      else if String.eqb s "Download request failed: " then Some ManifestError
      else None
  | _ => None
  end.

(** The per-job statuses a status response carries: [job.get("status")] of
    every job, for a response without an [error] field whose [jobs] is a
    non-empty list of objects. *)
Definition job_status (j : pyval) : option pyval :=
  match j with
  | PDict d => Some (dict_get d "status" PNone)
  | _ => None
  end.

Definition statuses_of (r : reply) : option (list pyval) :=
  match r with
  | Response body =>
      if dict_in "error" body then None
      else match dict_get body "jobs" (PList []) with
           | PList (j :: l) => mapM job_status (j :: l)
           | _ => None
           end
  | Failure _ => None
  end.

(** The jobs themselves, for the same responses. *)
Definition jobs_of (r : reply) : list pyval :=
  match r with
  | Response body =>
      match dict_get body "jobs" (PList []) with
      | PList l => l
      | _ => []
      end
  | Failure _ => []
  end.

Definition is_status (lit : string) (s : pyval) : bool := eq_str s lit.

Definition count_done (status : list pyval) : Z :=
  Z.of_nat (length (List.filter (is_status "Done") status)).

(** The aggregation in the order the specification lists it: any "Failed"
    first, then all "Done", then any "Waiting", then any "Generating". *)
Definition aggregate_by_priority (status : list pyval) : aggregate_status :=
  if existsb (is_status "Failed") status then Failed
  else if forallb (is_status "Done") status then Done
  else if existsb (is_status "Waiting") status then Waiting
  else if existsb (is_status "Generating") status then Generating
  else Unknown.

(** A poll that neither ends the task nor fails it. *)
Definition pending (r : reply) : bool :=
  match statuses_of r with
  | Some status =>
      match aggregate status with
      | Done | Failed => false
      | Waiting | Generating | Unknown => true
      end
  | None => false
  end.

(** The files a request uploads (none when they cannot be read). *)
Definition submitted_files (svc : service) (a : gen_args) : list (string * file_part) :=
  match request_files svc a with
  | Ok files => files
  | Raise _ => []
  end.

(** The task handle of an accepted submission: the [uuid] and the
    [subscription_key] that lines 213-215 read from a response without an
    [error] field whose [jobs] is an object. *)
Definition handle_of (svc : service) (self : client) (a : gen_args)
    : option (pyval * pyval) :=
  if has_key self then
    match request_files svc a with
    | Ok files =>
        match post_rodin svc files (form_data a) with
        | Response body =>
            if dict_in "error" body then None
            else match dict_get body "jobs" PNone with
                 | PDict jobs =>
                     Some (dict_get body "uuid" PNone,
                           dict_get jobs "subscription_key" PNone)
                 | _ => None
                 end
        | Failure _ => None
        end
    | Raise _ => None
    end
  else None.

(** Lines 244 and 255: how [generate_3d_model] ends once its loop is over. *)
Definition finish (r : result (option (pyval * gmap string pyval)) * state)
    : result (pyval * gmap string pyval) * state :=
  match r with
  | (Ok (Some v), s) => (Ok v, s)
  | (Ok None, s) => (Raise (Exception_ [Lit "Task processing timed out"]), s)
  | (Raise e, s) => (Raise e, s)
  end.

(** The log without what is printed. *)
Fixpoint actions (l : list event) : list event :=
  match l with
  | [] => []
  | Print _ :: l' => actions l'
  | e :: l' => e :: actions l'
  end.

Definition is_submit (e : event) : bool :=
  match e with PostRodin _ _ => true | _ => false end.
Definition is_poll (e : event) : bool :=
  match e with PostStatus _ => true | _ => false end.
Definition is_fetch_manifest (e : event) : bool :=
  match e with PostDownload _ => true | _ => false end.
Definition is_sleep (e : event) : bool :=
  match e with Sleep _ => true | _ => false end.

Definition count (f : event -> bool) (l : list event) : nat :=
  length (List.filter f l).

Definition is_get (e : event) : bool :=
  match e with Get _ => true | _ => false end.

(** The two lines [download_model] prints: line 213 and line 216. *)
Definition is_downloaded (e : event) : bool :=
  match e with
  | Print (Lit s :: _) => String.eqb s "Downloaded: "
  | _ => false
  end.

Definition is_download_error (e : event) : bool :=
  match e with
  | Print (Lit s :: _) => String.eqb s "Failed to download "
  | _ => false
  end.

(** Lines 199-201 for one entry of the download list: its URL and the path
    it is written to, when the entry is an object with a usable file name. *)
Definition target_of (output_dir : string) (file_info : pyval) : option (pyval * string) :=
  match file_info with
  | PDict d =>
      let url := dict_get d "url" PNone in
      let name := dict_get d "name" PNone in
      match (if truthy name then Some name
             else match url with
                  | PStr u => Some (PStr (basename (before_first "?" u)))
                  | _ => None
                  end) with
      | Some (PStr f) => Some (url, path_join output_dir f)
      | _ => None
      end
  | _ => None
  end.

(** An asset whose bytes arrive in full and whose file can be opened. *)
Definition reachable (st : store) (target : pyval * string) : bool :=
  match get st target.1, open_wb st target.2 with
  | Body _ None, None => true
  | _, _ => false
  end.

(** The state after some more events and [n] more status requests. *)
Definition after (evs : list event) (n : nat) (s : state) : state :=
  {| log := log s ++ evs; status_calls := n + status_calls s; disk := disk s |}.

(** What one turn of the loop prints and sends before it branches. *)
Definition checking (attempt max_retries : Z) : event :=
  Print [Lit "Checking task status... (Attempt "; Str (PInt (attempt + 1));
         Lit "/"; Str (PInt max_retries); Lit ")"].

Definition current_status (status : list pyval) : event :=
  Print [Lit "Current status: ("; Str (PInt (count_done status)); Lit "/";
         Str (PInt (Z.of_nat (length status))); Lit " done)"].

Definition progress (ag : aggregate_status) : list event :=
  match ag with
  | Waiting => [Print [Lit "Task is waiting in queue..."]]
  | Generating => [Print [Lit "Task is being processed..."]]
  | _ => []
  end.

End Observations.
Import Observations.

(** ** Concrete inputs used to exercise the statements below *)

Module Samples.

(** Four files of 1000 bytes: a 600x600 JPEG, a 400x400 JPEG, a 5000x5000
    PNG and a bitmap. *)
Definition some_files : files := {|
  path_exists := fun _ => true;
  getsize := fun _ => 1000;
  image_size := fun q =>
    if String.eqb q "in/photo.JPG" then inr (600, 600)
    else if String.eqb q "in/thumb.jpeg" then inr (400, 400)
    else if String.eqb q "in/huge.png" then inr (5000, 5000)
    else inl "cannot identify image file" |}.

(** A request whose numeric options are zero and whose other optional
    fields are present but empty. *)
Definition zero_and_empty : gen_args := {|
  images := None; prompt := Some EmptyString; tier := "Gen-2"; geometry_file_format := "glb";
  material := "PBR"; quality := "medium"; use_original_alpha := false;
  seed := Some 0; quality_override := Some 0; TAPose := false;
  bbox_condition := Some []; mesh_mode := Some EmptyString; addons := Some [];
  preview_render := false |}.

(** A client with a key, and a service that accepts every submission with
    the handle (task-1, sub-1) and answers the status requests from a script:
    the n-th request gets the n-th job list, the last one repeating. *)
Definition me : client := {| api_key := Some "sk-test" |}.

Definition job (status : string) : pyval := PDict {[ "status" := PStr status ]}.

Definition failed_job (detail : string) : pyval :=
  PDict (<["error" := PStr detail]> {[ "status" := PStr "Failed" ]}).

Definition accepted : reply :=
  Response (<["uuid" := PStr "task-1"]>
             {[ "jobs" := PDict {[ "subscription_key" := PStr "sub-1" ]} ]}).

Definition manifest : gmap string pyval :=
  {[ "list" := PList [PDict (<["name" := PStr "model.glb"]>
                             {[ "url" := PStr "https://cdn/model.glb?sig=1" ]})] ]}.

Fixpoint scripted (script : list (list pyval)) (n : nat) : reply :=
  match script, n with
  | [], _ => Response ∅
  | [jobs], _ => Response {[ "jobs" := PList jobs ]}
  | jobs :: _, O => Response {[ "jobs" := PList jobs ]}
  | _ :: script', S n' => scripted script' n'
  end.

Definition service_with (submitted : reply) (script : list (list pyval)) : service := {|
  read_file := fun _ => None;
  post_rodin := fun _ _ => submitted;
  post_status := fun n _ => scripted script n;
  post_download := fun _ => Response manifest |}.

(** Always generating. *)
Definition busy : service := service_with accepted [[job "Generating"]].

(** Queued, then still one job waiting while the other generates. *)
Definition queued : service :=
  service_with accepted [[job "Waiting"; job "Generating"]].

(** The status endpoint reports no job at all. *)
Definition jobless : service := service_with accepted [[]].

(** The first job failed with a detail, the second one is done. *)
Definition failed_then_done : service :=
  service_with accepted [[failed_job "boom"; job "Done"]].

(** Generating at the first poll, both jobs done at the second. *)
Definition done_at_second : service :=
  service_with accepted [[job "Generating"; job "Done"]; [job "Done"; job "Done"]].

(** The submission is answered without an error field, without a [uuid] and
    with a [jobs] object that holds no [subscription_key]; the status
    endpoint then reports one finished job. *)
Definition no_handle : service :=
  service_with (Response {[ "jobs" := PDict ∅ ]}) [[job "Done"]].

(** The submission is refused by the service, or never reaches it. *)
Definition refused : service :=
  service_with (Response {[ "error" := PStr "INSUFFICIENT_FUND" ]}) [[job "Done"]].

Definition unreachable : service :=
  service_with (Failure "503 Server Error: Service Unavailable") [[job "Done"]].

(** An asset store with two assets that can be fetched and one that cannot,
    and the same store on a directory that cannot be created. *)
Definition cdn : store := {|
  makedirs := fun _ => None;
  get := fun url =>
    if eq_str url "https://cdn/a.glb?sig=1" then Body ["gl"; EmptyString; "TF"] None
    else if eq_str url "https://cdn/b.png" then Body ["PNG"] None
    else Unreachable "404 Client Error: Not Found";
  open_wb := fun _ => None |}.

Definition read_only : store := {|
  makedirs := fun _ => Some "[Errno 13] Permission denied";
  get := get cdn;
  open_wb := open_wb cdn |}.

Definition asset (name url : string) : pyval :=
  PDict (<["name" := PStr name]> {[ "url" := PStr url ]}).

Definition three_assets : list pyval :=
  [asset "a.glb" "https://cdn/a.glb?sig=1";
   asset "gone.fbx" "https://cdn/gone.fbx";
   PDict {[ "url" := PStr "https://cdn/b.png" ]}].

End Samples.

(** ** Reading a trace: what the polling loop may log *)

Module Traces.

(** An event of the polling loop for a given handle and interval: a print, a
    status request for the handle's subscription key, a download request for
    its task identifier, or a sleep of the interval. *)
Definition polling_event (task_uuid subscription_key : pyval) (poll_interval : Z)
    (e : event) : Prop :=
  match e with
  | Print _ => True
  | PostStatus k => k = subscription_key
  | PostDownload u => u = task_uuid
  | Sleep secs => secs = poll_interval
  | _ => False
  end.

(** An event of the client as a whole: anything but the file-system and
    asset events of the download step. *)
Definition client_event (e : event) : bool :=
  match e with
  | Makedirs _ | Get _ | OpenWb _ | Write _ _ => false
  | _ => true
  end.

(** How a turn, then a loop, ends, in terms of what it logged: going on
    means one sleep per turn and no download request; returning means that
    the download request for the task identifier is the last event and the
    only one of its kind, and that the identifier and the response to that
    request are what is returned. *)
Definition ending (svc : service) (task_uuid : pyval)
    (r : result (option (pyval * gmap string pyval)))
    (evs : list event) (turns : nat) : Prop :=
  match r with
  | Ok None =>
      count is_sleep evs = turns /\ count is_fetch_manifest evs = 0%nat
  | Ok (Some v) =>
      v.1 = task_uuid
      /\ post_download svc task_uuid = Response v.2
      /\ exists evs', evs = evs' ++ [PostDownload task_uuid]
                      /\ count is_fetch_manifest evs' = 0%nat
  | Raise _ => True
  end.

(** Lines 199-200 of [download_model]: the file name it settles on, when
    there is one. *)
Definition filename_of (model_url filename : pyval) : option pyval :=
  if truthy filename then Some filename
  else match model_url with
       | PStr u => Some (PStr (basename (before_first "?" u)))
       | _ => None
       end.

(** The bytes of a file written chunk by chunk. *)
Definition content_of (chunks : list string) : string :=
  foldr String.append EmptyString chunks.

Definition is_print (e : event) : bool :=
  match e with Print _ => true | _ => false end.

(** A line of the numbered list of files (line 168). *)
Definition is_listing (e : event) : bool :=
  match e with Print (Str _ :: _) => true | _ => false end.

Definition is_write (e : event) : bool :=
  match e with Write _ _ => true | _ => false end.

(** A state with other files on the disk. *)
Definition with_disk (d : gmap string string) (s : state) : state :=
  {| log := log s; status_calls := status_calls s; disk := d |}.

End Traces.
Import Traces.

(** ** generate_3d_model.py: [main] after the arguments are parsed *)

Module Cli.

(** The namespace [parse_args] returns.  [--image] and [--prompt] exclude
    each other and one of them is required; [--image] takes one path or more. *)
Record arguments : Type := {
  arg_image : option (list string);
  arg_prompt : option string;
  arg_tier : string;
  arg_geometry_file_format : string;
  arg_quality : string;
  arg_material : string;
  arg_mesh_mode : string;
  arg_use_original_alpha : bool;
  arg_seed : option Z;
  arg_quality_override : option Z;
  arg_tapose : bool;
  arg_bbox_condition : option (list Z);
  arg_addons : option (list string);
  arg_preview_render : bool;
  arg_api_key : option string;
  arg_output : option string;
  arg_poll_interval : Z;
  arg_max_retries : Z
}.

(** What [main] runs against: the environment variable, the local files as
    [ImageUtils] sees them, the remote service and the asset store. *)
Record world : Type := {
  environ_key : option string;      (* os.environ.get("HYPER3D_API_KEY") *)
  local_files : files;
  remote : service;
  assets : store
}.

(** The line feed that starts some of the printed lines. *)
Definition nl : string := String (ascii_of_nat 10) EmptyString.

Definition key_required : pyexc :=
  ValueError [Lit "API key is required. Please set HYPER3D_API_KEY environment variable or pass it to the constructor."].

(** How lines 79-111 end: with a client, with the [ValueError] of lines 101
    and 111, or with the [EOFError] of an [input()] that finds no line. *)
Inductive resolution : Type :=
| Resolved (c : client)
| Refused (e : pyexc)
| EndOfInput.

Section Main.

(** [str.strip], a built-in the embedding takes as given. *)
Variable strip : string -> string.

(** [print("Please enter your Hyper3D API key:")], [input().strip()] and the
    test that follows (lines 95-101 and 105-111). *)
Definition enter_key (environ_key : option string) (stdin : list string)
    : list event * resolution :=
  match stdin with
  | [] => ([Print [Lit "Please enter your Hyper3D API key:"]], EndOfInput)
  | line :: _ =>
      let user_api_key := strip line in
      if negb (String.eqb user_api_key EmptyString) then
        ([Print [Lit "Please enter your Hyper3D API key:"];
          Print [Lit "Using provided API key"]],
         Resolved (init (Some user_api_key) environ_key))
      else
        ([Print [Lit "Please enter your Hyper3D API key:"]], Refused key_required)
  end.

(** Lines 79-111.  The prompt that [input] writes is logged like a print. *)
Definition resolve_client (api_key environ_key : option string) (stdin : list string)
    : list event * resolution :=
  match nonempty_str api_key with
  | Some _ =>                                          (* if args.api_key: *)
      ([Print [Lit "Using API key from command line argument"]],
       Resolved (init api_key environ_key))
  | None =>
      match nonempty_str environ_key with
      | Some env_api_key =>                            (* elif env_api_key: *)
          let found :=
            Print [Lit "Found API key in environment variable: ";
                   Lit (take_str 5 env_api_key); Lit "...";
                   Lit (drop_str (String.length env_api_key - 5) env_api_key)] in
          let ask := Print [Lit "Do you want to use this API key? (y/n): "] in
          match stdin with
          | [] => ([found; ask], EndOfInput)
          | line :: stdin' =>
              let confirm := lower (strip line) in
              if String.eqb confirm "y" then
                ([found; ask; Print [Lit "Using API key from environment variable"]],
                 Resolved (init None environ_key))
              else
                let '(evs, r) := enter_key environ_key stdin' in
                (found :: ask :: evs, r)
          end
      | None =>
          let '(evs, r) := enter_key environ_key stdin in
          (Print [Lit "No Hyper3D API key found in environment variable."] :: evs, r)
      end
  end.

(** Lines 113-124. *)
Definition validate_images (fs : files) (paths : option (list string))
    : M (option (list image)) :=
  match paths with
  | Some (p :: l) =>                                   (* if args.image: *)
      print [Lit "Validating images..."] ;;
      for_each (fun image_path =>
                  _ <- lift (validate_image fs image_path) ;; ret tt) (p :: l) ;;
      print [Lit "Image validation successful"] ;;
      ret (Some (ImagePath <$> (p :: l)))
  | Some [] | None => ret None
  end.

(** The [input_images] of lines 120-124. *)
Definition input_images_of (args : arguments) : option (list image) :=
  match arg_image args with
  | Some (p :: l) => Some (ImagePath <$> (p :: l))
  | Some [] | None => None
  end.

(** Lines 127-142. *)
Definition kwargs (args : arguments) (input_images : option (list image)) : gen_args := {|
  images := input_images;
  prompt := arg_prompt args;
  tier := arg_tier args;
  geometry_file_format := arg_geometry_file_format args;
  material := arg_material args;
  quality := arg_quality args;
  use_original_alpha := arg_use_original_alpha args;
  seed := arg_seed args;
  quality_override := arg_quality_override args;
  TAPose := arg_tapose args;
  bbox_condition := arg_bbox_condition args;
  mesh_mode := Some (arg_mesh_mode args);
  addons := arg_addons args;
  preview_render := arg_preview_render args |}.

(** The dictionary that line 146 prints. *)
Definition opt_value {A} (f : A -> pyval) (o : option A) : pyval :=
  match o with
  | Some x => f x
  | None => PNone
  end.

Definition image_value (i : image) : pyval :=
  match i with
  | ImagePath p => PStr p
  | ImageFile f => PStr f
  end.

Definition kwargs_value (a : gen_args) : pyval :=
  PDict (list_to_map
    [("images", opt_value (fun l => PList (image_value <$> l)) (images a));
     ("prompt", opt_value PStr (prompt a));
     ("tier", PStr (tier a));
     ("geometry_file_format", PStr (geometry_file_format a));
     ("quality", PStr (quality a));
     ("material", PStr (material a));
     ("mesh_mode", opt_value PStr (mesh_mode a));
     ("use_original_alpha", PBool (use_original_alpha a));
     ("seed", opt_value PInt (seed a));
     ("quality_override", opt_value PInt (quality_override a));
     ("TAPose", PBool (TAPose a));
     ("bbox_condition", opt_value (fun l => PList (PInt <$> l)) (bbox_condition a));
     ("addons", opt_value (fun l => PList (PStr <$> l)) (addons a));
     ("preview_render", PBool (preview_render a))]).

(** [enumerate(l, 1)] *)
Definition enumerate_from_1 {A} (l : list A) : list (Z * A) :=
  zip (seqZ 1 (Z.of_nat (length l))) l.

(** Lines 155-178.  [json.dumps(result, indent=2)] is logged as the value it
    serialises. *)
Definition show_result (st : store) (output : option string) (task_uuid : pyval)
    (result : gmap string pyval) : M unit :=
  if dict_in "error" result then
    print [Lit (nl +:+ "API call failed:")] ;;
    print [Str (PDict result)]
  else
    print [Lit (nl +:+ "3D model generation successful!")] ;;
    let file_list := dict_get result "list" (PList []) in
    if truthy file_list then
      n <- lift (py_len file_list) ;;
      print [Lit (nl +:+ "Generated files ("); Str (PInt n); Lit "):"] ;;
      entries <- lift (items file_list) ;;
      for_each (fun numbered : Z * pyval =>
                  name <- lift (py_get numbered.2 "name" (PStr "Unknown")) ;;
                  print [Str (PInt numbered.1); Lit ". "; Str name])
        (enumerate_from_1 entries) ;;
      match nonempty_str output with
      | Some out =>                                    (* if args.output: *)
          task_output_dir <-
            match task_uuid with
            | PStr u => ret (path_join out u)
            | _ => raise TypeError                     (* os.path.join *)
            end ;;
          print [Lit (nl +:+ "Downloading models to: "); Lit task_output_dir] ;;
          download_files st task_output_dir entries
      | None => ret tt
      end
    else
      print [Lit (nl +:+ "No files found in download list")].

(** Lines 113-178: the body of the [try] once the client exists. *)
Definition pipeline (w : world) (args : arguments) (self : client) : M unit :=
  input_images <- validate_images (local_files w) (arg_image args) ;;
  let kw := kwargs args input_images in
  print [Lit "Calling Hyper3D Rodin Gen-2 API ..."] ;;
  print [Lit "Input parameters: "; Str (kwargs_value kw)] ;;
  print [Lit "This may take a few minutes..."] ;;
  returned <- generate_3d_model (remote w) self kw
                (arg_poll_interval args) (arg_max_retries args) ;;
  show_result (assets w) (arg_output args) returned.1 returned.2.

(** Lines 180-182: [print(f"\nError: {str(e)}")], then [sys.exit(1)]. *)
Definition exit_with_error (m : message) (s : state) : Z * state :=
  (1, after [Print (Lit (nl +:+ "Error: ") :: m)] 0 s).

(** [main]: the exit status of the process and the state it leaves. *)
Definition main (w : world) (args : arguments) (stdin : list string) (s : state)
    : Z * state :=
  let '(evs, r) := resolve_client (arg_api_key args) (environ_key w) stdin in
  let s0 := after evs 0 s in
  match r with
  | EndOfInput => exit_with_error [Lit "EOF when reading a line"] s0
  | Refused e => exit_with_error (exc_message e) s0
  | Resolved self =>
      match pipeline w args self s0 with
      | (Ok _, s') => (0, s')
      | (Raise e, s') => exit_with_error (exc_message e) s'
      end
  end.

End Main.

End Cli.
Import Cli.

(** ** Further concrete inputs *)

Module Cases.

(** A 100x10000 strip, a file PIL cannot read, and a file of 17 MiB with an
    unsupported extension. *)
Definition odd_files : files := {|
  path_exists := fun q => negb (String.eqb q "in/missing.png");
  getsize := fun q => if String.eqb q "in/big.bmp" then 17 * 1024 * 1024 else 2048;
  image_size := fun q =>
    if String.eqb q "in/strip.png" then inr (100, 10000)
    else inl "cannot identify image file" |}.

(** The same files seen by a PIL that reads everything as 1024x1024. *)
Definition odd_files_readable : files := {|
  path_exists := path_exists odd_files;
  getsize := getsize odd_files;
  image_size := fun _ => inr (1024, 1024) |}.

(** A service whose local files are two readable images. *)
Definition with_images (svc : service) : service := {|
  read_file := fun q =>
    if String.eqb q "in/front.png" then Some "PNG-front"
    else if String.eqb q "/tmp/back.jpg" then Some "JPG-back"
    else None;
  post_rodin := post_rodin svc;
  post_status := post_status svc;
  post_download := post_download svc |}.

Definition two_views : gen_args := {|
  images := Some [ImagePath "in/front.png"; ImageFile "<stream>"; ImagePath "/tmp/back.jpg"];
  prompt := None; tier := "Gen-2"; geometry_file_format := "glb";
  material := "PBR"; quality := "medium"; use_original_alpha := true;
  seed := None; quality_override := None; TAPose := false;
  bbox_condition := Some [100; 200; 50]; mesh_mode := Some "Quad"; addons := Some ["HighPack"];
  preview_render := false |}.

Definition one_unreadable : gen_args := {|
  images := Some [ImagePath "in/front.png"; ImagePath "in/nowhere.png"];
  prompt := None; tier := "Gen-2"; geometry_file_format := "glb";
  material := "PBR"; quality := "medium"; use_original_alpha := false;
  seed := None; quality_override := None; TAPose := false;
  bbox_condition := None; mesh_mode := Some "Quad"; addons := None;
  preview_render := false |}.

(** Status endpoints that misbehave: the transport fails, the response
    carries an error next to finished jobs, or [jobs] is not a list of
    objects. *)
Definition status_service (r : reply) : service := {|
  read_file := fun _ => None;
  post_rodin := fun _ _ => Samples.accepted;
  post_status := fun _ _ => r;
  post_download := fun _ => Response Samples.manifest |}.

Definition status_down : service := status_service (Failure "Read timed out.").

Definition status_error_with_done_jobs : service :=
  status_service (Response (<["error" := PStr "NOT_FOUND"]>
                            {[ "jobs" := PList [Samples.job "Done"] ]})).

Definition status_jobs_mixed : service :=
  status_service (Response {[ "jobs" := PList [Samples.job "Done"; PStr "Done"] ]}).

(** An asset whose stream breaks off after the first chunk. *)
Definition flaky : store := {|
  makedirs := fun _ => None;
  get := fun _ => Body ["par"; "tial"] (Some "Connection broken: IncompleteRead");
  open_wb := fun _ => None |}.

(** A [strip] for the ASCII blanks, and command lines. *)
Definition is_blank (c : ascii) : bool :=
  let n := nat_of_ascii c in
  (Nat.leb 9 n && Nat.leb n 13) || Nat.eqb n 32.

Fixpoint lstrip (s : string) : string :=
  match s with
  | String c s' => if is_blank c then lstrip s' else s
  | EmptyString => EmptyString
  end.

Definition strip (s : string) : string :=
  String.rev (lstrip (String.rev (lstrip s))).

Definition from_prompt : arguments := {|
  arg_image := None; arg_prompt := Some "a wooden chair"; arg_tier := "Gen-2";
  arg_geometry_file_format := "glb"; arg_quality := "medium"; arg_material := "PBR";
  arg_mesh_mode := "Quad"; arg_use_original_alpha := false; arg_seed := None;
  arg_quality_override := None; arg_tapose := false; arg_bbox_condition := None;
  arg_addons := None; arg_preview_render := false; arg_api_key := None;
  arg_output := Some "out"; arg_poll_interval := 10; arg_max_retries := 60 |}.

Definition from_images : arguments := {|
  arg_image := Some ["in/photo.JPG"; "in/thumb.jpeg"]; arg_prompt := None;
  arg_tier := "Gen-2"; arg_geometry_file_format := "glb"; arg_quality := "medium";
  arg_material := "PBR"; arg_mesh_mode := "Quad"; arg_use_original_alpha := false;
  arg_seed := None; arg_quality_override := None; arg_tapose := false;
  arg_bbox_condition := None; arg_addons := None; arg_preview_render := false;
  arg_api_key := Some "sk-flag"; arg_output := Some "out"; arg_poll_interval := 10;
  arg_max_retries := 60 |}.

Definition a_world (svc : service) : world := {|
  environ_key := Some "sk-environment";
  local_files := Samples.some_files;
  remote := svc;
  assets := Samples.cdn |}.

(** One image that passes validation and is readable, in a world without a
    key in the environment. *)
Definition from_front : arguments := {|
  arg_image := Some ["in/front.png"]; arg_prompt := None;
  arg_tier := "Gen-2"; arg_geometry_file_format := "glb"; arg_quality := "medium";
  arg_material := "PBR"; arg_mesh_mode := "Quad"; arg_use_original_alpha := false;
  arg_seed := None; arg_quality_override := None; arg_tapose := false;
  arg_bbox_condition := None; arg_addons := None; arg_preview_render := false;
  arg_api_key := None; arg_output := None; arg_poll_interval := 10;
  arg_max_retries := 60 |}.

Definition front_world (svc : service) : world := {|
  environ_key := None;
  local_files := odd_files_readable;
  remote := with_images svc;
  assets := Samples.cdn |}.


End Cases.

(** * Properties *)

(** ** Image validation *)

Section ImageValidation.

Variable fs : files.
Variable p : string.

Lemma valid_extensions_eq : valid_extensions = [".jpg"; ".jpeg"; ".png"; ".webp"].
Proof. reflexivity. Qed.

Lemma check_resolution_None :
  check_resolution fs p = None <->
  exists w h, image_size fs p = inr (w, h) /\ 512 <= w <= 4096 /\ 512 <= h <= 4096.
Proof.
  unfold check_resolution, MIN_RESOLUTION, MAX_RESOLUTION; simpl.
  destruct (image_size fs p) as [e | [w h]].
  - split; [discriminate | intros (w & h & H & _); discriminate].
  - destruct (Z.ltb_spec w 512), (Z.ltb_spec h 512), (Z.ltb_spec 4096 w),
      (Z.ltb_spec 4096 h); simpl;
      (split;
       [ first [discriminate | intros _; exists w, h; split; [reflexivity | lia]]
       | first [reflexivity | intros (w' & h' & [= <- <-] & ? & ?); lia] ]).
Qed.

Lemma validate_image_reaches_resolution :
  path_exists fs p = true -> getsize fs p <= 16 * 1024 * 1024 ->
  extension p ∈ valid_extensions ->
  validate_image fs p =
    match check_resolution fs p with
    | Some e => Raise (Exception_ (Lit "Failed to validate image: " :: e))
    | None => Ok true
    end.
Proof.
  intros Hex Hsz Hext. unfold validate_image. rewrite Hex. simpl.
  destruct (Z.ltb_spec MAX_FILE_SIZE (getsize fs p)) as [Hgt | _];
    [unfold MAX_FILE_SIZE in Hgt; lia |].
  rewrite bool_decide_eq_true_2 by assumption. reflexivity.
Qed.

End ImageValidation.

(** C9. [validate_image] accepts a file exactly when it exists, its size is at
    most 16 MiB, its (lower-cased) extension is one of .jpg, .jpeg, .png,
    .webp, and PIL reports a resolution between 512x512 and 4096x4096
    inclusive.  For a file that exists and is within the size limit: a
    600x600 JPEG passes, a 400x400 image with a supported extension and a
    5000x5000 PNG fail with the resolution error, and a .bmp file fails with
    the format error. *)
Theorem validate_image_accepts_exactly (fs : files) (p : string) :
  (validate_image fs p = Ok true <->
     path_exists fs p = true /\
     getsize fs p <= 16 * 1024 * 1024 /\
     extension p ∈ [".jpg"; ".jpeg"; ".png"; ".webp"] /\
     exists w h, image_size fs p = inr (w, h) /\ 512 <= w <= 4096 /\ 512 <= h <= 4096)
  /\ (path_exists fs p = true -> getsize fs p <= 16 * 1024 * 1024 ->
      (extension p = ".jpg" \/ extension p = ".jpeg") ->
      image_size fs p = inr (600, 600) ->
      validate_image fs p = Ok true)
  /\ (path_exists fs p = true -> getsize fs p <= 16 * 1024 * 1024 ->
      extension p ∈ [".jpg"; ".jpeg"; ".png"; ".webp"] ->
      image_size fs p = inr (400, 400) ->
      validate_image fs p =
        Raise (Exception_ [Lit "Failed to validate image: ";
                           Lit "Image resolution is too low. Minimum resolution is ";
                           Str (PInt 512); Lit "x"; Str (PInt 512)]))
  /\ (path_exists fs p = true -> getsize fs p <= 16 * 1024 * 1024 ->
      extension p = ".png" ->
      image_size fs p = inr (5000, 5000) ->
      validate_image fs p =
        Raise (Exception_ [Lit "Failed to validate image: ";
                           Lit "Image resolution is too high. Maximum resolution is ";
                           Str (PInt 4096); Lit "x"; Str (PInt 4096)]))
  /\ (path_exists fs p = true -> getsize fs p <= 16 * 1024 * 1024 ->
      extension p = ".bmp" ->
      validate_image fs p =
        Raise (Exception_ [Lit "Unsupported image format. Please use one of: ";
                           Lit ".jpg, .jpeg, .png, .webp"])).
Proof.
  rewrite <- valid_extensions_eq.
  split; [| split; [| split; [| split]]].
  - split.
    + intros H. unfold validate_image in H.
      destruct (path_exists fs p) eqn:Hex; simpl in H; [| discriminate].
      destruct (Z.ltb_spec MAX_FILE_SIZE (getsize fs p)) as [| Hsz]; [discriminate |].
      destruct (bool_decide (extension p ∈ valid_extensions)) eqn:Hext;
        simpl in H; [| discriminate].
      apply bool_decide_eq_true_1 in Hext.
      destruct (check_resolution fs p) eqn:Hres; [discriminate |].
      apply check_resolution_None in Hres.
      unfold MAX_FILE_SIZE in Hsz. repeat split; assumption.
    + intros (Hex & Hsz & Hext & Hres).
      rewrite validate_image_reaches_resolution by assumption.
      apply check_resolution_None in Hres. rewrite Hres. reflexivity.
  - intros Hex Hsz Hext Hres.
    rewrite validate_image_reaches_resolution; try assumption.
    + unfold check_resolution. rewrite Hres. reflexivity.
    + destruct Hext as [-> | ->]; rewrite valid_extensions_eq; set_solver.
  - intros Hex Hsz Hext Hres.
    rewrite validate_image_reaches_resolution by assumption.
    unfold check_resolution. rewrite Hres. reflexivity.
  - intros Hex Hsz Hext Hres.
    rewrite validate_image_reaches_resolution; try assumption.
    + unfold check_resolution. rewrite Hres. reflexivity.
    + rewrite Hext, valid_extensions_eq. set_solver.
  - intros Hex Hsz Hext. unfold validate_image. rewrite Hex. simpl.
    destruct (Z.ltb_spec MAX_FILE_SIZE (getsize fs p)) as [Hgt | _];
      [unfold MAX_FILE_SIZE in Hgt; lia |].
    rewrite Hext. reflexivity.
Qed.

(** The four sample files of [Samples.some_files], through the theorem. *)
Lemma validate_image_accepts_exactly_witness :
  validate_image Samples.some_files "in/photo.JPG" = Ok true
  /\ validate_image Samples.some_files "in/thumb.jpeg" =
       Raise (Exception_ [Lit "Failed to validate image: ";
                          Lit "Image resolution is too low. Minimum resolution is ";
                          Str (PInt 512); Lit "x"; Str (PInt 512)])
  /\ validate_image Samples.some_files "in/huge.png" =
       Raise (Exception_ [Lit "Failed to validate image: ";
                          Lit "Image resolution is too high. Maximum resolution is ";
                          Str (PInt 4096); Lit "x"; Str (PInt 4096)])
  /\ validate_image Samples.some_files "in/scan.bmp" =
       Raise (Exception_ [Lit "Unsupported image format. Please use one of: ";
                          Lit ".jpg, .jpeg, .png, .webp"]).
Proof.
  split; [| split; [| split]].
  - apply (proj1 (proj2 (validate_image_accepts_exactly Samples.some_files "in/photo.JPG")));
      [reflexivity | simpl; lia | left; reflexivity | reflexivity].
  - apply (proj1 (proj2 (proj2 (validate_image_accepts_exactly Samples.some_files "in/thumb.jpeg"))));
      [reflexivity | simpl; lia | | reflexivity].
    vm_compute extension. set_solver.
  - apply (proj1 (proj2 (proj2 (proj2 (validate_image_accepts_exactly Samples.some_files "in/huge.png")))));
      [reflexivity | simpl; lia | reflexivity | reflexivity].
  - apply (proj2 (proj2 (proj2 (proj2 (validate_image_accepts_exactly Samples.some_files "in/scan.bmp")))));
      [reflexivity | simpl; lia | reflexivity].
Defined.

(** ** The form payload *)

Section FormData.

Variable a : gen_args.

Lemma guard_nonempty_str k (o : option string) (data : gmap string string) :
  match o with
  | Some p => if negb (String.eqb p EmptyString) then <[k := p]> data else data
  | None => data
  end = set_when k (nonempty_str o) data.
Proof.
  unfold nonempty_str. destruct o as [p |]; [destruct (String.eqb p EmptyString) |]; reflexivity.
Qed.

Lemma guard_not_None k (o : option Z) (data : gmap string string) :
  match o with
  | Some z => <[k := str_of_Z z]> data
  | None => data
  end = set_when k (str_of_Z <$> o) data.
Proof. destruct o; reflexivity. Qed.

Lemma guard_nonempty_list {A} k (f : A -> string) (o : option (list A))
    (data : gmap string string) :
  match o with
  | Some (x :: l) => <[k := join "," (f <$> x :: l)]> data
  | Some [] | None => data
  end = set_when k (nonempty_joined f o) data.
Proof. destruct o as [[| ? ?] |]; reflexivity. Qed.

Lemma form_data_guarded :
  form_data a =
    set_when "addons" (nonempty_joined id (addons a)) (
    set_when "mesh_mode" (nonempty_str (mesh_mode a)) (
    set_when "bbox_condition" (nonempty_joined str_of_Z (bbox_condition a)) (
    set_when "quality_override" (str_of_Z <$> quality_override a) (
    set_when "seed" (str_of_Z <$> seed a) (
    set_when "prompt" (nonempty_str (prompt a)) (base_fields a)))))).
Proof.
  unfold form_data. cbv zeta. fold (base_fields a).
  rewrite <- (guard_nonempty_list "addons" id).
  rewrite <- !guard_nonempty_str, <- !guard_not_None.
  rewrite <- (guard_nonempty_list "bbox_condition" str_of_Z).
  destruct (addons a) as [[| x l] |]; try reflexivity.
  simpl. rewrite list_fmap_id. reflexivity.
Qed.

Lemma lookup_set_when_eq k o (data : gmap string string) :
  data !! k = None -> set_when k o data !! k = o.
Proof.
  intros H. destruct o; simpl; [apply lookup_insert_eq | exact H].
Qed.

Lemma lookup_set_when_ne k k' o (data : gmap string string) :
  k <> k' -> set_when k o data !! k' = data !! k'.
Proof.
  intros H. destruct o; simpl; [apply lookup_insert_ne; exact H | reflexivity].
Qed.

Lemma lookup_base_fields k :
  k ∈ ["prompt"; "seed"; "quality_override"; "bbox_condition"; "mesh_mode"; "addons"] ->
  base_fields a !! k = None.
Proof.
  intros H. unfold base_fields.
  repeat (apply elem_of_cons in H as [-> | H]; [reflexivity |]).
  inversion H.
Qed.

End FormData.

(** [optional_field] reads one of the six optional keys of the payload. *)
Ltac optional_field a :=
  rewrite (form_data_guarded a);
  repeat (rewrite lookup_set_when_ne by discriminate);
  rewrite lookup_set_when_eq;
  [ reflexivity
  | repeat (rewrite lookup_set_when_ne by discriminate);
    apply lookup_base_fields; set_solver ].

(** C10. In the form payload, [seed] and [quality_override] are present
    exactly when they are not [None], so the value 0 is transmitted as "0";
    [prompt], [bbox_condition], [mesh_mode] and [addons] are present exactly
    when they are truthy, so an empty prompt, an empty bounding-box list, an
    empty mesh mode or an empty addon list is left out. *)
Theorem form_data_optional_fields (a : gen_args) :
  form_data a !! "seed" = str_of_Z <$> seed a
  /\ form_data a !! "quality_override" = str_of_Z <$> quality_override a
  /\ (seed a = Some 0 -> form_data a !! "seed" = Some "0")
  /\ (quality_override a = Some 0 -> form_data a !! "quality_override" = Some "0")
  /\ form_data a !! "prompt" =
       match prompt a with
       | Some pr => if String.eqb pr EmptyString then None else Some pr
       | None => None
       end
  /\ form_data a !! "bbox_condition" =
       match bbox_condition a with
       | Some (x :: l) => Some (join "," (str_of_Z <$> x :: l))
       | Some [] | None => None
       end
  /\ form_data a !! "mesh_mode" =
       match mesh_mode a with
       | Some mm => if String.eqb mm EmptyString then None else Some mm
       | None => None
       end
  /\ form_data a !! "addons" =
       match addons a with
       | Some (x :: l) => Some (join "," (x :: l))
       | Some [] | None => None
       end
  /\ (prompt a = Some EmptyString -> form_data a !! "prompt" = None)
  /\ (bbox_condition a = Some [] -> form_data a !! "bbox_condition" = None)
  /\ (mesh_mode a = Some EmptyString -> form_data a !! "mesh_mode" = None)
  /\ (addons a = Some [] -> form_data a !! "addons" = None).
Proof.
  assert (Hseed : form_data a !! "seed" = str_of_Z <$> seed a)
    by optional_field a.
  assert (Hqo : form_data a !! "quality_override" = str_of_Z <$> quality_override a)
    by optional_field a.
  assert (Hpr : form_data a !! "prompt" = nonempty_str (prompt a))
    by optional_field a.
  assert (Hbb : form_data a !! "bbox_condition" =
                nonempty_joined str_of_Z (bbox_condition a))
    by optional_field a.
  assert (Hmm : form_data a !! "mesh_mode" = nonempty_str (mesh_mode a))
    by optional_field a.
  assert (Had : form_data a !! "addons" = nonempty_joined id (addons a))
    by optional_field a.
  repeat split; try assumption.
  - intros H. rewrite Hseed, H. reflexivity.
  - intros H. rewrite Hqo, H. reflexivity.
  - rewrite Had. destruct (addons a) as [[| ? ?] |]; simpl; rewrite ?list_fmap_id; reflexivity.
  - intros H. rewrite Hpr, H. reflexivity.
  - intros H. rewrite Hbb, H. reflexivity.
  - intros H. rewrite Hmm, H. reflexivity.
  - intros H. rewrite Had, H. reflexivity.
Qed.

(** With seed 0, quality override 0 and the other options empty, the payload
    is the seven fixed fields plus the two zeros. *)
Lemma form_data_optional_fields_witness :
  form_data Samples.zero_and_empty !! "seed" = Some "0"
  /\ form_data Samples.zero_and_empty !! "quality_override" = Some "0"
  /\ form_data Samples.zero_and_empty !! "prompt" = None
  /\ form_data Samples.zero_and_empty !! "bbox_condition" = None
  /\ form_data Samples.zero_and_empty !! "mesh_mode" = None
  /\ form_data Samples.zero_and_empty !! "addons" = None.
Proof.
  pose proof (form_data_optional_fields Samples.zero_and_empty)
    as (_ & _ & Hs & Hq & _ & _ & _ & _ & Hp & Hb & Hm & Ha).
  split; [apply Hs; reflexivity |].
  split; [apply Hq; reflexivity |].
  split; [apply Hp; reflexivity |].
  split; [apply Hb; reflexivity |].
  split; [apply Hm; reflexivity | apply Ha; reflexivity].
Defined.

(** ** The polling loop *)

Section Polling.

Variable svc : service.
Variables task_uuid subscription_key : pyval.
Variables poll_interval max_retries : Z.

Lemma after_after evs1 n1 evs2 n2 s :
  after evs2 n2 (after evs1 n1 s) = after (evs1 ++ evs2) (n2 + n1) s.
Proof.
  unfold after; simpl. f_equal; [symmetry; apply app_assoc | lia].
Qed.

Lemma after_nothing s : after [] 0 s = s.
Proof. destruct s; unfold after; simpl. rewrite app_nil_r. reflexivity. Qed.

Lemma emit_after e s : emit e s = (Ok tt, after [e] 0 s).
Proof. reflexivity. Qed.

Lemma bind_eq {A B} (c : M A) (k : A -> M B) s :
  bind c k s =
    match c s with
    | (Ok a, s') => k a s'
    | (Raise e, s') => (Raise e, s')
    end.
Proof. reflexivity. Qed.

Lemma bind_emit {B} e (k : unit -> M B) s : bind (emit e) k s = k tt (after [e] 0 s).
Proof. reflexivity. Qed.

Lemma bind_print {B} m (k : unit -> M B) s :
  bind (print m) k s = k tt (after [Print m] 0 s).
Proof. reflexivity. Qed.

Lemma bind_ret {A B} (a : A) (k : A -> M B) s : bind (ret a) k s = k a s.
Proof. reflexivity. Qed.

Lemma bind_lift {A B} (r : result A) (k : A -> M B) s :
  bind (lift r) k s =
    match r with
    | Ok a => k a s
    | Raise e => (Raise e, s)
    end.
Proof. destruct r; reflexivity. Qed.

Lemma actions_app l1 l2 : actions (l1 ++ l2) = actions l1 ++ actions l2.
Proof.
  induction l1 as [| e l1 IH]; [reflexivity |].
  destruct e; simpl; rewrite IH; reflexivity.
Qed.

Lemma count_app f l1 l2 : count f (l1 ++ l2) = (count f l1 + count f l2)%nat.
Proof. unfold count. rewrite List.filter_app, length_app. reflexivity. Qed.

Lemma count_actions f l :
  (forall m, f (Print m) = false) -> count f l = count f (actions l).
Proof.
  intros Hf. unfold count. f_equal.
  induction l as [| e l IH]; [reflexivity |].
  destruct e; simpl; rewrite ?Hf, IH; reflexivity.
Qed.

Lemma count_done_cons s status :
  count_done (s :: status) = (if eq_str s "Done" then 1 else 0) + count_done status.
Proof.
  unfold count_done, is_status; simpl. destruct (eq_str s "Done"); simpl length; lia.
Qed.

(** The loop over the jobs succeeds exactly on lists of objects, and then
    gathers their statuses, counts the "Done" ones and leaves [job] bound to
    the last job. *)
Lemma scan_jobs_statuses l : forall status acc c j,
  mapM job_status l = Some status ->
  scan_jobs l acc c j =
    Ok (acc ++ status, c + count_done status,
        match last l with Some x => Some x | None => j end).
Proof.
  induction l as [| x l IH]; intros status acc c j H; simpl in H.
  - injection H as <-. simpl. rewrite app_nil_r. f_equal. f_equal. f_equal.
    unfold count_done; simpl; lia.
  - destruct x as [| | | | | d]; try discriminate. simpl in H.
    destruct (mapM job_status l) as [st' |] eqn:Hl; [| discriminate].
    injection H as <-. simpl scan_jobs. unfold rbind.
    rewrite (IH st' _ _ _ eq_refl). rewrite count_done_cons, <- app_assoc. simpl.
    f_equal. f_equal; [f_equal |].
    + destruct (eq_str (dict_get d "status" PNone) "Done"); lia.
    + destruct l as [| y l]; [reflexivity |].
      change (last (PDict d :: y :: l)) with (last (y :: l)).
      destruct (last (y :: l)) eqn:Hlast; [reflexivity |].
      apply last_None in Hlast. discriminate.
Qed.

Lemma scan_jobs_not_objects l : forall acc c j,
  mapM job_status l = None -> scan_jobs l acc c j = Raise AttributeError.
Proof.
  induction l as [| x l IH]; intros acc c j H; simpl in H; [discriminate |].
  destruct x as [| | | | | d]; try reflexivity. simpl in H.
  destruct (mapM job_status l) as [st' |] eqn:Hl; [discriminate |].
  simpl. apply IH. reflexivity.
Qed.

Lemma check_task_status_eq s :
  check_task_status svc subscription_key s =
    (match post_status svc (status_calls s) subscription_key with
     | Response body => Ok body
     | Failure e => Raise (Exception_ [Lit "Status check failed: "; Lit e])
     end, after [PostStatus subscription_key] 1 s).
Proof.
  unfold check_task_status, try_except, after.
  destruct (post_status svc (status_calls s) subscription_key); reflexivity.
Qed.

(** One turn on a response that carries a status for every job: the request
    is logged, the count is printed and the selected arm runs. *)
Lemma poll_once_scanned attempt s status :
  statuses_of (post_status svc (status_calls s) subscription_key) = Some status ->
  poll_once svc task_uuid subscription_key poll_interval max_retries attempt s =
    dispatch svc task_uuid poll_interval (aggregate status)
      (last (jobs_of (post_status svc (status_calls s) subscription_key)))
      (after [checking attempt max_retries; PostStatus subscription_key;
              current_status status] 1 s).
Proof.
  intros H. unfold poll_once. rewrite bind_print, bind_eq, check_task_status_eq.
  unfold statuses_of, jobs_of in *.
  destruct (post_status svc _ subscription_key) as [body | e] eqn:Hr; [| discriminate].
  rewrite after_after. simpl app.
  destruct (dict_in "error" body); [discriminate |].
  destruct (dict_get body "jobs" (PList [])) as [| | | | [| j l] |]; try discriminate.
  change (negb (truthy (PList (j :: l)))) with false. cbv iota.
  rewrite bind_lift. simpl py_len. cbv iota.
  rewrite bind_lift. simpl items. unfold rbind at 1.
  rewrite (scan_jobs_statuses _ _ _ _ _ H). cbv iota beta.
  rewrite bind_print, after_after. simpl app. simpl Nat.add.
  pose proof (length_mapM _ _ _ H) as Hlen. simpl in Hlen. rewrite Hlen.
  replace (0 + count_done status) with (count_done status) by lia.
  destruct (last (j :: l)) eqn:Hlast; [reflexivity |].
  apply last_None in Hlast. discriminate.
Qed.

Abbreviation reply_at s := (post_status svc (status_calls s) subscription_key).
Abbreviation poll := (poll_once svc task_uuid subscription_key poll_interval max_retries).

Lemma dispatch_Done job s :
  dispatch svc task_uuid poll_interval Done job s =
    (match post_download svc task_uuid with
     | Response manifest => Ok (Some (task_uuid, manifest))
     | Failure e => Raise (Exception_ [Lit "Download request failed: "; Lit e])
     end,
     after [Print [Lit "Task completed successfully!"]; PostDownload task_uuid] 0 s).
Proof.
  unfold dispatch. rewrite bind_print, bind_eq.
  unfold download_results, try_except. rewrite bind_emit, after_after.
  destruct (post_download svc task_uuid); reflexivity.
Qed.

Lemma dispatch_Failed job s :
  dispatch svc task_uuid poll_interval Failed job s =
    (match job with
     | Some (PDict d) =>
         Raise (Exception_ [Lit "Task failed: ";
                            Str (dict_get d "error" (PStr "Unknown error"))])
     | Some _ => Raise AttributeError
     | None => Raise NameError
     end, s).
Proof.
  unfold dispatch. rewrite bind_lift. destruct job as [[| | | | |] |]; reflexivity.
Qed.

Lemma dispatch_pending_any selected job s :
  selected <> Done -> selected <> Failed ->
  dispatch svc task_uuid poll_interval selected job s =
    if poll_interval <? 0
    then (Raise (ValueError [Lit "sleep length must be non-negative"]),
          after (progress selected) 0 s)
    else (Ok None, after (progress selected ++ [Sleep poll_interval]) 0 s).
Proof.
  intros HD HF. unfold dispatch, sleep.
  destruct selected; try congruence; destruct (poll_interval <? 0);
    rewrite ?bind_print, ?bind_emit, ?after_after; try reflexivity;
    rewrite ?after_nothing; reflexivity.
Qed.

Lemma dispatch_pending selected job s :
  selected <> Done -> selected <> Failed -> 0 <= poll_interval ->
  dispatch svc task_uuid poll_interval selected job s =
    (Ok None, after (progress selected ++ [Sleep poll_interval]) 0 s).
Proof.
  intros HD HF Hpi. rewrite dispatch_pending_any by assumption.
  destruct (Z.ltb_spec poll_interval 0) as [| _]; [lia | reflexivity].
Qed.

(** A response that does not carry a status for every job ends the turn with
    an exception right after the request. *)
Lemma poll_once_unscanned attempt s :
  statuses_of (reply_at s) = None ->
  exists e,
    poll attempt s =
      (Raise e, after [checking attempt max_retries; PostStatus subscription_key] 1 s)
    /\ classify e <> Some SubmissionError.
Proof.
  intros H. unfold poll_once. rewrite bind_print, bind_eq, check_task_status_eq.
  unfold statuses_of in *. rewrite after_after. simpl app.
  change (status_calls (after _ 0 s)) with (status_calls s).
  destruct (reply_at s) as [body | msg];
    [| eexists; split; [reflexivity | discriminate]].
  destruct (dict_in "error" body) eqn:Herr;
    [eexists; split; [reflexivity | discriminate] |].
  destruct (dict_get body "jobs" (PList [])) as [| b | z | str | [| j l] | d] eqn:Hjobs.
  - eexists; split; [reflexivity | discriminate].
  - destruct b; eexists; (split; [reflexivity | discriminate]).
  - unfold truthy. destruct (z =? 0); eexists; (split; [reflexivity | discriminate]).
  - destruct str; eexists; (split; [reflexivity | discriminate]).
  - eexists; split; [reflexivity | discriminate].
  - change (negb (truthy (PList (j :: l)))) with false. cbv iota.
    rewrite bind_lift. simpl py_len. cbv iota. rewrite bind_lift. simpl items.
    unfold rbind at 1. rewrite scan_jobs_not_objects by exact H.
    eexists; split; [reflexivity | discriminate].
  - unfold truthy. destruct (decide (d = ∅)) as [-> | Hne].
    + eexists; split; [reflexivity | discriminate].
    + rewrite bool_decide_eq_false_2 by exact Hne.
      change (negb (negb false)) with false. cbv iota.
      rewrite bind_lift. simpl py_len. cbv iota. rewrite bind_lift. simpl items.
      destruct (map_to_list d) as [| [k v] kvs] eqn:Hkv.
      * apply map_to_list_empty_iff in Hkv. contradiction.
      * eexists; split; [reflexivity | discriminate].
Qed.

(** *** The arm a status list selects *)

Lemma aggregate_Done status :
  aggregate status = Done <-> forallb (is_status "Done") status = true.
Proof.
  unfold aggregate. change (fun s => eq_str s "Done") with (is_status "Done").
  destruct (forallb (is_status "Done") status); [tauto |].
  split; [| discriminate].
  destruct (existsb _ status); [discriminate |].
  destruct (existsb _ status); [discriminate |].
  destruct (existsb _ status); discriminate.
Qed.

Lemma failed_not_all_done status :
  existsb (is_status "Failed") status = true ->
  forallb (is_status "Done") status = false.
Proof.
  induction status as [| x status IH]; simpl; [discriminate |].
  intros H. apply orb_true_iff in H as [H | H].
  - destruct x as [| | | str | |]; try discriminate. unfold is_status, eq_str in *.
    apply String.eqb_eq in H. subst str. reflexivity.
  - rewrite (IH H). apply andb_false_r.
Qed.

Lemma aggregate_Failed status :
  aggregate status = Failed <-> existsb (is_status "Failed") status = true.
Proof.
  split.
  - unfold aggregate. destruct (forallb _ status); [discriminate |].
    change (fun s => eq_str s "Failed") with (is_status "Failed").
    destruct (existsb (is_status "Failed") status); [reflexivity |].
    destruct (existsb _ status); [discriminate |].
    destruct (existsb _ status); discriminate.
  - intros H. unfold aggregate.
    change (fun s => eq_str s "Done") with (is_status "Done").
    change (fun s => eq_str s "Failed") with (is_status "Failed").
    rewrite (failed_not_all_done _ H), H. reflexivity.
Qed.

Lemma aggregate_pending status :
  existsb (is_status "Failed") status = false ->
  forallb (is_status "Done") status = false ->
  aggregate status =
    if existsb (is_status "Waiting") status then Waiting
    else if existsb (is_status "Generating") status then Generating
    else Unknown.
Proof.
  intros HF HD. unfold aggregate.
  change (fun s => eq_str s "Done") with (is_status "Done").
  change (fun s => eq_str s "Failed") with (is_status "Failed").
  rewrite HD, HF. reflexivity.
Qed.

(** Testing "Done" before "Failed", as the script does, selects the same arm
    as testing "Failed" first. *)
Lemma aggregate_agrees status : aggregate status = aggregate_by_priority status.
Proof.
  unfold aggregate, aggregate_by_priority.
  change (fun s => eq_str s "Done") with (is_status "Done").
  change (fun s => eq_str s "Failed") with (is_status "Failed").
  change (fun s => eq_str s "Waiting") with (is_status "Waiting").
  change (fun s => eq_str s "Generating") with (is_status "Generating").
  destruct (existsb (is_status "Failed") status) eqn:HF.
  - rewrite (failed_not_all_done _ HF). reflexivity.
  - reflexivity.
Qed.

Example aggregate_done_failed_waiting :
  aggregate [PStr "Done"; PStr "Failed"; PStr "Waiting"] = Failed.
Proof. reflexivity. Qed.

Example aggregate_done_done : aggregate [PStr "Done"; PStr "Done"] = Done.
Proof. reflexivity. Qed.

Example aggregate_single_done : aggregate [PStr "Done"] = Done.
Proof. reflexivity. Qed.

Example aggregate_waiting_generating :
  aggregate [PStr "Waiting"; PStr "Generating"] = Waiting.
Proof. reflexivity. Qed.

Example aggregate_unrecognised : aggregate [PStr "Done"; PStr "Paused"; PNone] = Unknown.
Proof. reflexivity. Qed.

(** *** One turn, then the loop *)

Lemma for_returning_cons {A R} (body : A -> M (option R)) a l s :
  for_returning body (a :: l) s =
    match body a s with
    | (Ok (Some v), s') => (Ok (Some v), s')
    | (Ok None, s') => for_returning body l s'
    | (Raise e, s') => (Raise e, s')
    end.
Proof.
  simpl. rewrite bind_eq. destruct (body a s) as [[[v |] | e] s']; reflexivity.
Qed.

Lemma poll_once_pending attempt s :
  pending (reply_at s) = true -> 0 <= poll_interval ->
  exists status,
    statuses_of (reply_at s) = Some status
    /\ poll attempt s =
         (Ok None,
          after ([checking attempt max_retries; PostStatus subscription_key;
                  current_status status]
                 ++ progress (aggregate status) ++ [Sleep poll_interval]) 1 s).
Proof.
  unfold pending. intros H Hpi.
  destruct (statuses_of (reply_at s)) as [status |] eqn:Hst; [| discriminate].
  exists status. split; [reflexivity |].
  rewrite (poll_once_scanned _ _ _ Hst).
  rewrite dispatch_pending, after_after;
    [reflexivity | | | assumption]; intros E; rewrite E in H; discriminate.
Qed.

(** While every response is pending, the loop runs through all its attempts:
    one status request and one sleep per attempt, nothing else but prints. *)
Lemma loop_pending l : forall s,
  (forall k, (k < length l)%nat ->
             pending (post_status svc (k + status_calls s) subscription_key) = true) ->
  0 <= poll_interval ->
  exists evs,
    for_returning poll l s = (Ok None, after evs (length l) s)
    /\ actions evs =
         concat (replicate (length l) [PostStatus subscription_key; Sleep poll_interval]).
Proof.
  induction l as [| a l IH]; intros s Hall Hpi.
  - exists []. rewrite after_nothing. split; reflexivity.
  - destruct (poll_once_pending a s (Hall 0%nat ltac:(simpl; lia)) Hpi)
      as (status & Hst & Hpoll).
    rewrite for_returning_cons, Hpoll.
    set (s1 := after ([checking a max_retries; PostStatus subscription_key;
                       current_status status]
                      ++ progress (aggregate status) ++ [Sleep poll_interval]) 1 s).
    assert (Hrest : forall k, (k < length l)%nat ->
              pending (post_status svc (k + status_calls s1) subscription_key) = true).
    { intros k Hk.
      replace (k + status_calls s1)%nat with (S k + status_calls s)%nat
        by (subst s1; simpl; lia).
      apply Hall. simpl. lia. }
    destruct (IH s1 Hrest Hpi) as (evs & Hloop & Hact). subst s1.
    rewrite Hloop, after_after. eexists. split.
    + f_equal. f_equal. simpl. lia.
    + rewrite actions_app, Hact. simpl.
      rewrite actions_app. destruct (aggregate status); reflexivity.
Qed.

Lemma for_returning_app {A R} (body : A -> M (option R)) l1 l2 s :
  for_returning body (l1 ++ l2) s =
    match for_returning body l1 s with
    | (Ok None, s') => for_returning body l2 s'
    | other => other
    end.
Proof.
  revert s. induction l1 as [| a l1 IH]; intros s; [reflexivity |].
  rewrite <- app_comm_cons, !for_returning_cons.
  destruct (body a s) as [[[v |] | e] s']; [reflexivity | apply IH | reflexivity].
Qed.

(** Whatever the service answers, one turn sends one status request and no
    submission, never fails with a submission error, and asks for the
    download list at most once, and only on statuses that are all "Done", in
    which case it does not go on to another attempt. *)
Lemma poll_once_any attempt s :
  exists evs,
    (poll attempt s).2
      = after (checking attempt max_retries :: PostStatus subscription_key :: evs) 1 s
    /\ count is_submit evs = 0%nat
    /\ count is_poll evs = 0%nat
    /\ (forall e, (poll attempt s).1 = Raise e -> classify e <> Some SubmissionError)
    /\ (count is_fetch_manifest evs = 0%nat
        \/ (count is_fetch_manifest evs = 1%nat
            /\ (poll attempt s).1 <> Ok None
            /\ exists status,
                 statuses_of (reply_at s) = Some status
                 /\ forallb (is_status "Done") status = true)).
Proof.
  destruct (statuses_of (reply_at s)) as [status |] eqn:Hst.
  - rewrite (poll_once_scanned _ _ _ Hst).
    destruct (aggregate status) eqn:Hag.
    + rewrite dispatch_Done, after_after. eexists. split; [reflexivity |].
      split; [reflexivity |]. split; [reflexivity |]. split.
      * simpl. destruct (post_download svc task_uuid); intros e' [= <-]; discriminate.
      * right. split; [reflexivity |]. split.
        -- simpl. destruct (post_download svc task_uuid); discriminate.
        -- exists status. split; [reflexivity | apply aggregate_Done, Hag].
    + rewrite dispatch_Failed. eexists. split; [reflexivity |].
      split; [reflexivity |]. split; [reflexivity |]. split; [| left; reflexivity].
      simpl. destruct (last _) as [[| | | | |] |]; intros e' [= <-]; discriminate.
    + rewrite dispatch_pending_any, after_after by discriminate.
      destruct (poll_interval <? 0); rewrite ?after_after;
        (eexists; split; [reflexivity |]; split; [reflexivity |];
         split; [reflexivity |]; split; [| left; reflexivity]);
        simpl; intros e' [= <-]; discriminate.
    + rewrite dispatch_pending_any by discriminate.
      destruct (poll_interval <? 0); rewrite ?after_after;
        (eexists; split; [reflexivity |]; split; [reflexivity |];
         split; [reflexivity |]; split; [| left; reflexivity]);
        simpl; intros e' [= <-]; discriminate.
    + rewrite dispatch_pending_any by discriminate.
      destruct (poll_interval <? 0); rewrite ?after_after;
        (eexists; split; [reflexivity |]; split; [reflexivity |];
         split; [reflexivity |]; split; [| left; reflexivity]);
        simpl; intros e' [= <-]; discriminate.
  - destruct (poll_once_unscanned attempt s Hst) as (e & Hp & He).
    rewrite Hp. eexists. split; [reflexivity |].
    split; [reflexivity |]. split; [reflexivity |]. split; [| left; reflexivity].
    simpl. intros e' [= <-]. exact He.
Qed.

(** The same for the loop over any list of attempts. *)
Lemma loop_any l : forall s,
  exists evs n,
    (for_returning poll l s).2 = after evs n s
    /\ count is_submit evs = 0%nat
    /\ count is_poll evs = n
    /\ (count is_fetch_manifest evs <= 1)%nat
    /\ (count is_fetch_manifest evs = 1%nat ->
        exists k status,
          (k < n)%nat
          /\ statuses_of (post_status svc (k + status_calls s) subscription_key)
             = Some status
          /\ forallb (is_status "Done") status = true)
    /\ (forall e, (for_returning poll l s).1 = Raise e ->
                  classify e <> Some SubmissionError)
    /\ (forall a l', l = a :: l' ->
        exists evs', evs = checking a max_retries :: PostStatus subscription_key :: evs').
Proof.
  induction l as [| a l IH]; intros s.
  - exists [], 0%nat. rewrite after_nothing.
    split; [reflexivity |]. split; [reflexivity |]. split; [reflexivity |].
    split; [unfold count; simpl; lia |]. split; [discriminate |].
    split; discriminate.
  - destruct (poll_once_any a s) as (evs0 & Hs1 & Hsub0 & Hpoll0 & Hexc1 & Hfetch0).
    set (evs1 := checking a max_retries :: PostStatus subscription_key :: evs0) in *.
    assert (Hsub1 : count is_submit evs1 = 0%nat) by exact Hsub0.
    assert (Hpoll1 : count is_poll evs1 = 1%nat)
      by (unfold count in *; simpl; rewrite Hpoll0; reflexivity).
    assert (Hfetch1 : count is_fetch_manifest evs1 = count is_fetch_manifest evs0)
      by reflexivity.
    assert (Hshape : forall a0 l', a :: l = a0 :: l' ->
              forall evs2, exists evs',
                evs1 ++ evs2 = checking a0 max_retries :: PostStatus subscription_key :: evs').
    { intros a0 l' [= <- <-] evs2. exists (evs0 ++ evs2). reflexivity. }
    rewrite <- Hfetch1 in Hfetch0. clearbody evs1. clear Hsub0 Hpoll0 Hfetch1.
    rewrite for_returning_cons.
    destruct (poll a s) as [[[v |] | e] s1] eqn:Hp; simpl in Hs1, Hexc1, Hfetch0.
    + exists evs1, 1%nat. simpl.
      split; [assumption |]. split; [assumption |]. split; [assumption |].
      split; [destruct Hfetch0 as [-> | [-> _]]; lia |].
      split; [| split; [discriminate |]].
      * intros H1. destruct Hfetch0 as [H0 | (_ & _ & status & Hst & HD)]; [lia |].
        exists 0%nat, status. split; [lia |]. split; [exact Hst | exact HD].
      * intros a0 l' E. destruct (Hshape a0 l' E []) as [evs' He].
        rewrite app_nil_r in He. exists evs'. exact He.
    + destruct Hfetch0 as [H0 | (_ & Hne & _)]; [| congruence]. subst s1.
      destruct (IH (after evs1 1 s))
        as (evs2 & n2 & Hs2 & Hsub2 & Hpoll2 & Hle2 & Hfetch2 & Hexc2 & _).
      exists (evs1 ++ evs2), (n2 + 1)%nat.
      rewrite Hs2, after_after, !count_app, Hsub1, Hsub2, Hpoll1, Hpoll2, H0.
      split; [reflexivity |]. split; [reflexivity |]. split; [lia |].
      split; [simpl; lia |]. split; [| split; [exact Hexc2 |]].
      * simpl. intros H1. destruct (Hfetch2 H1) as (k & status & Hk & Hst & HD).
        exists (S k), status. split; [lia |]. split; [| exact HD].
        rewrite <- Hst. simpl. f_equal. f_equal. lia.
      * intros a0 l' E. apply (Hshape a0 l' E).
    + exists evs1, 1%nat. simpl.
      split; [assumption |]. split; [assumption |]. split; [assumption |].
      split; [destruct Hfetch0 as [-> | [-> _]]; lia |]. split; [| split].
      * intros H1. destruct Hfetch0 as [H0 | (_ & _ & status & Hst & HD)]; [lia |].
        exists 0%nat, status. split; [lia |]. split; [exact Hst | exact HD].
      * intros e' [= <-]. apply Hexc1. reflexivity.
      * intros a0 l' E. destruct (Hshape a0 l' E []) as [evs' He].
        rewrite app_nil_r in He. exists evs'. exact He.
Qed.

End Polling.

(** ** Single polls *)

Lemma last_job_is_object jobs : forall status,
  mapM job_status jobs = Some status -> jobs <> [] ->
  exists d, last jobs = Some (PDict d).
Proof.
  induction jobs as [| x jobs IH]; intros status H Hne; [congruence |].
  simpl in H. destruct x as [| | | | | d]; try discriminate. simpl in H.
  destruct (mapM job_status jobs) as [st |] eqn:Hrest; [| discriminate].
  destruct jobs as [| y jobs]; [exists d; reflexivity |].
  destruct (IH st eq_refl ltac:(discriminate)) as [d' Hd']. exists d'. exact Hd'.
Qed.

(** A poll with a "Failed" job selects the failure arm and ends the loop at
    once: no sleep, no further request.  The detail in the message is the
    [error] field of the job the loop variable was last bound to, the last of
    the list. *)
Lemma failed_poll_stops (svc : service) (task_uuid subscription_key : pyval)
    (poll_interval max_retries attempt : Z) (rest : list Z) (s : state)
    (status : list pyval) :
  statuses_of (post_status svc (status_calls s) subscription_key) = Some status ->
  existsb (is_status "Failed") status = true ->
  aggregate status = Failed
  /\ exists d,
       last (jobs_of (post_status svc (status_calls s) subscription_key)) = Some (PDict d)
       /\ for_returning
            (poll_once svc task_uuid subscription_key poll_interval max_retries)
            (attempt :: rest) s =
          (Raise (Exception_ [Lit "Task failed: ";
                              Str (dict_get d "error" (PStr "Unknown error"))]),
           after [checking attempt max_retries; PostStatus subscription_key;
                  current_status status] 1 s).
Proof.
  intros Hst HF. apply aggregate_Failed in HF. split; [exact HF |].
  assert (Hlast : exists d,
            last (jobs_of (post_status svc (status_calls s) subscription_key))
            = Some (PDict d)).
  { unfold statuses_of, jobs_of in *.
    destruct (post_status svc _ _) as [body |]; [| discriminate].
    destruct (dict_in "error" body); [discriminate |].
    destruct (dict_get body "jobs" (PList [])) as [| | | | [| j l] |]; try discriminate.
    apply (last_job_is_object _ _ Hst). discriminate. }
  destruct Hlast as [d Hd]. exists d. split; [exact Hd |].
  rewrite for_returning_cons, (poll_once_scanned _ _ _ _ _ _ _ _ Hst), HF,
    dispatch_Failed, Hd.
  reflexivity.
Qed.

(** C1. The poll of [Samples.failed_then_done] has the statuses "Failed" and
    "Done"; the failing job carries the detail "boom".  The run stops at that
    poll with a "Task failed" error and without asking for the download list,
    but the message carries "Unknown error": the detail is read from the last
    job of the list, which is the one that is done. *)
Theorem failed_job_detail_read_from_last_job :
  let run := generate_3d_model Samples.failed_then_done Samples.me defaults 10 60 initial in
  statuses_of (post_status Samples.failed_then_done 0 (PStr "sub-1"))
    = Some [PStr "Failed"; PStr "Done"]
  /\ py_get (Samples.failed_job "boom") "error" (PStr "Unknown error") = Ok (PStr "boom")
  /\ run.1 = Raise (Exception_ [Lit "Task failed: "; Str (PStr "Unknown error")])
  /\ render [Lit "Task failed: "; Str (PStr "Unknown error")]
       = Some "Task failed: Unknown error"
  /\ count is_poll (log run.2) = 1%nat
  /\ count is_fetch_manifest (log run.2) = 0%nat.
Proof. vm_compute. repeat split; reflexivity. Qed.

(** C5. A poll whose statuses hold no "Failed" and are not all "Done" selects
    "Waiting" when some job is waiting, else "Generating" when some job is
    generating, else the fall-through; in each case the turn returns nothing,
    sleeps [poll_interval] and the loop goes on with the next attempt. *)
Theorem pending_poll_continues (svc : service) (task_uuid subscription_key : pyval)
    (poll_interval max_retries attempt : Z) (rest : list Z) (s : state)
    (status : list pyval) :
  statuses_of (post_status svc (status_calls s) subscription_key) = Some status ->
  existsb (is_status "Failed") status = false ->
  forallb (is_status "Done") status = false ->
  0 <= poll_interval ->
  let selected :=
    if existsb (is_status "Waiting") status then Waiting
    else if existsb (is_status "Generating") status then Generating
    else Unknown in
  let s' := after ([checking attempt max_retries; PostStatus subscription_key;
                    current_status status]
                   ++ progress selected ++ [Sleep poll_interval]) 1 s in
  aggregate status = selected
  /\ poll_once svc task_uuid subscription_key poll_interval max_retries attempt s
     = (Ok None, s')
  /\ for_returning (poll_once svc task_uuid subscription_key poll_interval max_retries)
       (attempt :: rest) s
     = for_returning (poll_once svc task_uuid subscription_key poll_interval max_retries)
         rest s'.
Proof.
  intros Hst HF HD Hpi selected s'.
  pose proof (aggregate_pending status HF HD) as Hag. fold selected in Hag.
  assert (Hpoll : poll_once svc task_uuid subscription_key poll_interval max_retries
                    attempt s = (Ok None, s')).
  { rewrite (poll_once_scanned _ _ _ _ _ _ _ _ Hst), Hag.
    assert (HnD : selected <> Done)
      by (subst selected; repeat destruct (existsb _ status); discriminate).
    assert (HnF : selected <> Failed)
      by (subst selected; repeat destruct (existsb _ status); discriminate).
    rewrite (dispatch_pending _ _ _ _ _ _ HnD HnF Hpi), after_after. reflexivity. }
  split; [exact Hag |]. split; [exact Hpoll |].
  rewrite for_returning_cons, Hpoll. reflexivity.
Qed.

(** One job waiting and one generating: the poll is logged as waiting and the
    second attempt is made. *)
Lemma pending_poll_continues_witness :
  aggregate [PStr "Waiting"; PStr "Generating"] = Waiting
  /\ poll_once Samples.queued (PStr "task-1") (PStr "sub-1") 10 60 0 initial
     = (Ok None,
        after [checking 0 60; PostStatus (PStr "sub-1");
               current_status [PStr "Waiting"; PStr "Generating"];
               Print [Lit "Task is waiting in queue..."]; Sleep 10] 1 initial).
Proof.
  pose proof (pending_poll_continues Samples.queued (PStr "task-1") (PStr "sub-1")
                10 60 0 [1] initial [PStr "Waiting"; PStr "Generating"]) as H.
  destruct H as (H1 & H2 & _).
  - vm_compute. reflexivity.
  - reflexivity.
  - reflexivity.
  - lia.
  - split; [exact H1 | exact H2].
Defined.

(** C6. A status response without an [error] field that reports no job (the
    [jobs] field is missing or is the empty list) ends the loop at once with
    "No jobs found in status response": it is not a pending result, nothing
    is slept and no further attempt is made. *)
Theorem empty_job_list_is_status_error (svc : service)
    (task_uuid subscription_key : pyval) (poll_interval max_retries attempt : Z)
    (rest : list Z) (s : state) (body : gmap string pyval) :
  post_status svc (status_calls s) subscription_key = Response body ->
  body !! "error" = None ->
  (body !! "jobs" = None \/ body !! "jobs" = Some (PList [])) ->
  let e := Exception_ [Lit "No jobs found in status response"] in
  let s' := after [checking attempt max_retries; PostStatus subscription_key] 1 s in
  classify e = Some StatusError
  /\ pending (Response body) = false
  /\ poll_once svc task_uuid subscription_key poll_interval max_retries attempt s
     = (Raise e, s')
  /\ for_returning (poll_once svc task_uuid subscription_key poll_interval max_retries)
       (attempt :: rest) s
     = (Raise e, s').
Proof.
  intros Hr Herr Hjobs e s'.
  assert (Hin : dict_in "error" body = false).
  { unfold dict_in. rewrite Herr. apply bool_decide_eq_false_2. intros [? ?]; discriminate. }
  assert (Hget : dict_get body "jobs" (PList []) = PList []).
  { unfold dict_get. destruct Hjobs as [-> | ->]; reflexivity. }
  assert (Hpoll : poll_once svc task_uuid subscription_key poll_interval max_retries
                    attempt s = (Raise e, s')).
  { unfold poll_once. rewrite bind_print, bind_eq, check_task_status_eq.
    change (status_calls (after _ 0 s)) with (status_calls s).
    rewrite Hr, after_after, Hin, Hget. reflexivity. }
  split; [reflexivity |].
  split; [unfold pending, statuses_of; rewrite Hin, Hget; reflexivity |].
  split; [exact Hpoll |].
  rewrite for_returning_cons, Hpoll. reflexivity.
Qed.

(** The first status response of [Samples.jobless] has an empty job list. *)
Lemma empty_job_list_is_status_error_witness :
  for_returning (poll_once Samples.jobless (PStr "task-1") (PStr "sub-1") 10 60)
    [0; 1; 2] initial
  = (Raise (Exception_ [Lit "No jobs found in status response"]),
     after [checking 0 60; PostStatus (PStr "sub-1")] 1 initial).
Proof.
  pose proof (empty_job_list_is_status_error Samples.jobless (PStr "task-1")
                (PStr "sub-1") 10 60 0 [1; 2] initial {[ "jobs" := PList [] ]}) as H.
  destruct H as (_ & _ & _ & H).
  - reflexivity.
  - reflexivity.
  - right. reflexivity.
  - exact H.
Defined.

(** ** Whole runs of [generate_3d_model] *)

Section Runs.

Variable svc : service.
Variable self : client.
Variable a : gen_args.
Variables poll_interval max_retries : Z.

Lemma submit_generation_task_eq s :
  submit_generation_task svc self a s =
    if negb (has_key self) then
      (Raise (ValueError [Lit "API key is required. Please set HYPER3D_API_KEY environment variable or pass it to the constructor."]), s)
    else
      match request_files svc a with
      | Raise e => (Raise e, s)
      | Ok files =>
          (match post_rodin svc files (form_data a) with
           | Response body => Ok body
           | Failure e => Raise (Exception_ [Lit "API request failed: "; Lit e])
           end, after [PostRodin files (form_data a)] 0 s)
      end.
Proof.
  unfold submit_generation_task. destruct (has_key self); [| reflexivity]. cbn [negb]. rewrite bind_lift. destruct (request_files svc a) as [files | e]; [| reflexivity].
  unfold try_except. rewrite bind_emit.
  destruct (post_rodin svc files (form_data a)); reflexivity.
Qed.

(** Once a submission is accepted, the rest of the run is the polling loop
    with the handle's two components. *)
Lemma generate_accepted task_uuid subscription_key s :
  handle_of svc self a = Some (task_uuid, subscription_key) ->
  generate_3d_model svc self a poll_interval max_retries s =
    finish (for_returning
              (poll_once svc task_uuid subscription_key poll_interval max_retries)
              (seqZ 0 max_retries)
              (after [Print [Lit "Submitting generation task..."];
                      PostRodin (submitted_files svc a) (form_data a)] 0 s)).
Proof.
  unfold handle_of, submitted_files, generate_3d_model. intros H.
  rewrite bind_print, bind_eq, submit_generation_task_eq.
  destruct (has_key self); [| discriminate]. cbn [negb].
  destruct (request_files svc a) as [files | e]; [| discriminate].
  destruct (post_rodin svc files (form_data a)) as [body | e]; [| discriminate].
  rewrite after_after. simpl app.
  destruct (dict_in "error" body); [discriminate |].
  destruct (dict_get body "jobs" PNone) as [| | | | | jobs]; try discriminate.
  injection H as <- <-. cbv zeta. rewrite bind_lift. simpl py_get. cbv iota.
  rewrite bind_eq. unfold finish.
  destruct (for_returning _ _ _) as [[[v |] | e] s']; reflexivity.
Qed.

(** The whole function, case by case. *)
Lemma generate_3d_model_eq s :
  generate_3d_model svc self a poll_interval max_retries s =
    let s0 := after [Print [Lit "Submitting generation task..."]] 0 s in
    if negb (has_key self) then
      (Raise (ValueError [Lit "API key is required. Please set HYPER3D_API_KEY environment variable or pass it to the constructor."]), s0)
    else
      match request_files svc a with
      | Raise e => (Raise e, s0)
      | Ok files =>
          let s1 := after [Print [Lit "Submitting generation task..."];
                           PostRodin files (form_data a)] 0 s in
          match post_rodin svc files (form_data a) with
          | Failure msg =>
              (Raise (Exception_ [Lit "API request failed: "; Lit msg]), s1)
          | Response body =>
              if dict_in "error" body then
                (Raise (Exception_ [Lit "Task submission failed: ";
                                    Str (dict_get body "error" PNone)]), s1)
              else
                match dict_get body "jobs" PNone with
                | PDict jobs =>
                    finish (for_returning
                              (poll_once svc (dict_get body "uuid" PNone)
                                 (dict_get jobs "subscription_key" PNone)
                                 poll_interval max_retries)
                              (seqZ 0 max_retries) s1)
                | _ => (Raise AttributeError, s1)
                end
          end
      end.
Proof.
  unfold generate_3d_model.
  rewrite bind_print, bind_eq, submit_generation_task_eq.
  destruct (has_key self); [| reflexivity]. cbn [negb]. cbv zeta.
  destruct (request_files svc a) as [files | e]; [| reflexivity].
  rewrite after_after. simpl app. change (0 + 0)%nat with 0%nat.
  destruct (post_rodin svc files (form_data a)) as [body | msg]; [| reflexivity].
  destruct (dict_in "error" body); [reflexivity |].
  rewrite bind_lift.
  destruct (dict_get body "jobs" PNone) as [| | | | | jobs]; try reflexivity.
  simpl py_get. cbv iota. rewrite bind_eq. unfold finish.
  destruct (for_returning _ _ _) as [[[v |] | e] s']; reflexivity.
Qed.

Lemma finish_raises r e :
  (finish r).1 = Raise e ->
  r.1 = Raise e \/ e = Exception_ [Lit "Task processing timed out"].
Proof.
  destruct r as [[[v |] | e'] s]; simpl; intros [= <-]; [right | left]; reflexivity.
Qed.

Lemma finish_state r : (finish r).2 = r.2.
Proof. destruct r as [[[v |] | e'] s]; reflexivity. Qed.

End Runs.

Lemma count_rounds f k (round : list event) :
  count f (concat (replicate k round)) = (k * count f round)%nat.
Proof.
  induction k as [| k IH]; [reflexivity |].
  simpl. rewrite count_app, IH. reflexivity.
Qed.

(** C4. A poll whose statuses are all "Done" selects the completion arm: the
    loop stops there and asks once for the download list.  Over any loop the
    download list is asked for at most once, and only at a poll whose
    statuses are all "Done".  A run that reaches such a poll after pending
    ones returns the task identifier together with the download list. *)
Theorem all_done_fetches_manifest_once (svc : service)
    (task_uuid subscription_key : pyval) (poll_interval : Z) :
  (forall max_retries attempt rest s status,
     statuses_of (post_status svc (status_calls s) subscription_key) = Some status ->
     forallb (is_status "Done") status = true ->
     aggregate status = Done
     /\ for_returning
          (poll_once svc task_uuid subscription_key poll_interval max_retries)
          (attempt :: rest) s
        = (match post_download svc task_uuid with
           | Response manifest => Ok (Some (task_uuid, manifest))
           | Failure e => Raise (Exception_ [Lit "Download request failed: "; Lit e])
           end,
           after [checking attempt max_retries; PostStatus subscription_key;
                  current_status status;
                  Print [Lit "Task completed successfully!"];
                  PostDownload task_uuid] 1 s))
  /\ (forall max_retries l s,
        exists evs n,
          (for_returning
             (poll_once svc task_uuid subscription_key poll_interval max_retries)
             l s).2 = after evs n s
          /\ (count is_fetch_manifest evs <= 1)%nat
          /\ (count is_fetch_manifest evs = 1%nat ->
              exists k status,
                (k < n)%nat
                /\ statuses_of (post_status svc (k + status_calls s) subscription_key)
                   = Some status
                /\ forallb (is_status "Done") status = true))
  /\ (forall self a (N k : nat) status manifest,
        handle_of svc self a = Some (task_uuid, subscription_key) ->
        (k < N)%nat ->
        (forall i, (i < k)%nat ->
                   pending (post_status svc i subscription_key) = true) ->
        statuses_of (post_status svc k subscription_key) = Some status ->
        forallb (is_status "Done") status = true ->
        0 <= poll_interval ->
        post_download svc task_uuid = Response manifest ->
        let run := generate_3d_model svc self a poll_interval (Z.of_nat N) initial in
        run.1 = Ok (task_uuid, manifest)
        /\ count is_poll (log run.2) = S k
        /\ count is_fetch_manifest (log run.2) = 1%nat).
Proof.
  assert (Hone : forall max_retries attempt rest s status,
     statuses_of (post_status svc (status_calls s) subscription_key) = Some status ->
     forallb (is_status "Done") status = true ->
     for_returning
       (poll_once svc task_uuid subscription_key poll_interval max_retries)
       (attempt :: rest) s
     = (match post_download svc task_uuid with
        | Response manifest => Ok (Some (task_uuid, manifest))
        | Failure e => Raise (Exception_ [Lit "Download request failed: "; Lit e])
        end,
        after [checking attempt max_retries; PostStatus subscription_key;
               current_status status;
               Print [Lit "Task completed successfully!"];
               PostDownload task_uuid] 1 s)).
  { intros max_retries attempt rest s status Hst HD.
    apply aggregate_Done in HD.
    rewrite for_returning_cons, (poll_once_scanned _ _ _ _ _ _ _ _ Hst), HD,
      dispatch_Done, after_after.
    destruct (post_download svc task_uuid); reflexivity. }
  split; [| split].
  - intros max_retries attempt rest s status Hst HD.
    split; [apply aggregate_Done, HD | apply Hone; assumption].
  - intros max_retries l s.
    destruct (loop_any svc task_uuid subscription_key poll_interval max_retries l s)
      as (evs & n & Hs & _ & _ & Hle & Honly & _).
    exists evs, n. split; [exact Hs |]. split; [exact Hle | exact Honly].
  - intros self a N k status manifest Hh Hk Hpend Hst HD Hpi Hman run.
    assert (Hsplit : seqZ 0 (Z.of_nat N)
                     = seqZ 0 (Z.of_nat k)
                       ++ Z.of_nat k :: seqZ (Z.of_nat k + 1) (Z.of_nat N - Z.of_nat k - 1)).
    { replace (Z.of_nat N) with (Z.of_nat k + (Z.of_nat N - Z.of_nat k)) at 1 by lia.
      rewrite seqZ_app by lia. rewrite (seqZ_cons (0 + _)) by lia.
      repeat f_equal; lia. }
    assert (Hlen : length (seqZ 0 (Z.of_nat k)) = k) by (rewrite length_seqZ; lia).
    set (s0 := after [Print [Lit "Submitting generation task..."];
                      PostRodin (submitted_files svc a) (form_data a)] 0 initial).
    destruct (loop_pending svc task_uuid subscription_key poll_interval (Z.of_nat N)
                (seqZ 0 (Z.of_nat k)) s0) as (evs & Hloop & Hact).
    { rewrite Hlen. intros i Hi. subst s0. simpl status_calls.
      replace (i + 0)%nat with i by lia. apply Hpend, Hi. }
    { exact Hpi. }
    rewrite Hlen in Hloop, Hact.
    assert (Hrun : run = (Ok (task_uuid, manifest),
              after ([Print [Lit "Submitting generation task..."];
                      PostRodin (submitted_files svc a) (form_data a)]
                     ++ evs
                     ++ [checking (Z.of_nat k) (Z.of_nat N); PostStatus subscription_key;
                         current_status status;
                         Print [Lit "Task completed successfully!"];
                         PostDownload task_uuid]) (1 + (k + 0)) initial)).
    { subst run. rewrite (generate_accepted _ _ _ _ _ _ _ _ Hh). fold s0.
      rewrite Hsplit, for_returning_app, Hloop.
      rewrite Hone with (status := status); [| | exact HD].
      - rewrite Hman. subst s0. rewrite !after_after. reflexivity.
      - simpl status_calls. replace (k + 0)%nat with k by lia. exact Hst. }
    rewrite Hrun. split; [reflexivity |].
    simpl log. rewrite (count_actions is_poll), (count_actions is_fetch_manifest)
      by reflexivity.
    simpl actions. rewrite !actions_app, Hact. simpl actions.
    change (?x :: ?l ++ ?r) with ((x :: l) ++ r).
    unfold count. simpl List.filter.
    rewrite !List.filter_app, !length_app.
    change (length (List.filter ?f ?l)) with (count f l).
    rewrite !count_rounds. unfold count. simpl. lia.
Qed.

(** C3. With [max_retries = N] and a status source whose every answer is
    pending (never all "Done", never a "Failed"), a run whose submission
    was accepted sends exactly [N] status requests, sleeps [poll_interval]
    after each of them, then fails with "Task processing timed out" and never
    asks for the download list. *)
Theorem polling_exhausts_attempts (svc : service) (self : client) (a : gen_args)
    (poll_interval : Z) (N : nat) (task_uuid subscription_key : pyval) :
  handle_of svc self a = Some (task_uuid, subscription_key) ->
  (forall k, (k < N)%nat -> pending (post_status svc k subscription_key) = true) ->
  0 <= poll_interval ->
  let run := generate_3d_model svc self a poll_interval (Z.of_nat N) initial in
  run.1 = Raise (Exception_ [Lit "Task processing timed out"])
  /\ classify (Exception_ [Lit "Task processing timed out"]) = Some PollTimeoutError
  /\ actions (log run.2) =
       PostRodin (submitted_files svc a) (form_data a)
       :: concat (replicate N [PostStatus subscription_key; Sleep poll_interval])
  /\ count is_poll (log run.2) = N
  /\ count is_sleep (log run.2) = N
  /\ count is_fetch_manifest (log run.2) = 0%nat.
Proof.
  intros Hh Hall Hpi run.
  assert (Hlen : length (seqZ 0 (Z.of_nat N)) = N)
    by (rewrite length_seqZ; lia).
  destruct (loop_pending svc task_uuid subscription_key poll_interval (Z.of_nat N)
              (seqZ 0 (Z.of_nat N))
              (after [Print [Lit "Submitting generation task..."];
                      PostRodin (submitted_files svc a) (form_data a)] 0 initial))
    as (evs & Hloop & Hact).
  { rewrite Hlen. intros k Hk. simpl status_calls.
    replace (k + 0)%nat with k by lia. apply Hall, Hk. }
  { exact Hpi. }
  assert (Hrun : run = (Raise (Exception_ [Lit "Task processing timed out"]),
                        after ([Print [Lit "Submitting generation task..."];
                                PostRodin (submitted_files svc a) (form_data a)] ++ evs)
                              (N + 0) initial)).
  { subst run. rewrite (generate_accepted _ _ _ _ _ _ _ _ Hh), Hloop, Hlen, after_after.
    reflexivity. }
  rewrite Hlen in Hact.
  assert (Hlog : actions (log run.2) =
                 PostRodin (submitted_files svc a) (form_data a)
                 :: concat (replicate N [PostStatus subscription_key; Sleep poll_interval])).
  { rewrite Hrun. simpl. rewrite Hact. reflexivity. }
  split; [rewrite Hrun; reflexivity |].
  split; [reflexivity |].
  split; [exact Hlog |].
  rewrite (count_actions is_poll), (count_actions is_sleep),
    (count_actions is_fetch_manifest), Hlog by reflexivity.
  clear. unfold count. simpl.
  repeat split; induction N as [| n IH]; simpl; try reflexivity;
    rewrite IH; reflexivity.
Qed.

(** Three attempts against a service that is always generating. *)
Lemma polling_exhausts_attempts_witness :
  let run := generate_3d_model Samples.busy Samples.me defaults 10 3 initial in
  run.1 = Raise (Exception_ [Lit "Task processing timed out"])
  /\ actions (log run.2) =
       [PostRodin [] (form_data defaults);
        PostStatus (PStr "sub-1"); Sleep 10;
        PostStatus (PStr "sub-1"); Sleep 10;
        PostStatus (PStr "sub-1"); Sleep 10]
  /\ count is_poll (log run.2) = 3%nat
  /\ count is_fetch_manifest (log run.2) = 0%nat.
Proof.
  pose proof (polling_exhausts_attempts Samples.busy Samples.me defaults 10 3
                (PStr "task-1") (PStr "sub-1")) as H.
  destruct H as (H1 & _ & H2 & H3 & _ & H4).
  - vm_compute. reflexivity.
  - intros k Hk. destruct k as [| [| [| k]]]; [vm_compute; reflexivity .. | lia].
  - lia.
  - repeat split; assumption.
Defined.

(** ** Submission *)

Lemma dict_in_spec k (d : gmap string pyval) :
  dict_in k d = true <-> is_Some (d !! k).
Proof. unfold dict_in. apply bool_decide_eq_true. Qed.

Lemma dict_in_None k (d : gmap string pyval) :
  d !! k = None -> dict_in k d = false.
Proof.
  intros H. unfold dict_in. rewrite H. apply bool_decide_eq_false_2.
  intros [? ?]; discriminate.
Qed.

(** C7. A run sends at most one submission request.  When the request is
    sent (the client has a key and the images can be read), the run fails
    with a submission error exactly when the transport fails or the response
    has an [error] field; the message carries the transport's text,
    respectively the value of the [error] field, after a fixed prefix. *)
Theorem submission_fails_exactly_on_error_or_transport (svc : service)
    (self : client) (a : gen_args) (poll_interval max_retries : Z) :
  let run := generate_3d_model svc self a poll_interval max_retries initial in
  (count is_submit (log run.2) <= 1)%nat
  /\ (forall files,
        has_key self = true -> request_files svc a = Ok files ->
        let reply := post_rodin svc files (form_data a) in
        ((exists e, run.1 = Raise e /\ classify e = Some SubmissionError) <->
           ((exists msg, reply = Failure msg)
            \/ (exists body, reply = Response body /\ is_Some (body !! "error"))))
        /\ (forall msg, reply = Failure msg ->
             run.1 = Raise (Exception_ [Lit "API request failed: "; Lit msg]))
        /\ (forall body detail, reply = Response body -> body !! "error" = Some detail ->
             run.1 = Raise (Exception_ [Lit "Task submission failed: "; Str detail]))
        /\ count is_submit (log run.2) = 1%nat).
Proof.
  intros run. subst run. rewrite generate_3d_model_eq. cbv zeta.
  destruct (has_key self) eqn:Hkey; cbn [negb];
    [| split; [unfold count; simpl; lia | intros files [=]]].
  destruct (request_files svc a) as [files | e0] eqn:Hfiles;
    [| split; [unfold count; simpl; lia | intros files _ [=]]].
  destruct (post_rodin svc files (form_data a)) as [body | msg] eqn:Hreply.
  2:{ split; [unfold count; simpl; lia |].
      intros files' _ [= <-]. rewrite Hreply.
      split; [| split; [| split]].
      - split; [intros _; left; exists msg; reflexivity |].
        intros _. eexists. split; reflexivity.
      - intros msg' [= <-]. reflexivity.
      - intros body detail [=].
      - reflexivity. }
  destruct (dict_in "error" body) eqn:Herr.
  { split; [unfold count; simpl; lia |].
    intros files' _ [= <-]. rewrite Hreply.
    apply dict_in_spec in Herr as Hsome.
    split; [| split; [| split]].
    - split; [intros _; right; exists body; split; [reflexivity | exact Hsome] |].
      intros _. eexists. split; reflexivity.
    - intros msg [=].
    - intros body' detail [= <-] Hd. unfold dict_get. rewrite Hd. reflexivity.
    - reflexivity. }
  assert (Hnone : body !! "error" = None).
  { destruct (body !! "error") eqn:E; [| reflexivity].
    assert (dict_in "error" body = true) by (apply dict_in_spec; rewrite E; eauto).
    congruence. }
  assert (Hnot : forall r : result (pyval * gmap string pyval) * state,
            (forall e, r.1 = Raise e -> classify e <> Some SubmissionError) ->
            forall files', Ok files = Ok files' ->
            ((exists e, r.1 = Raise e /\ classify e = Some SubmissionError) <->
               ((exists msg, post_rodin svc files' (form_data a) = Failure msg)
                \/ (exists body, post_rodin svc files' (form_data a) = Response body
                                 /\ is_Some (body !! "error"))))
            /\ (forall msg, post_rodin svc files' (form_data a) = Failure msg ->
                 r.1 = Raise (Exception_ [Lit "API request failed: "; Lit msg]))
            /\ (forall body detail, post_rodin svc files' (form_data a) = Response body ->
                 body !! "error" = Some detail ->
                 r.1 = Raise (Exception_ [Lit "Task submission failed: "; Str detail]))).
  { intros r Hr files' [= <-]. rewrite Hreply.
    split; [| split].
    - split.
      + intros (e & He & Hc). exfalso. exact (Hr e He Hc).
      + intros [[msg [=]] | (body' & [= <-] & Hs)].
        rewrite Hnone in Hs. destruct Hs; discriminate.
    - intros msg [=].
    - intros body' detail [= <-] Hd. congruence. }
  destruct (dict_get body "jobs" PNone) as [| | | | | jobs];
    try (split; [unfold count; simpl; lia |];
         intros files' _ Hf;
         split; [apply Hnot; [intros e [= <-]; discriminate | exact Hf] |];
         split; [apply Hnot; [intros e [= <-]; discriminate | exact Hf] |];
         split; [apply Hnot; [intros e [= <-]; discriminate | exact Hf] |];
         reflexivity).
  destruct (loop_any svc (dict_get body "uuid" PNone)
              (dict_get jobs "subscription_key" PNone) poll_interval max_retries
              (seqZ 0 max_retries)
              (after [Print [Lit "Submitting generation task..."];
                      PostRodin files (form_data a)] 0 initial))
    as (evs & n & Hs & Hsub & _ & _ & _ & Hexc & _).
  assert (Hcount : count is_submit
            (log (finish (for_returning
                            (poll_once svc (dict_get body "uuid" PNone)
                               (dict_get jobs "subscription_key" PNone)
                               poll_interval max_retries)
                            (seqZ 0 max_retries)
                            (after [Print [Lit "Submitting generation task..."];
                                    PostRodin files (form_data a)] 0 initial))).2)
          = 1%nat).
  { rewrite finish_state, Hs. unfold count in *. simpl. rewrite Hsub. reflexivity. }
  split; [rewrite Hcount; lia |].
  intros files' _ Hf.
  assert (Hraise : forall e,
            (finish (for_returning
                       (poll_once svc (dict_get body "uuid" PNone)
                          (dict_get jobs "subscription_key" PNone)
                          poll_interval max_retries)
                       (seqZ 0 max_retries)
                       (after [Print [Lit "Submitting generation task..."];
                               PostRodin files (form_data a)] 0 initial))).1 = Raise e ->
            classify e <> Some SubmissionError).
  { intros e He. apply finish_raises in He as [He | ->]; [exact (Hexc e He) | discriminate]. }
  split; [apply Hnot; assumption |].
  split; [apply Hnot; assumption |].
  split; [apply Hnot; assumption | exact Hcount].
Qed.

(** A refused submission and an unreachable service, through the theorem. *)
Lemma submission_fails_exactly_on_error_or_transport_witness :
  (generate_3d_model Samples.refused Samples.me defaults 10 60 initial).1
    = Raise (Exception_ [Lit "Task submission failed: "; Str (PStr "INSUFFICIENT_FUND")])
  /\ (generate_3d_model Samples.unreachable Samples.me defaults 10 60 initial).1
    = Raise (Exception_ [Lit "API request failed: ";
                         Lit "503 Server Error: Service Unavailable"])
  /\ count is_submit
       (log (generate_3d_model Samples.unreachable Samples.me defaults 10 60 initial).2)
     = 1%nat.
Proof.
  pose proof (submission_fails_exactly_on_error_or_transport
                Samples.refused Samples.me defaults 10 60) as [_ Hr].
  pose proof (submission_fails_exactly_on_error_or_transport
                Samples.unreachable Samples.me defaults 10 60) as [_ Hu].
  specialize (Hr [] eq_refl eq_refl). specialize (Hu [] eq_refl eq_refl).
  destruct Hr as (_ & _ & Hr & _). destruct Hu as (_ & Hu & _ & Hc).
  split; [| split].
  - apply (Hr {[ "error" := PStr "INSUFFICIENT_FUND" ]}); reflexivity.
  - apply Hu. reflexivity.
  - exact Hc.
Defined.

(** C2, as stated, fails: the response of [Samples.no_handle] has no [error]
    field, no [uuid] and no [subscription_key], yet the run does not fail
    with a submission error.  It polls with the key [None] and returns the
    task identifier [None] with the download list. *)
Lemma missing_subscription_key_is_polled :
  let run := generate_3d_model Samples.no_handle Samples.me defaults 10 60 initial in
  post_rodin Samples.no_handle [] (form_data defaults) = Response {[ "jobs" := PDict ∅ ]}
  /\ run.1 = Ok (PNone, Samples.manifest)
  /\ actions (log run.2)
     = [PostRodin [] (form_data defaults); PostStatus PNone; PostDownload PNone]
  /\ ~ (exists e, run.1 = Raise e /\ classify e = Some SubmissionError).
Proof.
  vm_compute. split; [reflexivity |]. split; [reflexivity |]. split; [reflexivity |].
  intros (e & He & _). discriminate.
Qed.

(** C2, amended.  A submission answered without an [error] field is not
    rejected for what it lacks.  When its [jobs] field is an object, the run
    goes on to the polling loop with the [uuid] and the [subscription_key]
    found there, [None] standing for a missing one, and its first status
    request carries that key; otherwise it stops before any poll with an
    [AttributeError].  In neither case is the failure a submission error. *)
Theorem missing_key_not_rejected (svc : service) (self : client) (a : gen_args)
    (poll_interval max_retries : Z) (files : list (string * file_part))
    (body : gmap string pyval) :
  has_key self = true ->
  request_files svc a = Ok files ->
  post_rodin svc files (form_data a) = Response body ->
  body !! "error" = None ->
  let run := generate_3d_model svc self a poll_interval max_retries initial in
  let s1 := after [Print [Lit "Submitting generation task..."];
                   PostRodin files (form_data a)] 0 initial in
  match dict_get body "jobs" PNone with
  | PDict jobs =>
      let task_uuid := dict_get body "uuid" PNone in
      let subscription_key := dict_get jobs "subscription_key" PNone in
      run = finish (for_returning
                      (poll_once svc task_uuid subscription_key poll_interval max_retries)
                      (seqZ 0 max_retries) s1)
      /\ (0 < max_retries ->
          exists evs,
            actions (log run.2)
            = PostRodin files (form_data a) :: PostStatus subscription_key :: evs)
  | _ =>
      run = (Raise AttributeError, s1)
  end
  /\ (forall e, run.1 = Raise e -> classify e <> Some SubmissionError).
Proof.
  intros Hkey Hfiles Hreply Herr run s1. subst run.
  rewrite generate_3d_model_eq, Hkey, Hfiles, Hreply, (dict_in_None _ _ Herr).
  cbn [negb]. cbv zeta. fold s1.
  destruct (dict_get body "jobs" PNone) as [| | | | | jobs];
    try (split; [reflexivity | intros e [= <-]; discriminate]).
  destruct (loop_any svc (dict_get body "uuid" PNone)
              (dict_get jobs "subscription_key" PNone) poll_interval max_retries
              (seqZ 0 max_retries) s1)
    as (evs & n & Hs & _ & _ & _ & _ & Hexc & Hshape).
  split; [split; [reflexivity |] |].
  - intros Hpos. rewrite finish_state, Hs.
    destruct (Hshape 0 (seqZ 1 (max_retries - 1))) as [evs' ->].
    { rewrite seqZ_cons by lia. repeat f_equal; lia. }
    exists (actions evs'). reflexivity.
  - intros e He. apply finish_raises in He as [He | ->];
      [exact (Hexc e He) | discriminate].
Qed.

(** The response of [Samples.no_handle], through the theorem. *)
Lemma missing_key_not_rejected_witness :
  exists evs,
    actions (log (generate_3d_model Samples.no_handle Samples.me defaults 10 60
                    initial).2)
    = PostRodin [] (form_data defaults) :: PostStatus PNone :: evs.
Proof.
  pose proof (missing_key_not_rejected Samples.no_handle Samples.me defaults 10 60
                [] {[ "jobs" := PDict ∅ ]} eq_refl eq_refl eq_refl eq_refl) as H.
  simpl in H. destruct H as [[_ H] _]. apply H. lia.
Defined.

(** Pending at the first poll, all done at the second: the run returns the
    handle's identifier with the download list after two status requests. *)
Lemma all_done_fetches_manifest_once_witness :
  let run := generate_3d_model Samples.done_at_second Samples.me defaults 10 60 initial in
  run.1 = Ok (PStr "task-1", Samples.manifest)
  /\ count is_poll (log run.2) = 2%nat
  /\ count is_fetch_manifest (log run.2) = 1%nat.
Proof.
  pose proof (all_done_fetches_manifest_once Samples.done_at_second
                (PStr "task-1") (PStr "sub-1") 10) as (_ & _ & H).
  apply (H Samples.me defaults 60%nat 1%nat [PStr "Done"; PStr "Done"] Samples.manifest).
  - vm_compute. reflexivity.
  - lia.
  - intros i Hi. destruct i as [| i]; [vm_compute; reflexivity | lia].
  - vm_compute. reflexivity.
  - reflexivity.
  - lia.
  - reflexivity.
Defined.

(** ** Downloading the assets *)

Section Download.

Variable st : store.
Variable output_dir : string.

Lemma for_each_cons {A} (body : A -> M unit) a l s :
  for_each body (a :: l) s =
    match body a s with
    | (Ok _, s') => for_each body l s'
    | (Raise e, s') => (Raise e, s')
    end.
Proof. simpl. rewrite bind_eq. destruct (body a s) as [[[] | e] s']; reflexivity. Qed.

(** Writing the chunks of one file only appends [Write] events and keeps
    every file that is already on the disk. *)
Lemma write_chunks path chunks : forall s,
  exists evs s',
    for_each (fun chunk =>
                if negb (String.eqb chunk EmptyString) then write_chunk path chunk else ret tt)
      chunks s = (Ok tt, s')
    /\ log s' = log s ++ evs
    /\ Forall (fun e => match e with Write _ _ => True | _ => False end) evs
    /\ dom (disk s) ⊆ dom (disk s').
Proof.
  induction chunks as [| c chunks IH]; intros s.
  - exists [], s. rewrite app_nil_r. repeat split; [constructor | set_solver].
  - rewrite for_each_cons. destruct (String.eqb c EmptyString); cbn [negb].
    + exact (IH s).
    + unfold write_chunk at 1.
      destruct (IH {| log := log s ++ [Write path c]; status_calls := status_calls s;
                      disk := <[path := default EmptyString (disk s !! path) +:+ c]> (disk s) |})
        as (evs & s' & Hrun & Hlog & Hev & Hdom).
      exists (Write path c :: evs), s'. rewrite Hrun, Hlog. simpl in *.
      rewrite <- app_assoc. repeat split; [constructor; [exact I | exact Hev] |].
      rewrite dom_insert_L in Hdom. set_solver.
Qed.

Lemma count_writes f evs :
  (forall p c, f (Write p c) = false) ->
  Forall (fun e => match e with Write _ _ => True | _ => False end) evs ->
  count f evs = 0%nat.
Proof.
  intros Hf H. unfold count. induction H as [| e evs He _ IH]; [reflexivity |].
  destruct e; try contradiction. simpl. rewrite Hf. exact IH.
Qed.

(** One entry, once the directory exists and the file name is known: the
    asset is requested once and either recorded as downloaded or reported as
    failed; nothing is raised. *)
Lemma download_model_target file_info target s :
  makedirs st output_dir = None ->
  target_of output_dir file_info = Some target ->
  exists url name evs s',
    py_get file_info "url" PNone = Ok url
    /\ py_get file_info "name" PNone = Ok name
    /\ download_model st url output_dir name s = (Ok tt, s')
    /\ log s' = log s ++ evs
    /\ count is_get evs = 1%nat
    /\ count is_downloaded evs = (if reachable st target then 1 else 0)%nat
    /\ count is_download_error evs = (if reachable st target then 0 else 1)%nat
    /\ dom (disk s) ⊆ dom (disk s')
    /\ (reachable st target = true -> target.2 ∈ dom (disk s')).
Proof.
  intros Hmk Ht. unfold target_of in Ht.
  destruct file_info as [| | | | | d]; try discriminate. cbv zeta in Ht.
  exists (dict_get d "url" PNone), (dict_get d "name" PNone).
  set (url := dict_get d "url" PNone) in *.
  set (name := dict_get d "name" PNone) in *.
  assert (Hname : exists f,
            (if negb (truthy name)
             then match url with
                  | PStr u => ret (PStr (basename (before_first "?" u)))
                  | _ => raise AttributeError
                  end
             else ret name) = ret (PStr f)
            /\ target = (url, path_join output_dir f)).
  { destruct (truthy name); cbn [negb].
    - destruct name as [| | | f | |]; try discriminate.
      injection Ht as <-. exists f. split; reflexivity.
    - destruct url as [| | | u | |]; try discriminate.
      injection Ht as <-. eexists. split; reflexivity. }
  destruct Hname as (f & Hname & ->). clear Ht.
  unfold download_model. rewrite bind_emit, Hmk, Hname.
  unfold reachable. cbn [fst snd].
  set (path := path_join output_dir f).
  rewrite !bind_ret. unfold try_except, fetch_and_write. rewrite bind_emit, after_after.
  fold path. simpl app.
  destruct (get st url) as [e | chunks broken].
  { (* the request fails *)
    eexists _, _. split; [reflexivity |]. split; [reflexivity |].
    split; [reflexivity |]. simpl log. rewrite <- app_assoc.
    split; [reflexivity |]. split; [reflexivity |]. split; [reflexivity |].
    split; [reflexivity |]. split; [set_solver | discriminate]. }
  destruct (open_wb st path) as [e |].
  { (* the file cannot be opened *)
    eexists _, _. split; [reflexivity |]. split; [reflexivity |].
    split; [reflexivity |]. simpl log. rewrite <- app_assoc.
    split; [reflexivity |].
    destruct broken; (split; [reflexivity |]; split; [reflexivity |];
                      split; [reflexivity |]; split; [set_solver | discriminate]). }
  rewrite bind_eq. unfold create_file at 1. rewrite bind_eq.
  match goal with
  | |- context [for_each _ chunks ?s0] =>
      destruct (write_chunks path chunks s0) as (evs & s' & Hrun & Hlog & Hev & Hdom)
  end.
  rewrite Hrun. simpl in Hlog, Hdom. rewrite dom_insert_L in Hdom.
  pose proof (count_writes is_get evs ltac:(reflexivity) Hev) as Hg.
  pose proof (count_writes is_downloaded evs ltac:(reflexivity) Hev) as Hd.
  pose proof (count_writes is_download_error evs ltac:(reflexivity) Hev) as Hf.
  destruct broken as [e |].
  - (* the stream breaks after the file was created *)
    eexists _, _. split; [reflexivity |]. split; [reflexivity |].
    split; [reflexivity |]. simpl log. rewrite Hlog, <- !app_assoc.
    split; [reflexivity |]. simpl app.
    change (?a :: ?b :: ?c :: evs ++ ?r) with ([a; b; c] ++ evs ++ r).
    rewrite !count_app, Hg, Hd, Hf.
    split; [reflexivity |]. split; [reflexivity |]. split; [reflexivity |].
    split; [set_solver | discriminate].
  - (* the whole file is written *)
    eexists _, _. split; [reflexivity |]. split; [reflexivity |].
    split; [reflexivity |]. simpl log. rewrite Hlog, <- !app_assoc.
    split; [reflexivity |]. simpl app.
    change (?a :: ?b :: ?c :: evs ++ ?r) with ([a; b; c] ++ evs ++ r).
    rewrite !count_app, Hg, Hd, Hf.
    split; [reflexivity |]. split; [reflexivity |]. split; [reflexivity |].
    split; [set_solver | intros _; set_solver].
Qed.

(** The loop over the download list: every entry is requested, the reachable
    ones are recorded as downloaded and are on the disk afterwards, the others
    are reported one by one. *)
Lemma download_files_targets file_list : forall targets s,
  makedirs st output_dir = None ->
  mapM (target_of output_dir) file_list = Some targets ->
  exists evs s',
    download_files st output_dir file_list s = (Ok tt, s')
    /\ log s' = log s ++ evs
    /\ count is_get evs = length file_list
    /\ count is_downloaded evs = length (List.filter (reachable st) targets)
    /\ count is_download_error evs
       = length (List.filter (fun t => negb (reachable st t)) targets)
    /\ dom (disk s) ⊆ dom (disk s')
    /\ (forall t, t ∈ targets -> reachable st t = true -> t.2 ∈ dom (disk s')).
Proof.
  induction file_list as [| file_info file_list IH]; intros targets s Hmk Ht.
  - injection Ht as <-. exists [], s. rewrite app_nil_r.
    split; [reflexivity |]. split; [reflexivity |]. split; [reflexivity |].
    split; [reflexivity |]. split; [reflexivity |]. split; [set_solver |].
    intros t Hin. inversion Hin.
  - simpl in Ht.
    destruct (target_of output_dir file_info) as [target |] eqn:Htarget; [| discriminate].
    simpl in Ht.
    destruct (mapM (target_of output_dir) file_list) as [rest |] eqn:Hrest; [| discriminate].
    injection Ht as <-.
    destruct (download_model_target file_info target s Hmk Htarget)
      as (url & name & evs1 & s1 & Hurl & Hnm & Hrun1 & Hlog1 & Hg1 & Hd1 & Hf1 & Hdom1 & Hin1).
    destruct (IH rest s1 Hmk eq_refl)
      as (evs2 & s2 & Hrun2 & Hlog2 & Hg2 & Hd2 & Hf2 & Hdom2 & Hin2).
    exists (evs1 ++ evs2), s2.
    unfold download_files in *. rewrite for_each_cons.
    rewrite bind_lift, Hurl, bind_lift, Hnm, Hrun1, Hrun2, Hlog2, Hlog1, <- app_assoc.
    rewrite !count_app, Hg1, Hg2, Hd1, Hd2, Hf1, Hf2.
    split; [reflexivity |]. split; [reflexivity |]. split; [reflexivity |].
    simpl List.filter. destruct (reachable st target) eqn:Hreach; cbn [negb length].
    + split; [reflexivity |]. split; [reflexivity |]. split; [set_solver |].
      intros t Ht Hr. apply elem_of_cons in Ht as [-> | Ht];
        [specialize (Hin1 eq_refl); set_solver | exact (Hin2 t Ht Hr)].
    + split; [reflexivity |]. split; [reflexivity |]. split; [set_solver |].
      intros t Ht Hr. apply elem_of_cons in Ht as [-> | Ht];
        [congruence | exact (Hin2 t Ht Hr)].
Qed.

End Download.

(** C8, as stated, fails: on [Samples.read_only] the directory cannot be
    created, and although every step of the three downloads is a per-asset
    step, the error of [os.makedirs] is raised out of the first
    [download_model]: no asset is requested, none is reported. *)
Lemma unwritable_directory_aborts_downloads :
  let run := download_files Samples.read_only "out/task-1" Samples.three_assets initial in
  run.1 = Raise (OSError [Lit "[Errno 13] Permission denied"])
  /\ log run.2 = [Makedirs "out/task-1"]
  /\ count is_get (log run.2) = 0%nat
  /\ count is_download_error (log run.2) = 0%nat.
Proof. vm_compute. repeat split; reflexivity. Qed.

(** C8, amended.  When the destination directory can be created and every
    entry of the list yields a file name, the download loop processes every
    entry even when some fail: each asset is requested once, and a failure of
    the request, of opening the local file or of the streaming is caught and
    reported for that asset alone.  The assets that arrive are recorded as
    downloaded and are on the disk afterwards; with two reachable assets and
    one unreachable, that is two downloads and one reported error. *)
Theorem download_continues_past_failed_assets (st : store) (output_dir : string)
    (file_list : list pyval) (targets : list (pyval * string)) (s : state) :
  makedirs st output_dir = None ->
  mapM (target_of output_dir) file_list = Some targets ->
  exists evs s',
    download_files st output_dir file_list s = (Ok tt, s')
    /\ log s' = log s ++ evs
    /\ count is_get evs = length file_list
    /\ count is_downloaded evs = length (List.filter (reachable st) targets)
    /\ count is_download_error evs
       = length (List.filter (fun t => negb (reachable st t)) targets)
    /\ (forall t, t ∈ targets -> reachable st t = true -> t.2 ∈ dom (disk s'))
    /\ (length (List.filter (reachable st) targets) = 2%nat ->
        length targets = 3%nat ->
        count is_downloaded evs = 2%nat /\ count is_download_error evs = 1%nat).
Proof.
  intros Hmk Ht.
  destruct (download_files_targets st output_dir file_list targets s Hmk Ht)
    as (evs & s' & Hrun & Hlog & Hg & Hd & Hf & _ & Hin).
  exists evs, s'. repeat (split; [assumption |]).
  intros H2 H3. rewrite Hd, Hf. split; [exact H2 |].
  pose proof (List.filter_length (reachable st) targets) as Hsum.
  rewrite H2, H3 in Hsum. lia.
Qed.

(** The three assets of [Samples.three_assets] on [Samples.cdn]: two files
    are written, one error is reported, and the loop ends normally. *)
Lemma download_continues_past_failed_assets_witness :
  let run := download_files Samples.cdn "out/task-1" Samples.three_assets initial in
  run.1 = Ok tt
  /\ count is_get (log run.2) = 3%nat
  /\ count is_downloaded (log run.2) = 2%nat
  /\ count is_download_error (log run.2) = 1%nat
  /\ disk run.2 = <["out/task-1/a.glb" := "glTF"]> {[ "out/task-1/b.png" := "PNG" ]}.
Proof.
  assert (Hdisk : disk (download_files Samples.cdn "out/task-1" Samples.three_assets
                          initial).2
                  = <["out/task-1/a.glb" := "glTF"]> {[ "out/task-1/b.png" := "PNG" ]})
    by (vm_compute; reflexivity).
  destruct (download_continues_past_failed_assets Samples.cdn "out/task-1"
              Samples.three_assets
              [(PStr "https://cdn/a.glb?sig=1", "out/task-1/a.glb");
               (PStr "https://cdn/gone.fbx", "out/task-1/gone.fbx");
               (PStr "https://cdn/b.png", "out/task-1/b.png")] initial)
    as (evs & s' & Hrun & Hlog & Hg & _ & _ & _ & Hcounts).
  - reflexivity.
  - vm_compute. reflexivity.
  - destruct Hcounts as [Hd Hf]; [reflexivity | reflexivity |].
    cbv zeta. rewrite Hrun in *. simpl in Hlog. cbn [fst snd] in *. rewrite Hlog.
    split; [reflexivity |]. split; [exact Hg |]. split; [exact Hd |].
    split; [exact Hf | exact Hdisk].
Defined.

(** * Further properties of the scripts *)

(** ** image_utils.py: the order of the checks *)

Lemma validate_image_cases (fs : files) (p : string) :
  validate_image fs p = Ok true \/ exists m, validate_image fs p = Raise (Exception_ m).
Proof.
  unfold validate_image.
  destruct (negb (path_exists fs p)); [right; eauto |].
  destruct (MAX_FILE_SIZE <? getsize fs p); [right; eauto |].
  destruct (negb (bool_decide (extension p ∈ valid_extensions))); [right; eauto |].
  destruct (check_resolution fs p); [right; eauto | left; reflexivity].
Qed.

(** [validate_image] answers [True] or raises a plain [Exception]: it never
    returns [False] and lets no other class of exception out. *)
Theorem validate_image_true_or_Exception (fs : files) (p : string) :
  validate_image fs p = Ok true \/ exists m, validate_image fs p = Raise (Exception_ m).
Proof.
  unfold validate_image.
  destruct (path_exists fs p); cbn [negb]; [| right; eauto].
  destruct (MAX_FILE_SIZE <? getsize fs p); [right; eauto |].
  destruct (bool_decide (extension p ∈ valid_extensions)); cbn [negb]; [| right; eauto].
  destruct (check_resolution fs p) as [e |]; [right; eauto | left; reflexivity].
Qed.

(** The image is opened only after the three cheap checks: for a file that is
    missing, larger than 16 MiB or of an unsupported extension, the answer
    does not depend on what PIL would report. *)
Theorem validate_image_rejects_before_opening (fs fs' : files) (p : string) :
  path_exists fs' p = path_exists fs p ->
  getsize fs' p = getsize fs p ->
  path_exists fs p = false \/ MAX_FILE_SIZE < getsize fs p
    \/ extension p ∉ valid_extensions ->
  validate_image fs' p = validate_image fs p
  /\ validate_image fs p <> Ok true.
Proof.
  intros Hex Hsz Hbad. unfold validate_image. rewrite Hex, Hsz.
  destruct (path_exists fs p); cbn [negb]; [| split; [reflexivity | discriminate]].
  destruct (Z.ltb_spec MAX_FILE_SIZE (getsize fs p)) as [Hgt | Hle];
    [split; [reflexivity | discriminate] |].
  destruct Hbad as [Hbad | [Hbad | Hbad]]; [discriminate | lia |].
  rewrite bool_decide_eq_false_2 by exact Hbad. split; [reflexivity | discriminate].
Qed.

Lemma validate_image_rejects_before_opening_witness :
  validate_image Cases.odd_files_readable "in/big.bmp"
    = validate_image Cases.odd_files "in/big.bmp"
  /\ validate_image Cases.odd_files "in/big.bmp" <> Ok true.
Proof.
  apply (validate_image_rejects_before_opening Cases.odd_files Cases.odd_files_readable
           "in/big.bmp"); [reflexivity | reflexivity |].
  right. left. vm_compute. reflexivity.
Defined.

(** The lower bound is tested first: an image with one side under 512 is
    reported as too low even when its other side exceeds 4096. *)
Theorem validate_image_too_low_before_too_high (fs : files) (p : string) (w h : Z) :
  path_exists fs p = true -> getsize fs p <= MAX_FILE_SIZE ->
  extension p ∈ valid_extensions ->
  image_size fs p = inr (w, h) ->
  w < 512 \/ h < 512 ->
  validate_image fs p = Raise (Exception_ (Lit "Failed to validate image: " :: too_low)).
Proof.
  intros Hex Hsz Hext Hres Hlow.
  rewrite validate_image_reaches_resolution by assumption.
  unfold check_resolution. rewrite Hres. cbn [fst snd MIN_RESOLUTION].
  destruct (Z.ltb_spec w 512), (Z.ltb_spec h 512); try reflexivity. lia.
Qed.

Lemma validate_image_too_low_before_too_high_witness :
  validate_image Cases.odd_files "in/strip.png"
  = Raise (Exception_ (Lit "Failed to validate image: " :: too_low)).
Proof.
  apply (validate_image_too_low_before_too_high Cases.odd_files "in/strip.png" 100 10000);
    [reflexivity | vm_compute; discriminate | | reflexivity | lia].
  vm_compute. set_solver.
Defined.

(** A file with a supported extension that PIL cannot read is rejected with
    PIL's own text behind "Failed to validate image: ". *)
Theorem validate_image_unreadable_image (fs : files) (p e : string) :
  path_exists fs p = true -> getsize fs p <= MAX_FILE_SIZE ->
  extension p ∈ valid_extensions ->
  image_size fs p = inl e ->
  validate_image fs p = Raise (Exception_ [Lit "Failed to validate image: "; Lit e]).
Proof.
  intros Hex Hsz Hext Hres.
  rewrite validate_image_reaches_resolution by assumption.
  unfold check_resolution. rewrite Hres. reflexivity.
Qed.

Lemma validate_image_unreadable_image_witness :
  validate_image Cases.odd_files "in/notes.webp"
  = Raise (Exception_ [Lit "Failed to validate image: "; Lit "cannot identify image file"]).
Proof.
  apply (validate_image_unreadable_image Cases.odd_files "in/notes.webp");
    [reflexivity | vm_compute; discriminate | | reflexivity].
  vm_compute. set_solver.
Defined.

(** ** api_client.py: before the request is sent *)

(** The constructor keeps the explicit key unless it is empty or absent, in
    which case it falls back on the environment; and a client whose key is
    absent or empty sends nothing: [submit_generation_task] raises
    [ValueError] before reading a file or posting, and [generate_3d_model]
    stops there. *)
Theorem missing_key_sends_nothing (svc : service) (key environ_key : option string)
    (a : gen_args) (poll_interval max_retries : Z) (s : state) :
  api_key (init key environ_key)
    = match nonempty_str key with Some k => Some k | None => environ_key end
  /\ (nonempty_str key = None -> nonempty_str environ_key = None ->
      exists m,
        submit_generation_task svc (init key environ_key) a s = (Raise (ValueError m), s)
        /\ generate_3d_model svc (init key environ_key) a poll_interval max_retries s
           = (Raise (ValueError m),
              after [Print [Lit "Submitting generation task..."]] 0 s)).
Proof.
  split.
  - unfold init, nonempty_str. destruct key as [k |]; [| reflexivity].
    destruct (String.eqb k EmptyString); reflexivity.
  - intros Hk He.
    assert (Hno : has_key (init key environ_key) = false).
    { unfold has_key, init, nonempty_str in *.
      destruct key as [k |]; [destruct (String.eqb k EmptyString) eqn:Ek; [| discriminate] |];
        cbn [api_key]; (destruct environ_key as [e |]; [| reflexivity]);
        destruct (String.eqb e EmptyString); [reflexivity | discriminate | reflexivity | discriminate]. }
    eexists. rewrite generate_3d_model_eq, submit_generation_task_eq, Hno.
    split; reflexivity.
Qed.

Lemma missing_key_sends_nothing_witness :
  exists m,
    generate_3d_model Samples.busy (init (Some EmptyString) None) defaults 10 60 initial
    = (Raise (ValueError m), after [Print [Lit "Submitting generation task..."]] 0 initial).
Proof.
  destruct (missing_key_sends_nothing Samples.busy (Some EmptyString) None defaults 10 60
              initial) as [_ H].
  destruct (H eq_refl eq_refl) as (m & _ & Hrun). exists m. exact Hrun.
Defined.

(** The part uploaded for an image. *)
Lemma read_images_parts (svc : service) (l : list image) :
  forall files,
    read_images svc l = Ok files ->
    length files = length l
    /\ Forall (fun part => part.1 = "images") files
    /\ (forall i p, l !! i = Some (ImagePath p) ->
        exists content,
          read_file svc p = Some content
          /\ files !! i = Some ("images", NamedBytes (basename p) content))
    /\ (forall i f, l !! i = Some (ImageFile f) ->
        files !! i = Some ("images", FileObject f)).
Proof.
  induction l as [| img l IH]; intros files H.
  - injection H as <-. repeat split; [constructor | intros i p [=] | intros i f [=]].
  - simpl in H. destruct img as [p | f].
    + destruct (read_file svc p) as [content |] eqn:Hp; [| discriminate].
      destruct (read_images svc l) as [files' |]; [| discriminate].
      injection H as <-. destruct (IH files' eq_refl) as (Hlen & Hall & Hpath & Hobj).
      split; [simpl; rewrite Hlen; reflexivity |].
      split; [constructor; [reflexivity | exact Hall] |].
      split.
      * intros [| i] q Hq; simpl in Hq.
        -- injection Hq as <-. exists content. split; [exact Hp | reflexivity].
        -- exact (Hpath i q Hq).
      * intros [| i] g Hg; simpl in Hg; [discriminate | exact (Hobj i g Hg)].
    + destruct (read_images svc l) as [files' |]; [| discriminate].
      injection H as <-. destruct (IH files' eq_refl) as (Hlen & Hall & Hpath & Hobj).
      split; [simpl; rewrite Hlen; reflexivity |].
      split; [constructor; [reflexivity | exact Hall] |].
      split.
      * intros [| i] q Hq; simpl in Hq; [discriminate | exact (Hpath i q Hq)].
      * intros [| i] g Hg; simpl in Hg.
        -- injection Hg as <-. reflexivity.
        -- exact (Hobj i g Hg).
Qed.

Lemma read_images_unreadable (svc : service) (l : list image) (p : string) :
  ImagePath p ∈ l -> read_file svc p = None ->
  exists m, read_images svc l = Raise (OSError m).
Proof.
  intros Hin Hp. induction l as [| img l IH]; [inversion Hin |].
  apply elem_of_cons in Hin as [<- | Hin].
  - simpl. rewrite Hp. eauto.
  - destruct (IH Hin) as [m Hm]. simpl. rewrite Hm.
    destruct img as [q | f]; [destruct (read_file svc q) |]; simpl; eauto.
Qed.

(** Every image of a request is uploaded under the field name "images", in
    the order given: an image given by path is read in full and sent under
    its base name, a file object is passed on as it is; when the request is
    sent, it carries exactly these parts. *)
Theorem images_uploaded_in_order (svc : service) (self : client) (a : gen_args)
    (l : list image) (files : list (string * file_part)) (s : state) :
  images a = Some l ->
  request_files svc a = Ok files ->
  has_key self = true ->
  length files = length l
  /\ Forall (fun part => part.1 = "images") files
  /\ (forall i p, l !! i = Some (ImagePath p) ->
      exists content,
        read_file svc p = Some content
        /\ files !! i = Some ("images", NamedBytes (basename p) content))
  /\ (forall i f, l !! i = Some (ImageFile f) ->
      files !! i = Some ("images", FileObject f))
  /\ log (submit_generation_task svc self a s).2
     = log s ++ [PostRodin files (form_data a)].
Proof.
  intros Himg Hfiles Hkey. unfold request_files in Hfiles. rewrite Himg in Hfiles.
  destruct (read_images_parts svc l files Hfiles) as (H1 & H2 & H3 & H4).
  repeat (split; [assumption |]).
  rewrite submit_generation_task_eq, Hkey. unfold request_files. rewrite Himg, Hfiles.
  reflexivity.
Qed.

Lemma images_uploaded_in_order_witness :
  log (submit_generation_task (Cases.with_images Samples.busy) Samples.me Cases.two_views
         initial).2
  = [PostRodin [("images", NamedBytes "front.png" "PNG-front");
                ("images", FileObject "<stream>");
                ("images", NamedBytes "back.jpg" "JPG-back")]
       (form_data Cases.two_views)].
Proof.
  pose proof (images_uploaded_in_order (Cases.with_images Samples.busy) Samples.me
                Cases.two_views
                [ImagePath "in/front.png"; ImageFile "<stream>"; ImagePath "/tmp/back.jpg"]
                [("images", NamedBytes "front.png" "PNG-front");
                 ("images", FileObject "<stream>");
                 ("images", NamedBytes "back.jpg" "JPG-back")]
                initial eq_refl eq_refl eq_refl) as (_ & _ & _ & _ & H).
  exact H.
Defined.

(** An image path that cannot be read stops the request before it is sent:
    [OSError] comes out of [generate_3d_model] and nothing is posted, even
    when the other images are readable. *)
Theorem unreadable_image_sends_nothing (svc : service) (self : client) (a : gen_args)
    (l : list image) (p : string) (poll_interval max_retries : Z) (s : state) :
  has_key self = true ->
  images a = Some l ->
  ImagePath p ∈ l ->
  read_file svc p = None ->
  exists m,
    generate_3d_model svc self a poll_interval max_retries s
    = (Raise (OSError m), after [Print [Lit "Submitting generation task..."]] 0 s).
Proof.
  intros Hkey Himg Hin Hp.
  destruct (read_images_unreadable svc l p Hin Hp) as [m Hm].
  exists m. rewrite generate_3d_model_eq, Hkey. unfold request_files.
  rewrite Himg, Hm. reflexivity.
Qed.

Lemma unreadable_image_sends_nothing_witness :
  exists m,
    generate_3d_model (Cases.with_images Samples.busy) Samples.me Cases.one_unreadable
      10 60 initial
    = (Raise (OSError m), after [Print [Lit "Submitting generation task..."]] 0 initial).
Proof.
  apply (unreadable_image_sends_nothing (Cases.with_images Samples.busy) Samples.me
           Cases.one_unreadable
           [ImagePath "in/front.png"; ImagePath "in/nowhere.png"] "in/nowhere.png");
    [reflexivity | reflexivity | | reflexivity].
  apply elem_of_cons. right. apply elem_of_cons. left. reflexivity.
Defined.

Lemma dom_set_when k o (data : gmap string string) (X : gset string) :
  dom data ⊆ X -> k ∈ X -> dom (set_when k o data) ⊆ X.
Proof.
  intros HX Hk. destruct o; simpl; [| exact HX].
  rewrite dom_insert_L. apply union_subseteq. split; [| exact HX].
  apply singleton_subseteq_l. exact Hk.
Qed.

Lemma lookup_form_data_base (a : gen_args) k :
  k ∉ ["prompt"; "seed"; "quality_override"; "bbox_condition"; "mesh_mode"; "addons"] ->
  form_data a !! k = base_fields a !! k.
Proof.
  intros H. rewrite form_data_guarded.
  rewrite !lookup_set_when_ne; [reflexivity | ..]; intros <-; apply H; set_solver.
Qed.

(** The seven fixed fields are always in the payload, whatever the optional
    arguments: the four enumerated options as given and the three flags as
    the lower-case words "true" and "false".  The payload never has a field
    beyond these seven and the six optional ones. *)
Theorem form_data_fixed_fields (a : gen_args) :
  form_data a !! "tier" = Some (tier a)
  /\ form_data a !! "geometry_file_format" = Some (geometry_file_format a)
  /\ form_data a !! "material" = Some (material a)
  /\ form_data a !! "quality" = Some (quality a)
  /\ form_data a !! "use_original_alpha"
     = Some (if use_original_alpha a then "true" else "false")
  /\ form_data a !! "TAPose" = Some (if TAPose a then "true" else "false")
  /\ form_data a !! "preview_render"
     = Some (if preview_render a then "true" else "false")
  /\ dom (form_data a) ⊆
       list_to_set ["tier"; "geometry_file_format"; "material"; "quality";
                    "use_original_alpha"; "TAPose"; "preview_render";
                    "prompt"; "seed"; "quality_override"; "bbox_condition";
                    "mesh_mode"; "addons"].
Proof.
  assert (Hbase : forall k v,
            k ∉ ["prompt"; "seed"; "quality_override"; "bbox_condition"; "mesh_mode"; "addons"] ->
            base_fields a !! k = Some v -> form_data a !! k = Some v).
  { intros k v Hk Hv. rewrite lookup_form_data_base by exact Hk. exact Hv. }
  assert (Hflag : forall b : bool,
            lower (str_of_bool b) = if b then "true" else "false")
    by (intros []; reflexivity).
  assert (Hfixed : forall k,
            k ∈ ["tier"; "geometry_file_format"; "material"; "quality";
                 "use_original_alpha"; "TAPose"; "preview_render"] ->
            k ∉ ["prompt"; "seed"; "quality_override"; "bbox_condition"; "mesh_mode"; "addons"]).
  { intros k Hk Hopt.
    repeat (apply elem_of_cons in Hk as [-> | Hk];
            [repeat (apply elem_of_cons in Hopt as [Hopt | Hopt]; [discriminate |]);
             inversion Hopt |]).
    inversion Hk. }
  split; [apply Hbase; [apply Hfixed; repeat constructor | reflexivity] |].
  split; [apply Hbase; [apply Hfixed; repeat constructor | reflexivity] |].
  split; [apply Hbase; [apply Hfixed; repeat constructor | reflexivity] |].
  split; [apply Hbase; [apply Hfixed; repeat constructor | reflexivity] |].
  split; [apply Hbase; [apply Hfixed; repeat constructor | rewrite <- Hflag; reflexivity] |].
  split; [apply Hbase; [apply Hfixed; repeat constructor | rewrite <- Hflag; reflexivity] |].
  split; [apply Hbase; [apply Hfixed; repeat constructor | rewrite <- Hflag; reflexivity] |].
  rewrite form_data_guarded.
  repeat (apply dom_set_when; [| apply elem_of_list_to_set; repeat constructor]).
  unfold base_fields.
  repeat match goal with
         | |- dom (<[?k := ?v]> ?m) ⊆ _ =>
             apply (dom_set_when k (Some v) m);
             [| apply elem_of_list_to_set; repeat constructor]
         end.
  rewrite dom_empty_L. apply empty_subseteq.
Qed.

(** ** api_client.py: status responses that end the run *)

Section StatusFailures.

Variable svc : service.
Variables task_uuid subscription_key : pyval.
Variables poll_interval max_retries attempt : Z.
Variable rest : list Z.
Variable s : state.

Abbreviation this_poll :=
  (for_returning (poll_once svc task_uuid subscription_key poll_interval max_retries)
     (attempt :: rest) s).
Abbreviation after_request :=
  (after [checking attempt max_retries; PostStatus subscription_key] 1 s).

Lemma poll_once_response body :
  post_status svc (status_calls s) subscription_key = Response body ->
  dict_in "error" body = false ->
  truthy (dict_get body "jobs" (PList [])) = true ->
  poll_once svc task_uuid subscription_key poll_interval max_retries attempt s
  = (total_count <- lift (py_len (dict_get body "jobs" (PList []))) ;;
     scanned <- lift (rbind (items (dict_get body "jobs" (PList [])))
                        (fun l => scan_jobs l [] 0 None)) ;;
     let '(status, done_count, job) := scanned in
     print [Lit "Current status: ("; Str (PInt done_count); Lit "/";
            Str (PInt total_count); Lit " done)"] ;;
     dispatch svc task_uuid poll_interval (aggregate status) job) after_request.
Proof.
  intros Hr Herr Hjobs. unfold poll_once.
  rewrite bind_print, bind_eq, check_task_status_eq.
  change (status_calls (after _ 0 s)) with (status_calls s).
  rewrite Hr, after_after, Herr. cbv zeta. rewrite Hjobs. reflexivity.
Qed.

(** A status request that fails in transport, or whose response carries an
    [error] field, ends the run at once with "Status check failed: ..." and
    the transport's text, respectively the value of the field: the loop does
    not sleep or try again, and an [error] field wins over any [jobs] the
    same response reports, finished or not. *)
Theorem status_failure_ends_the_run :
  (forall e,
     post_status svc (status_calls s) subscription_key = Failure e ->
     for_returning (poll_once svc task_uuid subscription_key poll_interval max_retries)
       (attempt :: rest) s
     = (Raise (Exception_ [Lit "Status check failed: "; Lit e]),
        after [checking attempt max_retries; PostStatus subscription_key] 1 s))
  /\ (forall body detail,
        post_status svc (status_calls s) subscription_key = Response body ->
        body !! "error" = Some detail ->
        for_returning (poll_once svc task_uuid subscription_key poll_interval max_retries)
          (attempt :: rest) s
        = (Raise (Exception_ [Lit "Status check failed: "; Str detail]),
           after [checking attempt max_retries; PostStatus subscription_key] 1 s)).
Proof.
  split.
  - intros e Hr. rewrite for_returning_cons. unfold poll_once.
    rewrite bind_print, bind_eq, check_task_status_eq.
    change (status_calls (after _ 0 s)) with (status_calls s).
    rewrite Hr, after_after. reflexivity.
  - intros body detail Hr Hd. rewrite for_returning_cons. unfold poll_once.
    rewrite bind_print, bind_eq, check_task_status_eq.
    change (status_calls (after _ 0 s)) with (status_calls s).
    rewrite Hr, after_after.
    assert (Hin : dict_in "error" body = true)
      by (apply dict_in_spec; rewrite Hd; eauto).
    rewrite Hin. unfold dict_get. rewrite Hd. reflexivity.
Qed.

(** What [jobs] may be besides a list of objects.  Any falsy value ([None],
    [False], 0, the empty string, list or object) counts as no job and gives
    "No jobs found in status response".  A list with an item that is not an
    object, a non-empty string and a non-empty object raise [AttributeError];
    a non-zero number and [True] raise [TypeError].  In every case the run
    ends right after the request. *)
Theorem jobs_of_the_wrong_shape (body : gmap string pyval) :
  post_status svc (status_calls s) subscription_key = Response body ->
  body !! "error" = None ->
  let jobs := dict_get body "jobs" (PList []) in
  (truthy jobs = false ->
   this_poll = (Raise (Exception_ [Lit "No jobs found in status response"]), after_request))
  /\ (truthy jobs = true ->
      match jobs with
      | PList l =>
          mapM job_status l = None -> this_poll = (Raise AttributeError, after_request)
      | PStr _ | PDict _ => this_poll = (Raise AttributeError, after_request)
      | PInt _ | PBool _ | PNone => this_poll = (Raise TypeError, after_request)
      end).
Proof.
  intros Hr Herr jobs. apply dict_in_None in Herr. split.
  - intros Hfalsy. rewrite for_returning_cons. unfold poll_once.
    rewrite bind_print, bind_eq, check_task_status_eq.
    change (status_calls (after _ 0 s)) with (status_calls s).
    rewrite Hr, after_after, Herr. cbv zeta. fold jobs. rewrite Hfalsy. reflexivity.
  - intros Htruthy. rewrite for_returning_cons.
    rewrite (poll_once_response body Hr Herr Htruthy). fold jobs.
    destruct jobs as [| b | z | str | l | d]; try reflexivity.
    + destruct str; [discriminate | reflexivity].
    + intros Hl. rewrite bind_lift. cbn [py_len]. rewrite bind_lift. cbn [items].
      unfold rbind at 1. rewrite scan_jobs_not_objects by exact Hl. reflexivity.
    + rewrite bind_lift. cbn [py_len]. rewrite bind_lift. cbn [items].
      destruct (map_to_list d) as [| [k v] kvs] eqn:Hkv; [| reflexivity].
      apply map_to_list_empty_iff in Hkv. subst d.
      unfold truthy in Htruthy. rewrite bool_decide_eq_true_2 in Htruthy by reflexivity.
      discriminate.
Qed.

End StatusFailures.

Lemma status_failure_ends_the_run_witness :
  for_returning (poll_once Cases.status_down (PStr "task-1") (PStr "sub-1") 10 60)
    [0; 1; 2] initial
  = (Raise (Exception_ [Lit "Status check failed: "; Lit "Read timed out."]),
     after [checking 0 60; PostStatus (PStr "sub-1")] 1 initial)
  /\ for_returning
       (poll_once Cases.status_error_with_done_jobs (PStr "task-1") (PStr "sub-1") 10 60)
       [0; 1; 2] initial
     = (Raise (Exception_ [Lit "Status check failed: "; Str (PStr "NOT_FOUND")]),
        after [checking 0 60; PostStatus (PStr "sub-1")] 1 initial).
Proof.
  split.
  - apply (proj1 (status_failure_ends_the_run Cases.status_down (PStr "task-1")
                    (PStr "sub-1") 10 60 0 [1; 2] initial)).
    reflexivity.
  - apply (proj2 (status_failure_ends_the_run Cases.status_error_with_done_jobs
                    (PStr "task-1") (PStr "sub-1") 10 60 0 [1; 2] initial)
             (<["error" := PStr "NOT_FOUND"]>
                {[ "jobs" := PList [Samples.job "Done"] ]}) (PStr "NOT_FOUND"));
      reflexivity.
Defined.

Lemma jobs_of_the_wrong_shape_witness :
  for_returning
    (poll_once Cases.status_jobs_mixed (PStr "task-1") (PStr "sub-1") 10 60)
    [0; 1; 2] initial
  = (Raise AttributeError, after [checking 0 60; PostStatus (PStr "sub-1")] 1 initial).
Proof.
  pose proof (jobs_of_the_wrong_shape Cases.status_jobs_mixed (PStr "task-1")
                (PStr "sub-1") 10 60 0 [1; 2] initial
                {[ "jobs" := PList [Samples.job "Done"; PStr "Done"] ]}
                eq_refl eq_refl) as [_ H].
  specialize (H eq_refl).
  change (dict_get {[ "jobs" := PList [Samples.job "Done"; PStr "Done"] ]} "jobs" (PList []))
    with (PList [Samples.job "Done"; PStr "Done"]) in H.
  apply H. reflexivity.
Defined.

(** ** api_client.py: the bounds of the loop *)

(** With [max_retries] zero or negative the loop body never runs: an accepted
    submission is followed by no status request at all and the run reports a
    time-out straight away. *)
Theorem no_attempts_times_out_at_once (svc : service) (self : client) (a : gen_args)
    (poll_interval max_retries : Z) (task_uuid subscription_key : pyval) (s : state) :
  handle_of svc self a = Some (task_uuid, subscription_key) ->
  max_retries <= 0 ->
  generate_3d_model svc self a poll_interval max_retries s
  = (Raise (Exception_ [Lit "Task processing timed out"]),
     after [Print [Lit "Submitting generation task..."];
            PostRodin (submitted_files svc a) (form_data a)] 0 s).
Proof.
  intros Hh Hmr. rewrite (generate_accepted _ _ _ _ _ _ _ _ Hh).
  replace (seqZ 0 max_retries) with (@nil Z); [reflexivity |].
  symmetry. unfold seqZ. replace (Z.to_nat max_retries) with 0%nat by lia. reflexivity.
Qed.

Lemma no_attempts_times_out_at_once_witness :
  (generate_3d_model Samples.done_at_second Samples.me defaults 10 (-1) initial).1
  = Raise (Exception_ [Lit "Task processing timed out"]).
Proof.
  rewrite (no_attempts_times_out_at_once Samples.done_at_second Samples.me defaults 10 (-1)
             (PStr "task-1") (PStr "sub-1") initial); [reflexivity | | lia].
  vm_compute. reflexivity.
Defined.

(** The poll of [Samples.failed_then_done], through [failed_poll_stops]. *)
Lemma failed_poll_stops_witness :
  for_returning (poll_once Samples.failed_then_done (PStr "task-1") (PStr "sub-1") 10 60)
    [0; 1; 2] initial
  = (Raise (Exception_ [Lit "Task failed: "; Str (PStr "Unknown error")]),
     after [checking 0 60; PostStatus (PStr "sub-1");
            current_status [PStr "Failed"; PStr "Done"]] 1 initial).
Proof.
  destruct (failed_poll_stops Samples.failed_then_done (PStr "task-1") (PStr "sub-1")
              10 60 0 [1; 2] initial [PStr "Failed"; PStr "Done"])
    as (_ & d & Hd & Hrun).
  - vm_compute. reflexivity.
  - reflexivity.
  - rewrite Hrun. vm_compute in Hd. injection Hd as <-. reflexivity.
Defined.

(** ** api_client.py: what every run keeps *)

Section Traces.

Variable svc : service.
Variables task_uuid subscription_key : pyval.
Variables poll_interval max_retries : Z.

Abbreviation turn := (poll_once svc task_uuid subscription_key poll_interval max_retries).
Abbreviation of_the_loop := (polling_event task_uuid subscription_key poll_interval).

Lemma Forall_progress selected : Forall of_the_loop (progress selected).
Proof. destruct selected; repeat constructor. Qed.

Lemma poll_once_trace attempt s :
  exists evs,
    (turn attempt s).2 = after evs 1 s
    /\ Forall of_the_loop evs
    /\ count is_poll evs = 1%nat
    /\ (count is_sleep evs <= 1)%nat
    /\ ending svc task_uuid (turn attempt s).1 evs 1.
Proof.
  destruct (statuses_of (post_status svc (status_calls s) subscription_key))
    as [status |] eqn:Hst.
  - rewrite (poll_once_scanned _ _ _ _ _ _ _ _ Hst).
    destruct (aggregate status) eqn:Hag.
    + rewrite dispatch_Done, after_after. eexists. split; [reflexivity |].
      split; [repeat constructor |]. split; [reflexivity |].
      split; [unfold count; simpl; lia |].
      destruct (post_download svc task_uuid) eqn:Hdl; simpl; [| exact I].
      split; [reflexivity |]. split; [exact Hdl |].
      exists [checking attempt max_retries; PostStatus subscription_key;
              current_status status; Print [Lit "Task completed successfully!"]].
      split; reflexivity.
    + rewrite dispatch_Failed. eexists. split; [reflexivity |].
      split; [repeat constructor |]. split; [reflexivity |].
      split; [unfold count; simpl; lia |].
      destruct (last _) as [[| | | | |] |]; exact I.
    + rewrite dispatch_pending_any, after_after by discriminate.
      destruct (poll_interval <? 0); rewrite ?after_after;
        (eexists; split; [reflexivity |]; split; [repeat constructor |];
         split; [reflexivity |]; split; [unfold count; simpl; lia |]);
        [exact I | split; reflexivity].
    + rewrite dispatch_pending_any, after_after by discriminate.
      destruct (poll_interval <? 0); rewrite ?after_after;
        (eexists; split; [reflexivity |]; split; [repeat constructor |];
         split; [reflexivity |]; split; [unfold count; simpl; lia |]);
        [exact I | split; reflexivity].
    + rewrite dispatch_pending_any, after_after by discriminate.
      destruct (poll_interval <? 0); rewrite ?after_after;
        (eexists; split; [reflexivity |]; split; [repeat constructor |];
         split; [reflexivity |]; split; [unfold count; simpl; lia |]);
        [exact I | split; reflexivity].
  - destruct (poll_once_unscanned svc task_uuid subscription_key poll_interval
                max_retries attempt s Hst) as (e & Hp & _).
    rewrite Hp. eexists. split; [reflexivity |].
    split; [repeat constructor |]. split; [reflexivity |].
    split; [unfold count; simpl; lia | exact I].
Qed.

Lemma loop_trace l : forall s,
  exists evs n,
    (for_returning turn l s).2 = after evs n s
    /\ (n <= length l)%nat
    /\ Forall of_the_loop evs
    /\ count is_poll evs = n
    /\ (count is_sleep evs <= n)%nat
    /\ ending svc task_uuid (for_returning turn l s).1 evs n
    /\ ((for_returning turn l s).1 = Ok None -> n = length l).
Proof.
  induction l as [| a l IH]; intros s.
  - exists [], 0%nat. rewrite after_nothing. simpl.
    split; [reflexivity |]. split; [lia |]. split; [constructor |].
    split; [reflexivity |]. split; [unfold count; simpl; lia |].
    split; [split; reflexivity | reflexivity].
  - destruct (poll_once_trace a s) as (evs1 & Hs1 & Hall1 & Hpoll1 & Hsleep1 & Hend1).
    rewrite for_returning_cons.
    destruct (turn a s) as [[[v |] | e] s1] eqn:Hp; simpl in Hs1, Hend1.
    + exists evs1, 1%nat. simpl.
      split; [exact Hs1 |]. split; [lia |]. split; [exact Hall1 |].
      split; [exact Hpoll1 |]. split; [exact Hsleep1 |].
      split; [exact Hend1 | discriminate].
    + subst s1. destruct Hend1 as [Hsl1 Hf1].
      destruct (IH (after evs1 1 s))
        as (evs2 & n2 & Hs2 & Hn2 & Hall2 & Hpoll2 & Hsleep2 & Hend2 & Hfull2).
      exists (evs1 ++ evs2), (n2 + 1)%nat.
      rewrite Hs2, after_after, !count_app, Hpoll1, Hpoll2, Hsl1.
      split; [reflexivity |]. split; [simpl; lia |].
      split; [apply Forall_app; split; assumption |].
      split; [lia |]. split; [lia |]. split.
      * destruct (for_returning turn l (after evs1 1 s)).1 as [[v |] | e]; simpl in *.
        -- destruct Hend2 as (Hv & Hdl & evs' & -> & Hf'). split; [exact Hv |].
           split; [exact Hdl |].
           exists (evs1 ++ evs'). rewrite app_assoc, count_app, Hf1, Hf'.
           split; reflexivity.
        -- destruct Hend2 as [Hsl2 Hf2]. rewrite !count_app, Hsl1, Hsl2, Hf1, Hf2.
           split; [lia | reflexivity].
        -- exact I.
      * intros Hnone. rewrite (Hfull2 Hnone). simpl. lia.
    + exists evs1, 1%nat. simpl.
      split; [exact Hs1 |]. split; [lia |]. split; [exact Hall1 |].
      split; [exact Hpoll1 |]. split; [exact Hsleep1 |].
      split; [exact I | discriminate].
Qed.

End Traces.

Lemma polling_event_client task_uuid subscription_key poll_interval evs :
  Forall (polling_event task_uuid subscription_key poll_interval) evs ->
  forallb client_event evs = true.
Proof.
  induction 1 as [| e evs He _ IH]; [reflexivity |].
  simpl. rewrite IH. destruct e; try contradiction; reflexivity.
Qed.

Lemma generate_bounded (svc : service) (self : client) (a : gen_args)
    (poll_interval max_retries : Z) (s : state) :
  let run := generate_3d_model svc self a poll_interval max_retries s in
  exists evs,
    log run.2 = log s ++ evs
    /\ disk run.2 = disk s
    /\ status_calls run.2 = (count is_poll evs + status_calls s)%nat
    /\ (count is_poll evs <= Z.to_nat max_retries)%nat
    /\ (count is_sleep evs <= count is_poll evs)%nat
    /\ forallb client_event evs = true.
Proof.
  intros run. subst run. rewrite generate_3d_model_eq. cbv zeta.
  assert (Hstop : forall (e : pyexc) evs,
            count is_poll evs = 0%nat -> count is_sleep evs = 0%nat ->
            forallb client_event evs = true ->
            exists evs0,
              log (Raise (A := pyval * gmap string pyval) e, after evs 0 s).2 = log s ++ evs0
              /\ disk (Raise (A := pyval * gmap string pyval) e, after evs 0 s).2 = disk s
              /\ status_calls (Raise (A := pyval * gmap string pyval) e, after evs 0 s).2
                 = (count is_poll evs0 + status_calls s)%nat
              /\ (count is_poll evs0 <= Z.to_nat max_retries)%nat
              /\ (count is_sleep evs0 <= count is_poll evs0)%nat
              /\ forallb client_event evs0 = true).
  { intros e evs Hp Hsl Hc. exists evs. simpl. rewrite Hp, Hsl.
    repeat (split; [reflexivity || lia |]). exact Hc. }
  destruct (has_key self); cbn [negb]; [| apply Hstop; reflexivity].
  destruct (request_files svc a) as [files | e0]; [| apply Hstop; reflexivity].
  destruct (post_rodin svc files (form_data a)) as [body | msg];
    [| apply Hstop; reflexivity].
  destruct (dict_in "error" body); [apply Hstop; reflexivity |].
  destruct (dict_get body "jobs" PNone) as [| | | | | jobs];
    try (apply Hstop; reflexivity).
  destruct (loop_trace svc (dict_get body "uuid" PNone)
              (dict_get jobs "subscription_key" PNone) poll_interval max_retries
              (seqZ 0 max_retries)
              (after [Print [Lit "Submitting generation task..."];
                      PostRodin files (form_data a)] 0 s))
    as (evs & n & Hs & Hn & Hall & Hpoll & Hsleep & _ & _).
  rewrite length_seqZ in Hn.
  exists ([Print [Lit "Submitting generation task..."]; PostRodin files (form_data a)]
          ++ evs).
  rewrite finish_state, Hs, after_after, !count_app, Hpoll.
  split; [reflexivity |]. split; [reflexivity |].
  split; [simpl; unfold count; simpl; lia |].
  split; [unfold count; simpl; lia |].
  split; [unfold count in *; simpl; lia |].
  rewrite forallb_app, (polling_event_client _ _ _ _ Hall). reflexivity.
Qed.

(** Whatever the service answers, a run of [generate_3d_model] sends at most
    [max_retries] status requests, sleeps at most once per request, leaves
    the files on the disk alone and logs nothing of the download step. *)
Theorem polling_is_bounded (svc : service) (self : client) (a : gen_args)
    (poll_interval max_retries : Z) (s : state) :
  let run := generate_3d_model svc self a poll_interval max_retries s in
  exists evs,
    log run.2 = log s ++ evs
    /\ disk run.2 = disk s
    /\ status_calls run.2 = (count is_poll evs + status_calls s)%nat
    /\ (count is_poll evs <= Z.to_nat max_retries)%nat
    /\ (count is_sleep evs <= count is_poll evs)%nat
    /\ forallb client_event evs = true.
Proof.
  intros run.
  destruct (generate_bounded svc self a poll_interval max_retries s)
    as (evs & Hlog & Hdisk & Hcalls & Hpolls & Hsleeps & Hclient).
  exists evs. split; [exact Hlog |]. split; [exact Hdisk |]. split; [exact Hcalls |].
  split; [exact Hpolls |]. split; [exact Hsleeps | exact Hclient].
Qed.

(** A run that returns went through an accepted submission; it returns the
    handle's task identifier with the response of the download endpoint for
    that identifier.  Its log is the submission, then polling events for the
    handle (every status request carries the handle's subscription key, every
    sleep is the interval), then the one download request, which comes last. *)
Theorem returned_run_shape (svc : service) (self : client) (a : gen_args)
    (poll_interval max_retries : Z) (s : state) (v : pyval * gmap string pyval) :
  (generate_3d_model svc self a poll_interval max_retries s).1 = Ok v ->
  exists task_uuid subscription_key evs,
    handle_of svc self a = Some (task_uuid, subscription_key)
    /\ v.1 = task_uuid
    /\ post_download svc task_uuid = Response v.2
    /\ log (generate_3d_model svc self a poll_interval max_retries s).2
       = log s ++ Print [Lit "Submitting generation task..."]
                 :: PostRodin (submitted_files svc a) (form_data a)
                 :: evs ++ [PostDownload task_uuid]
    /\ Forall (polling_event task_uuid subscription_key poll_interval) evs
    /\ count is_fetch_manifest evs = 0%nat.
Proof.
  rewrite generate_3d_model_eq. cbv zeta. unfold handle_of, submitted_files.
  destruct (has_key self); cbn [negb]; [| discriminate].
  destruct (request_files svc a) as [files | e0]; [| discriminate].
  destruct (post_rodin svc files (form_data a)) as [body | msg]; [| discriminate].
  destruct (dict_in "error" body); [discriminate |].
  destruct (dict_get body "jobs" PNone) as [| | | | | jobs]; try discriminate.
  intros Hv.
  destruct (loop_trace svc (dict_get body "uuid" PNone)
              (dict_get jobs "subscription_key" PNone) poll_interval max_retries
              (seqZ 0 max_retries)
              (after [Print [Lit "Submitting generation task..."];
                      PostRodin files (form_data a)] 0 s))
    as (evs & n & Hs & _ & Hall & _ & _ & Hend & _).
  rewrite finish_state, Hs.
  destruct (for_returning _ _ _) as [[[v' |] | e] s'] eqn:Hloop; simpl in Hv, Hend;
    try discriminate.
  injection Hv as ->. destruct Hend as (Hv1 & Hdl & evs' & -> & Hf).
  exists (dict_get body "uuid" PNone), (dict_get jobs "subscription_key" PNone), evs'.
  split; [reflexivity |]. split; [exact Hv1 |]. split; [exact Hdl |].
  split; [simpl; rewrite <- app_assoc; reflexivity |].
  split; [apply Forall_app in Hall as [Hall _]; exact Hall | exact Hf].
Qed.

Lemma returned_run_shape_witness :
  exists evs,
    log (generate_3d_model Samples.done_at_second Samples.me defaults 10 60 initial).2
    = Print [Lit "Submitting generation task..."]
      :: PostRodin [] (form_data defaults)
      :: evs ++ [PostDownload (PStr "task-1")]
    /\ Forall (polling_event (PStr "task-1") (PStr "sub-1") 10) evs.
Proof.
  destruct (returned_run_shape Samples.done_at_second Samples.me defaults 10 60 initial
              (PStr "task-1", Samples.manifest))
    as (u & k & evs & Hh & Hu & _ & Hlog & Hall & _).
  - vm_compute. reflexivity.
  - vm_compute in Hh. injection Hh as <- <-. exists evs. split; [exact Hlog | exact Hall].
Defined.

Lemma generate_not_accepted (svc : service) (self : client) (a : gen_args)
    (poll_interval max_retries : Z) (s : state) :
  handle_of svc self a = None ->
  exists e evs,
    generate_3d_model svc self a poll_interval max_retries s = (Raise e, after evs 0 s)
    /\ count is_poll evs = 0%nat
    /\ count is_fetch_manifest evs = 0%nat
    /\ count is_sleep evs = 0%nat
    /\ forallb client_event evs = true.
Proof.
  intros Hh. rewrite generate_3d_model_eq. cbv zeta. unfold handle_of in Hh.
  destruct (has_key self); cbn [negb];
    [| eexists _, _; repeat (split; [reflexivity |]); reflexivity].
  destruct (request_files svc a) as [files | e0];
    [| eexists _, _; repeat (split; [reflexivity |]); reflexivity].
  destruct (post_rodin svc files (form_data a)) as [body | msg];
    [| eexists _, _; repeat (split; [reflexivity |]); reflexivity].
  destruct (dict_in "error" body);
    [eexists _, _; repeat (split; [reflexivity |]); reflexivity |].
  destruct (dict_get body "jobs" PNone) as [| | | | | jobs]; try discriminate;
    eexists _, _; repeat (split; [reflexivity |]); reflexivity.
Qed.

(** Without an accepted submission the status and download endpoints are
    never contacted: when the key is missing, an image cannot be read, the
    request fails, the response has an [error] field or its [jobs] is not an
    object, the run raises and has sent no status or download request and
    has not slept. *)
Theorem no_handle_no_polling (svc : service) (self : client) (a : gen_args)
    (poll_interval max_retries : Z) (s : state) :
  handle_of svc self a = None ->
  let run := generate_3d_model svc self a poll_interval max_retries s in
  exists e evs,
    run.1 = Raise e
    /\ log run.2 = log s ++ evs
    /\ count is_poll evs = 0%nat
    /\ count is_fetch_manifest evs = 0%nat
    /\ count is_sleep evs = 0%nat.
Proof.
  intros Hh run.
  destruct (generate_not_accepted svc self a poll_interval max_retries s Hh)
    as (e & evs & Hrun & Hp & Hf & Hsl & _).
  exists e, evs. subst run. rewrite Hrun.
  split; [reflexivity |]. split; [reflexivity |].
  split; [exact Hp |]. split; [exact Hf | exact Hsl].
Qed.

Lemma no_handle_no_polling_witness :
  exists e evs,
    (generate_3d_model Samples.refused Samples.me defaults 10 60 initial).1 = Raise e
    /\ log (generate_3d_model Samples.refused Samples.me defaults 10 60 initial).2 = evs
    /\ count is_poll evs = 0%nat.
Proof.
  destruct (no_handle_no_polling Samples.refused Samples.me defaults 10 60 initial)
    as (e & evs & He & Hlog & Hp & _).
  - vm_compute. reflexivity.
  - exists e, evs. split; [exact He |]. split; [exact Hlog | exact Hp].
Defined.

(** ** generate_3d_model.py: what [download_model] leaves behind *)

Section DownloadModel.

Variable st : store.
Variable output_dir : string.

Lemma append_assoc (a b c : string) : (a +:+ b) +:+ c = a +:+ (b +:+ c).
Proof.
  induction a as [| x a IH]; [reflexivity |].
  change (String x ((a +:+ b) +:+ c) = String x (a +:+ (b +:+ c))). congruence.
Qed.

Lemma append_empty_r (a : string) : a +:+ EmptyString = a.
Proof.
  induction a as [| x a IH]; [reflexivity |].
  change (String x (a +:+ EmptyString) = String x a). congruence.
Qed.

Lemma write_chunks_content path chunks : forall s c0,
  disk s !! path = Some c0 ->
  exists writes,
    for_each (fun chunk =>
                if negb (String.eqb chunk EmptyString) then write_chunk path chunk
                else ret tt) chunks s
    = (Ok tt, with_disk (<[path := c0 +:+ content_of chunks]> (disk s))
                (after writes 0 s))
    /\ forallb is_write writes = true.
Proof.
  induction chunks as [| c chunks IH]; intros s c0 Hc0.
  - exists []. split; [| reflexivity]. simpl. rewrite append_empty_r, insert_id by exact Hc0.
    rewrite after_nothing. destruct s; reflexivity.
  - rewrite for_each_cons. destruct (String.eqb c EmptyString) eqn:Ec; cbn [negb].
    + apply String.eqb_eq in Ec. subst c. exact (IH s c0 Hc0).
    + unfold write_chunk at 1.
      set (s1 := {| log := log s ++ [Write path c]; status_calls := status_calls s;
                    disk := <[path := default EmptyString (disk s !! path) +:+ c]> (disk s) |}).
      destruct (IH s1 (c0 +:+ c)) as (writes & Hrun & Hw).
      { subst s1. simpl. rewrite Hc0. apply lookup_insert_eq. }
      exists (Write path c :: writes). rewrite Hrun. split; [| exact Hw].
      subst s1. unfold with_disk, after. simpl. rewrite Hc0. simpl.
      rewrite insert_insert_eq, append_assoc, <- app_assoc. reflexivity.
Qed.

Lemma download_model_settled model_url filename f s :
  makedirs st output_dir = None ->
  filename_of model_url filename = Some (PStr f) ->
  download_model st model_url output_dir filename s
  = try_except
      (fetch_and_write st model_url (path_join output_dir f))
      (fun _ => true)
      (fun e => print (Lit "Failed to download " :: Str (PStr f) :: Lit ": "
                         :: exc_message e))
      (after [Makedirs output_dir] 0 s).
Proof.
  intros Hmk Hf. unfold download_model. rewrite bind_emit, Hmk.
  unfold filename_of in Hf.
  destruct (truthy filename); cbn [negb].
  - injection Hf as ->. rewrite !bind_ret. reflexivity.
  - destruct model_url as [| | | u | |]; try discriminate.
    injection Hf as <-. rewrite !bind_ret. reflexivity.
Qed.

(** Once the file is open, everything the stream delivers is on the disk: the
    file holds the chunks in order, whatever was there before is gone, and no
    other file is touched.  This is so even when the stream breaks off; the
    partial file is then left in place and the failure is printed instead of
    "Downloaded". *)
Theorem download_writes_what_arrives (model_url filename : pyval) (f : string)
    (chunks : list string) (broken : option string) (s : state) :
  makedirs st output_dir = None ->
  filename_of model_url filename = Some (PStr f) ->
  get st model_url = Body chunks broken ->
  open_wb st (path_join output_dir f) = None ->
  let path := path_join output_dir f in
  exists writes,
    forallb is_write writes = true
    /\ download_model st model_url output_dir filename s
       = (Ok tt,
          with_disk (<[path := content_of chunks]> (disk s))
            (after ([Makedirs output_dir; Get model_url; OpenWb path] ++ writes
                    ++ [Print match broken with
                              | None => [Lit "Downloaded: "; Lit path]
                              | Some e => [Lit "Failed to download "; Str (PStr f);
                                           Lit ": "; Lit e]
                              end]) 0 s)).
Proof.
  intros Hmk Hf Hget Hopen path. subst path.
  rewrite (download_model_settled _ _ _ _ Hmk Hf).
  unfold try_except, fetch_and_write. rewrite bind_emit, after_after, Hget, Hopen.
  rewrite bind_eq. unfold create_file at 1. rewrite bind_eq.
  match goal with
  | |- context [for_each _ chunks ?s0] =>
      destruct (write_chunks_content (path_join output_dir f) chunks s0 EmptyString)
        as (writes & Hrun & Hw)
  end.
  { simpl. apply lookup_insert_eq. }
  exists writes. split; [exact Hw |]. rewrite Hrun.
  destruct broken as [e |]; unfold with_disk, after, print, emit; simpl;
    rewrite insert_insert_eq, <- !app_assoc; reflexivity.
Qed.

(** When the request fails, or the local file cannot be opened, nothing is
    written: [download_model] prints "Failed to download <name>: <error>"
    and returns normally, with the disk as it was. *)
Theorem download_failure_writes_nothing (model_url filename : pyval) (f e : string)
    (s : state) :
  makedirs st output_dir = None ->
  filename_of model_url filename = Some (PStr f) ->
  get st model_url = Unreachable e
  \/ ((exists chunks broken, get st model_url = Body chunks broken)
      /\ open_wb st (path_join output_dir f) = Some e) ->
  download_model st model_url output_dir filename s
  = (Ok tt,
     after [Makedirs output_dir; Get model_url;
            Print [Lit "Failed to download "; Str (PStr f); Lit ": "; Lit e]] 0 s).
Proof.
  intros Hmk Hf Hfail.
  rewrite (download_model_settled _ _ _ _ Hmk Hf).
  unfold try_except, fetch_and_write. rewrite bind_emit, after_after.
  destruct Hfail as [Hget | [(chunks & broken & Hget) Hopen]]; rewrite Hget.
  - unfold raise, print. rewrite emit_after, after_after. reflexivity.
  - rewrite Hopen. unfold raise, print. rewrite emit_after, after_after. reflexivity.
Qed.

(** What is raised before the [try] is not caught.  A directory that cannot
    be created raises [OSError]; an entry with no usable name and a URL that
    is not a string raises [AttributeError]; a truthy name that is not a
    string raises [TypeError].  In each case nothing has been requested. *)
Theorem download_model_raises_before_the_request (model_url filename : pyval)
    (s : state) :
  (forall e, makedirs st output_dir = Some e ->
     download_model st model_url output_dir filename s
     = (Raise (OSError [Lit e]), after [Makedirs output_dir] 0 s))
  /\ (makedirs st output_dir = None ->
      filename_of model_url filename = None ->
      download_model st model_url output_dir filename s
      = (Raise AttributeError, after [Makedirs output_dir] 0 s))
  /\ (makedirs st output_dir = None ->
      (forall v, filename_of model_url filename = Some v ->
                 (forall f, v <> PStr f) ->
                 download_model st model_url output_dir filename s
                 = (Raise TypeError, after [Makedirs output_dir] 0 s))).
Proof.
  split; [| split].
  - intros e Hmk. unfold download_model. rewrite bind_emit, Hmk. reflexivity.
  - intros Hmk Hf. unfold download_model, filename_of in *. rewrite bind_emit, Hmk.
    destruct (truthy filename); cbn [negb]; [discriminate |].
    destruct model_url as [| | | u | |]; try discriminate; reflexivity.
  - intros Hmk v Hf Hv. unfold download_model, filename_of in *. rewrite bind_emit, Hmk.
    destruct (truthy filename); cbn [negb].
    + injection Hf as ->. rewrite bind_ret.
      destruct v as [| | | f | |]; try reflexivity. exfalso. exact (Hv f eq_refl).
    + destruct model_url as [| | | u | |]; try discriminate.
      injection Hf as <-. exfalso. exact (Hv _ eq_refl).
Qed.

End DownloadModel.

Lemma download_writes_what_arrives_witness :
  disk (download_model Samples.cdn (PStr "https://cdn/a.glb?sig=1") "out/task-1" PNone
          initial).2
  = {[ "out/task-1/a.glb" := "glTF" ]}
  /\ disk (download_model Cases.flaky (PStr "https://cdn/c.obj") "out/" (PStr "c.obj")
             (with_disk {[ "out/c.obj" := "older bytes" ]} initial)).2
     = {[ "out/c.obj" := "partial" ]}.
Proof.
  split.
  - destruct (download_writes_what_arrives Samples.cdn "out/task-1"
                (PStr "https://cdn/a.glb?sig=1") PNone "a.glb" ["gl"; EmptyString; "TF"]
                None initial eq_refl eq_refl eq_refl eq_refl) as (writes & _ & Hrun).
    rewrite Hrun. vm_compute. reflexivity.
  - destruct (download_writes_what_arrives Cases.flaky "out/"
                (PStr "https://cdn/c.obj") (PStr "c.obj") "c.obj" ["par"; "tial"]
                (Some "Connection broken: IncompleteRead")
                (with_disk {[ "out/c.obj" := "older bytes" ]} initial)
                eq_refl eq_refl eq_refl eq_refl) as (writes & _ & Hrun).
    rewrite Hrun. vm_compute. reflexivity.
Defined.

Lemma download_failure_writes_nothing_witness :
  download_model Samples.cdn (PStr "https://cdn/gone.fbx") "out/task-1" (PStr "gone.fbx")
    initial
  = (Ok tt,
     after [Makedirs "out/task-1"; Get (PStr "https://cdn/gone.fbx");
            Print [Lit "Failed to download "; Str (PStr "gone.fbx"); Lit ": ";
                   Lit "404 Client Error: Not Found"]] 0 initial).
Proof.
  apply (download_failure_writes_nothing Samples.cdn "out/task-1"
           (PStr "https://cdn/gone.fbx") (PStr "gone.fbx") "gone.fbx"
           "404 Client Error: Not Found" initial); [reflexivity | reflexivity |].
  left. reflexivity.
Defined.

Lemma download_model_raises_before_the_request_witness :
  download_model Samples.read_only (PStr "https://cdn/b.png") "out/task-1" PNone initial
  = (Raise (OSError [Lit "[Errno 13] Permission denied"]),
     after [Makedirs "out/task-1"] 0 initial)
  /\ download_model Samples.cdn PNone "out/task-1" (PStr EmptyString) initial
     = (Raise AttributeError, after [Makedirs "out/task-1"] 0 initial)
  /\ download_model Samples.cdn (PStr "https://cdn/b.png") "out/task-1" (PInt 7) initial
     = (Raise TypeError, after [Makedirs "out/task-1"] 0 initial).
Proof.
  split; [| split].
  - apply (proj1 (download_model_raises_before_the_request Samples.read_only
                    "out/task-1" (PStr "https://cdn/b.png") PNone initial)).
    reflexivity.
  - apply (proj1 (proj2 (download_model_raises_before_the_request Samples.cdn
                           "out/task-1" PNone (PStr EmptyString) initial)));
      reflexivity.
  - apply (proj2 (proj2 (download_model_raises_before_the_request Samples.cdn
                           "out/task-1" (PStr "https://cdn/b.png") (PInt 7) initial))
             eq_refl (PInt 7) eq_refl).
    intros f. discriminate.
Defined.

(** ** generate_3d_model.py: [main] *)

Section Credentials.

Variable strip : string -> string.

Lemma init_nonempty k environ_key :
  nonempty_str (Some k) = Some k -> init (Some k) environ_key = {| api_key := Some k |}.
Proof.
  unfold nonempty_str, init. destruct (String.eqb k EmptyString); [discriminate | reflexivity].
Qed.

Lemma nonempty_str_Some o k : nonempty_str o = Some k -> o = Some k.
Proof.
  unfold nonempty_str. destruct o as [x |]; [| discriminate].
  destruct (String.eqb x EmptyString); [discriminate | congruence].
Qed.

Lemma enter_key_typed environ_key line rest k :
  strip line = k -> k <> EmptyString ->
  enter_key strip environ_key (line :: rest)
  = ([Print [Lit "Please enter your Hyper3D API key:"]; Print [Lit "Using provided API key"]],
     Resolved {| api_key := Some k |}).
Proof.
  intros Hk Hne. unfold enter_key. rewrite Hk.
  destruct (String.eqb k EmptyString) eqn:E; [apply String.eqb_eq in E; contradiction |].
  cbn [negb]. rewrite init_nonempty; [reflexivity |].
  unfold nonempty_str. rewrite E. reflexivity.
Qed.

(** Which key the client gets.  A non-empty [--api-key] is used as it is and
    nothing is read from the console, whatever the environment holds.
    Without it, a key found in the environment is used when the answer to
    the question, stripped and lower-cased, is "y"; after any other answer,
    and when the environment has no key, the next line typed is the key,
    stripped, if that leaves anything. *)
Theorem credential_precedence (api_key environ_key : option string) :
  (forall k stdin,
     nonempty_str api_key = Some k ->
     resolve_client strip api_key environ_key stdin
     = ([Print [Lit "Using API key from command line argument"]],
        Resolved {| api_key := Some k |}))
  /\ (forall e answer rest,
        nonempty_str api_key = None -> nonempty_str environ_key = Some e ->
        lower (strip answer) = "y" ->
        (resolve_client strip api_key environ_key (answer :: rest)).2
        = Resolved {| api_key := Some e |})
  /\ (forall e answer typed rest k,
        nonempty_str api_key = None -> nonempty_str environ_key = Some e ->
        lower (strip answer) <> "y" ->
        strip typed = k -> k <> EmptyString ->
        (resolve_client strip api_key environ_key (answer :: typed :: rest)).2
        = Resolved {| api_key := Some k |})
  /\ (forall typed rest k,
        nonempty_str api_key = None -> nonempty_str environ_key = None ->
        strip typed = k -> k <> EmptyString ->
        (resolve_client strip api_key environ_key (typed :: rest)).2
        = Resolved {| api_key := Some k |}).
Proof.
  split; [| split; [| split]].
  - intros k stdin Hk. unfold resolve_client. rewrite Hk.
    apply nonempty_str_Some in Hk as Hkey. subst api_key.
    rewrite init_nonempty; [reflexivity |].
    unfold nonempty_str in *. destruct (String.eqb k EmptyString); congruence.
  - intros e answer rest Hk He Hy. unfold resolve_client. rewrite Hk, He. cbv zeta.
    rewrite Hy. simpl. apply nonempty_str_Some in He as ->. reflexivity.
  - intros e answer typed rest k Hk He Hn Htyped Hne. unfold resolve_client.
    rewrite Hk, He. cbv zeta.
    destruct (String.eqb (lower (strip answer)) "y") eqn:E;
      [apply String.eqb_eq in E; contradiction |].
    rewrite (enter_key_typed _ _ _ _ Htyped Hne). reflexivity.
  - intros typed rest k Hk He Htyped Hne. unfold resolve_client. rewrite Hk, He.
    rewrite (enter_key_typed _ _ _ _ Htyped Hne). reflexivity.
Qed.

End Credentials.

Lemma credential_precedence_witness :
  resolve_client Cases.strip (Some "sk-flag") (Some "sk-environment") []
  = ([Print [Lit "Using API key from command line argument"]],
     Resolved {| api_key := Some "sk-flag" |})
  /\ (resolve_client Cases.strip None (Some "sk-environment") [" Y "]).2
     = Resolved {| api_key := Some "sk-environment" |}
  /\ (resolve_client Cases.strip None (Some "sk-environment") ["no"; " sk-typed "]).2
     = Resolved {| api_key := Some "sk-typed" |}.
Proof.
  split; [| split].
  - apply (proj1 (credential_precedence Cases.strip (Some "sk-flag")
                    (Some "sk-environment"))). reflexivity.
  - apply (proj1 (proj2 (credential_precedence Cases.strip None (Some "sk-environment")))
             "sk-environment"); reflexivity.
  - apply (proj1 (proj2 (proj2 (credential_precedence Cases.strip None
                                  (Some "sk-environment"))))
             "sk-environment" "no" " sk-typed " [] "sk-typed");
      try reflexivity; discriminate.
Defined.

Section MainRuns.

Variable strip : string -> string.
Variable w : world.
Variable args : arguments.

Abbreviation validating fs :=
  (fun image_path : string => (_ <- lift (validate_image fs image_path) ;; ret tt)).

Lemma validate_all_pass fs l s :
  Forall (fun p => validate_image fs p = Ok true) l ->
  for_each (validating fs) l s = (Ok tt, s).
Proof.
  induction 1 as [| p l Hp _ IH]; [reflexivity |].
  rewrite for_each_cons, bind_lift, Hp. exact IH.
Qed.

Lemma validate_first_failure fs l s :
  Exists (fun p => validate_image fs p <> Ok true) l ->
  exists q m,
    q ∈ l
    /\ validate_image fs q = Raise (Exception_ m)
    /\ for_each (validating fs) l s = (Raise (Exception_ m), s).
Proof.
  induction l as [| p l IH]; intros H; [inversion H |].
  rewrite for_each_cons, bind_lift.
  destruct (validate_image_cases fs p) as [Hp | [m Hp]]; rewrite Hp.
  - apply Exists_cons in H as [H | H]; [congruence |].
    destruct (IH H) as (q & m & Hq & Hm & Hrun).
    exists q, m. split; [apply elem_of_cons; right; exact Hq |]. split; assumption.
  - exists p, m. split; [apply elem_of_cons; left; reflexivity |]. split; [exact Hp | reflexivity].
Qed.

Lemma resolve_client_prints api_key environ_key stdin :
  forallb is_print (resolve_client strip api_key environ_key stdin).1 = true.
Proof.
  unfold resolve_client, enter_key.
  destruct (nonempty_str api_key); [reflexivity |].
  destruct (nonempty_str environ_key).
  - destruct stdin as [| answer [| typed rest]]; cbv zeta; try reflexivity;
      destruct (String.eqb (lower (strip answer)) "y"); try reflexivity;
      destruct (String.eqb (strip typed) EmptyString); reflexivity.
  - destruct stdin as [| typed rest]; [reflexivity |].
    destruct (String.eqb (strip typed) EmptyString); reflexivity.
Qed.

Lemma prints_count f evs :
  (forall m, f (Print m) = false) -> forallb is_print evs = true ->
  count f evs = 0%nat.
Proof.
  intros Hf. unfold count. induction evs as [| x evs IH]; [reflexivity |].
  simpl. intros H. apply andb_true_iff in H as [Hx H].
  destruct x; try discriminate. simpl. rewrite Hf. exact (IH H).
Qed.

Lemma prints_client evs :
  forallb is_print evs = true -> forallb client_event evs = true.
Proof.
  induction evs as [| x evs IH]; [reflexivity |].
  simpl. intros H. apply andb_true_iff in H as [Hx H].
  destruct x; try discriminate. simpl. exact (IH H).
Qed.

Lemma main_resolved evs self stdin s :
  resolve_client strip (arg_api_key args) (environ_key w) stdin = (evs, Resolved self) ->
  main strip w args stdin s
  = match pipeline w args self (after evs 0 s) with
    | (Ok _, s') => (0, s')
    | (Raise e, s') => exit_with_error (exc_message e) s'
    end.
Proof. intros H. unfold main. rewrite H. reflexivity. Qed.

(** Without a key [main] ends with status 1 before anything else happens.
    With no [--api-key], that is the case when the line typed for the key is
    blank (be it after a declined environment key or with none in the
    environment), and when the console has no line to give. *)
Theorem main_without_key_exits_1 (stdin : list string) (s : state) :
  nonempty_str (arg_api_key args) = None ->
  (forall typed rest,
     nonempty_str (environ_key w) = None ->
     stdin = typed :: rest -> strip typed = EmptyString ->
     main strip w args stdin s
     = exit_with_error (exc_message key_required)
         (after [Print [Lit "No Hyper3D API key found in environment variable."];
                 Print [Lit "Please enter your Hyper3D API key:"]] 0 s))
  /\ (forall e answer typed rest,
        nonempty_str (environ_key w) = Some e ->
        stdin = answer :: typed :: rest ->
        lower (strip answer) <> "y" -> strip typed = EmptyString ->
        exists found,
          main strip w args stdin s
          = exit_with_error (exc_message key_required)
              (after [Print found;
                      Print [Lit "Do you want to use this API key? (y/n): "];
                      Print [Lit "Please enter your Hyper3D API key:"]] 0 s))
  /\ (stdin = [] ->
      exists evs,
        main strip w args stdin s
        = exit_with_error [Lit "EOF when reading a line"] (after evs 0 s)
        /\ forallb is_print evs = true).
Proof.
  intros Hflag. split; [| split].
  - intros typed rest Henv -> Htyped. unfold main, resolve_client, enter_key.
    rewrite Hflag, Henv, Htyped. reflexivity.
  - intros e answer typed rest Henv -> Hanswer Htyped.
    unfold main, resolve_client, enter_key. rewrite Hflag, Henv. cbv zeta.
    destruct (String.eqb (lower (strip answer)) "y") eqn:E;
      [apply String.eqb_eq in E; contradiction |].
    rewrite Htyped. eexists. reflexivity.
  - intros ->. unfold main, resolve_client, enter_key. rewrite Hflag.
    destruct (nonempty_str (environ_key w)); eexists; split; reflexivity.
Qed.

(** The images are validated before anything is sent.  If one of the paths
    given with [--image] does not pass [validate_image], [main] prints the
    error of the first such path and ends with status 1, and its log holds
    nothing after "Validating images...": no request was made. *)
Theorem invalid_image_stops_main (evs : list event) (self : client)
    (stdin paths : list string) (s : state) :
  resolve_client strip (arg_api_key args) (environ_key w) stdin = (evs, Resolved self) ->
  arg_image args = Some paths ->
  Exists (fun p => validate_image (local_files w) p <> Ok true) paths ->
  exists q m,
    q ∈ paths
    /\ validate_image (local_files w) q = Raise (Exception_ m)
    /\ main strip w args stdin s
       = exit_with_error m (after (evs ++ [Print [Lit "Validating images..."]]) 0 s).
Proof.
  intros Hres Himg Hbad. rewrite (main_resolved _ _ _ _ Hres).
  unfold pipeline, validate_images. rewrite Himg.
  destruct paths as [| p l]; [inversion Hbad |].
  destruct (validate_first_failure (local_files w) (p :: l)
              (after [Print [Lit "Validating images..."]] 0 (after evs 0 s)) Hbad)
    as (q & m & Hq & Hm & Hrun).
  exists q, m. split; [exact Hq |]. split; [exact Hm |].
  rewrite bind_eq, bind_print, bind_eq, Hrun. unfold exit_with_error.
  rewrite !after_after, <- app_assoc. reflexivity.
Qed.

Lemma validate_images_pass s :
  (forall paths, arg_image args = Some paths ->
                 Forall (fun p => validate_image (local_files w) p = Ok true) paths) ->
  exists evs,
    validate_images (local_files w) (arg_image args) s
    = (Ok (input_images_of args), after evs 0 s)
    /\ forallb is_print evs = true.
Proof.
  intros Hok. unfold validate_images, input_images_of.
  destruct (arg_image args) as [[| p l] |] eqn:Himg;
    try (exists []; rewrite after_nothing; split; reflexivity).
  rewrite bind_print, bind_eq, (validate_all_pass _ _ _ (Hok _ eq_refl)), bind_print,
    after_after.
  eexists. split; reflexivity.
Qed.

(** When the submission is not accepted (an image cannot be read, the request
    fails in transport, the response has an [error] field or its [jobs] is
    not an object), [main] ends with status 1.  It has then asked for no
    status and no download list, and has touched neither the asset store nor
    the disk. *)
Theorem unaccepted_submission_exits_1 (evs : list event) (self : client)
    (stdin : list string) (s : state) :
  resolve_client strip (arg_api_key args) (environ_key w) stdin = (evs, Resolved self) ->
  (forall paths, arg_image args = Some paths ->
                 Forall (fun p => validate_image (local_files w) p = Ok true) paths) ->
  handle_of (remote w) self (kwargs args (input_images_of args)) = None ->
  exists e logged,
    main strip w args stdin s = exit_with_error (exc_message e) (after logged 0 s)
    /\ count is_poll logged = 0%nat
    /\ count is_fetch_manifest logged = 0%nat
    /\ forallb client_event logged = true.
Proof.
  intros Hres Hok Hh. rewrite (main_resolved _ _ _ _ Hres). unfold pipeline.
  destruct (validate_images_pass (after evs 0 s) Hok) as (vs & Hv & Hvs).
  rewrite bind_eq, Hv, !bind_print, !after_after, bind_eq.
  match goal with
  | |- context [generate_3d_model ?svc ?c ?a ?pi ?mr ?s0] =>
      destruct (generate_not_accepted svc c a pi mr s0 Hh)
        as (e & gs & Hrun & Hp & Hf & _ & Hc)
  end.
  rewrite Hrun, after_after.
  exists e. eexists. split; [reflexivity |].
  assert (Hevs : forallb is_print evs = true).
  { pose proof (resolve_client_prints (arg_api_key args) (environ_key w) stdin) as H.
    rewrite Hres in H. exact H. }
  rewrite !count_app, !forallb_app, Hp, Hf, Hc.
  rewrite !(prints_count is_poll), !(prints_count is_fetch_manifest)
    by (reflexivity || assumption).
  rewrite (prints_client _ Hevs), (prints_client _ Hvs).
  split; [reflexivity |]. split; reflexivity.
Qed.

End MainRuns.

Lemma main_without_key_exits_1_witness :
  nonempty_str (arg_api_key Cases.from_prompt) = None
  /\ exists found,
       main Cases.strip (Cases.a_world Samples.refused) Cases.from_prompt ["n"; "  "] initial
       = exit_with_error (exc_message key_required)
           (after [Print found;
                   Print [Lit "Do you want to use this API key? (y/n): "];
                   Print [Lit "Please enter your Hyper3D API key:"]] 0 initial).
Proof.
  split; [reflexivity |].
  apply (proj1 (proj2 (main_without_key_exits_1 Cases.strip (Cases.a_world Samples.refused)
                         Cases.from_prompt ["n"; "  "] initial eq_refl))
           "sk-environment" "n" "  " []); try reflexivity.
  intros H. vm_compute in H. discriminate.
Defined.

Lemma invalid_image_stops_main_witness :
  Exists (fun p => validate_image Samples.some_files p <> Ok true)
         ["in/photo.JPG"; "in/thumb.jpeg"]
  /\ exists q m,
       q ∈ ["in/photo.JPG"; "in/thumb.jpeg"]
       /\ validate_image Samples.some_files q = Raise (Exception_ m)
       /\ main Cases.strip (Cases.a_world Samples.busy) Cases.from_images [] initial
          = exit_with_error m
              (after ([Print [Lit "Using API key from command line argument"]]
                      ++ [Print [Lit "Validating images..."]]) 0 initial).
Proof.
  assert (Hbad : Exists (fun p => validate_image Samples.some_files p <> Ok true)
                        ["in/photo.JPG"; "in/thumb.jpeg"]).
  { apply Exists_cons_tl, Exists_cons_hd. intros H. vm_compute in H. discriminate. }
  split; [exact Hbad |].
  apply (invalid_image_stops_main Cases.strip (Cases.a_world Samples.busy) Cases.from_images
           [Print [Lit "Using API key from command line argument"]]
           {| api_key := Some "sk-flag" |} [] ["in/photo.JPG"; "in/thumb.jpeg"] initial);
    [reflexivity | reflexivity | exact Hbad].
Defined.

Lemma unaccepted_submission_exits_1_witness :
  handle_of (Cases.with_images Samples.refused) {| api_key := Some "sk-typed" |}
            (kwargs Cases.from_front (input_images_of Cases.from_front)) = None
  /\ exists e logged,
       main Cases.strip (Cases.front_world Samples.refused) Cases.from_front
            [" sk-typed "] initial
       = exit_with_error (exc_message e) (after logged 0 initial)
       /\ count is_poll logged = 0%nat
       /\ count is_fetch_manifest logged = 0%nat
       /\ forallb client_event logged = true.
Proof.
  split; [reflexivity |].
  apply (unaccepted_submission_exits_1 Cases.strip (Cases.front_world Samples.refused)
           Cases.from_front
           [Print [Lit "No Hyper3D API key found in environment variable."];
            Print [Lit "Please enter your Hyper3D API key:"];
            Print [Lit "Using provided API key"]]
           {| api_key := Some "sk-typed" |} [" sk-typed "] initial).
  - reflexivity.
  - intros paths [= <-]. repeat constructor.
  - reflexivity.
Defined.

Section ShowResult.

Variable st : store.

Abbreviation listing :=
  (fun numbered : Z * pyval =>
     (name <- lift (py_get numbered.2 "name" (PStr "Unknown")) ;;
      print [Str (PInt numbered.1); Lit ". "; Str name])).

(** The numbered list only prints; it gets through when every entry is an
    object. *)
Lemma listing_prints (l : list (Z * pyval)) : forall s,
  exists r evs,
    for_each listing l s = (r, after evs 0 s)
    /\ forallb is_listing evs = true
    /\ (Forall (fun numbered => exists d, numbered.2 = PDict d) l -> r = Ok tt).
Proof.
  induction l as [| [i x] l IH]; intros s.
  - exists (Ok tt), []. rewrite after_nothing. repeat split; reflexivity.
  - rewrite for_each_cons, bind_lift. cbn [fst snd].
    destruct x as [| | | | | d]; cbn [py_get];
      try (exists (Raise AttributeError), []; rewrite after_nothing;
           split; [reflexivity |]; split; [reflexivity |];
           intros H; apply Forall_cons in H as [[d Hd] _]; discriminate).
    change (print ?m s) with (emit (Print m) s). rewrite emit_after.
    destruct (IH (after [Print [Str (PInt i); Lit ". ";
                                Str (dict_get d "name" (PStr "Unknown"))]] 0 s))
      as (r & evs & Hrun & Hevs & Hok).
    rewrite Hrun, after_after. eexists r, _. split; [reflexivity |].
    split; [simpl; exact Hevs |].
    intros H. apply Forall_cons in H as [_ H]. exact (Hok H).
Qed.

Lemma listing_is_print evs : forallb is_listing evs = true -> forallb is_print evs = true.
Proof.
  induction evs as [| x evs IH]; [reflexivity |].
  simpl. intros H. apply andb_true_iff in H as [Hx H].
  destruct x; try discriminate. simpl. exact (IH H).
Qed.

Lemma enumerate_objects (entries : list pyval) :
  Forall (fun x => exists d, x = PDict d) entries ->
  Forall (fun numbered : Z * pyval => exists d, numbered.2 = PDict d)
         (enumerate_from_1 entries).
Proof.
  unfold enumerate_from_1. generalize (seqZ 1 (Z.of_nat (length entries))).
  intros ns H. revert ns.
  induction H as [| x entries Hx _ IH]; intros [| n ns]; try constructor;
    [exact Hx | apply IH].
Qed.

(** Nothing is downloaded when the download response carries an [error]
    field, in which case it is printed and [main] goes on to end normally, or
    when no [--output] directory is given: whatever the response looks like,
    the step then only prints and leaves the disk alone. *)
Theorem nothing_downloaded_without_output_or_on_error (output : option string)
    (task_uuid : pyval) (result : gmap string pyval) (s : state) :
  dict_in "error" result = true \/ nonempty_str output = None ->
  exists r evs,
    show_result st output task_uuid result s = (r, after evs 0 s)
    /\ forallb is_print evs = true
    /\ (dict_in "error" result = true -> r = Ok tt).
Proof.
  intros Hwhy. unfold show_result.
  destruct (dict_in "error" result) eqn:Herr.
  { rewrite bind_print. unfold print. rewrite emit_after, after_after.
    eexists _, _. split; [reflexivity |]. split; reflexivity. }
  destruct Hwhy as [[=] | Hout]. rewrite bind_print. cbv zeta.
  destruct (truthy (dict_get result "list" (PList []))).
  2:{ unfold print. rewrite emit_after, after_after.
      eexists _, _. split; [reflexivity |]. split; [reflexivity | discriminate]. }
  rewrite bind_lift.
  destruct (py_len (dict_get result "list" (PList []))) as [n | e];
    [| eexists _, _; split; [reflexivity |]; split; [reflexivity | discriminate]].
  rewrite bind_print, after_after, bind_lift.
  destruct (items (dict_get result "list" (PList []))) as [entries | e];
    [| eexists _, _; split; [reflexivity |]; split; [reflexivity | discriminate]].
  rewrite bind_eq.
  match goal with
  | |- context [for_each _ ?l ?s0] =>
      destruct (listing_prints l s0) as (r & evs & Hrun & Hevs & _)
  end.
  rewrite Hrun, Hout, after_after. apply listing_is_print in Hevs.
  destruct r as [[] | e]; eexists _, _;
    (split; [reflexivity |]; split; [| discriminate]);
    rewrite forallb_app, Hevs; reflexivity.
Qed.

(** With [--output] given and files to fetch, the directory is the output
    directory joined with the task identifier.  When the identifier is not a
    string (a response without [uuid] leaves it [None]), the step raises
    [TypeError] after the list is printed, and nothing is fetched. *)
Theorem download_step_needs_an_identifier (output : option string) (out : string)
    (task_uuid : pyval) (result : gmap string pyval) (entries : list pyval) (s : state) :
  result !! "error" = None ->
  result !! "list" = Some (PList entries) ->
  entries <> [] ->
  Forall (fun x => exists d, x = PDict d) entries ->
  nonempty_str output = Some out ->
  (forall u, task_uuid <> PStr u) ->
  exists evs,
    show_result st output task_uuid result s = (Raise TypeError, after evs 0 s)
    /\ forallb is_print evs = true.
Proof.
  intros Herr Hlist Hne Hobj Hout Huuid. unfold show_result.
  rewrite (dict_in_None _ _ Herr), bind_print. cbv zeta.
  unfold dict_get at 1 2 3. rewrite Hlist.
  destruct entries as [| x entries']; [congruence |].
  change (truthy (PList (x :: entries'))) with true. cbv iota.
  rewrite bind_lift. cbn [py_len]. rewrite bind_print, after_after, bind_lift. cbn [items].
  rewrite bind_eq.
  match goal with
  | |- context [for_each _ ?l ?s0] =>
      destruct (listing_prints l s0) as (r & evs & Hrun & Hevs & Hok)
  end.
  rewrite Hrun, (Hok (enumerate_objects _ Hobj)), Hout, after_after.
  apply listing_is_print in Hevs.
  destruct task_uuid as [| | | u | |]; try (exfalso; exact (Huuid u eq_refl));
    (eexists; split; [reflexivity |]; rewrite forallb_app, Hevs; reflexivity).
Qed.




End ShowResult.

Lemma nothing_downloaded_without_output_or_on_error_witness :
  nonempty_str None = None
  /\ exists r evs,
       show_result Samples.cdn None (PStr "task-1") Samples.manifest initial
       = (r, after evs 0 initial)
       /\ forallb is_print evs = true
       /\ (dict_in "error" Samples.manifest = true -> r = Ok tt).
Proof.
  split; [reflexivity |].
  apply (nothing_downloaded_without_output_or_on_error Samples.cdn None (PStr "task-1")
           Samples.manifest initial).
  right. reflexivity.
Defined.

Lemma download_step_needs_an_identifier_witness :
  Samples.manifest !! "error" = None
  /\ nonempty_str (Some "out") = Some "out"
  /\ exists evs,
       show_result Samples.cdn (Some "out") PNone
         {[ "list" := PList Samples.three_assets ]} initial
       = (Raise TypeError, after evs 0 initial)
       /\ forallb is_print evs = true.
Proof.
  split; [reflexivity |]. split; [reflexivity |].
  apply (download_step_needs_an_identifier Samples.cdn (Some "out") "out" PNone
           {[ "list" := PList Samples.three_assets ]} Samples.three_assets initial).
  - reflexivity.
  - reflexivity.
  - discriminate.
  - repeat (constructor; [eexists; reflexivity |]). constructor.
  - reflexivity.
  - discriminate.
Defined.

